(** * threeML analysis results: persistence and reconstruction

    A shallow embedding of [threeML/analysis_results.py] and
    [threeML/io/fits_file.py].  Python values are modelled by inductive
    types, Python floats by the kernel's binary64 floats, exceptions by an
    explicit result type, and the external collaborators (astropy's FITS
    tables, the YAML model parser, numpy's random draws) by the data they
    hand back. *)

From Stdlib Require Import List String Ascii Bool Arith ZArith Lia.
From Stdlib Require Import Floats DecimalString DecimalNat.
From Stdlib Require Uint63.
Import ListNotations.

Set Implicit Arguments.
Set Warnings "-register-all,-inexact-float".

(* ================================================================= *)
(** * Python strings *)

Module PyStr.

(** A Python 2 [str] is a sequence of bytes. *)
Definition t := list ascii.

Definition of_string (s : string) : t := list_ascii_of_string s.

Definition eqb (a b : t) : bool :=
  if list_eq_dec ascii_dec a b then true else false.

(** [s.startswith(p)] *)
Fixpoint starts_with (p s : t) : bool :=
  match p, s with
  | [], _ => true
  | _ :: _, [] => false
  | a :: p', b :: s' => Ascii.eqb a b && starts_with p' s'
  end.

(** [p in s] *)
Fixpoint contains (p s : t) : bool :=
  starts_with p s ||
  match s with
  | [] => false
  | _ :: s' => contains p s'
  end.

(** [s.find(p) == 0] *)
Definition find_is_0 (p s : t) : bool := starts_with p s.

(** The scan of [str.replace] for a non-empty [old]: [skip] counts the
    characters of a match that are still to be dropped. *)
Fixpoint replace_from (old new : t) (skip : nat) (s : t) : t :=
  match s with
  | [] => []
  | c :: s' =>
      match skip with
      | S k => replace_from old new k s'
      | O =>
          if starts_with old s
          then new ++ replace_from old new (List.length old - 1) s'
          else c :: replace_from old new 0 s'
      end
  end.

(** [s.replace(old, new)]: every non-overlapping occurrence of [old], found
    from the left, becomes [new]; an empty [old] matches between characters. *)
Definition replace (old new s : t) : t :=
  match old with
  | [] => new ++ flat_map (fun c => c :: new) s
  | _ :: _ => replace_from old new 0 s
  end.

End PyStr.

Definition py (s : string) : PyStr.t := PyStr.of_string s.

(* ================================================================= *)
(** * The escaping codec *)

Module Escaping.
Import PyStr.

(** [_subs]: the characters that cannot be stored in a FITS keyword and
    their placeholders. *)
Definition _subs : list (PyStr.t * PyStr.t) :=
  [ (["010"%char], py "_NEWLINE_");
    (py "'", py "_QUOTE1_");
    (["034"%char], py "_QUOTE2_");
    (py "{", py "_PARO_");
    (py "}", py "_PARC_") ].

(** A Python [for sub in subs: yaml_code = body(yaml_code, sub)] loop. *)
Definition for_subs (body : PyStr.t -> PyStr.t * PyStr.t -> PyStr.t)
  (subs : list (PyStr.t * PyStr.t)) (yaml_code : PyStr.t) : PyStr.t :=
  fold_left body subs yaml_code.

Definition _escape_yaml_for_fits (yaml_code : PyStr.t) : PyStr.t :=
  for_subs (fun code sub => replace (fst sub) (snd sub) code) _subs yaml_code.

Definition _escape_back_yaml_from_fits (yaml_code : PyStr.t) : PyStr.t :=
  for_subs (fun code sub => replace (snd sub) (fst sub) code) _subs yaml_code.

(** The reading of the specification in which the substitutions are undone
    last-to-first. *)
Definition unescape_reversed (yaml_code : PyStr.t) : PyStr.t :=
  for_subs (fun code sub => replace (snd sub) (fst sub) code) (rev _subs) yaml_code.

(** The reserved placeholder tokens and the words between their underscores. *)
Definition placeholders : list PyStr.t := map snd _subs.

Definition placeholder_words : list PyStr.t :=
  [ py "NEWLINE"; py "QUOTE1"; py "QUOTE2"; py "PARO"; py "PARC" ].

Definition free_of (words : list PyStr.t) (x : PyStr.t) : bool :=
  forallb (fun w => negb (contains w x)) words.

(** The placeholder built around a word, and the character-by-character
    encoding induced by a table of (character, word) pairs. *)
Definition wrap (word : PyStr.t) : PyStr.t := "_"%char :: word ++ ["_"%char].

Definition enc (table : list (ascii * PyStr.t)) (a : ascii) : PyStr.t :=
  match find (fun p => Ascii.eqb (fst p) a) table with
  | Some p => wrap (snd p)
  | None => [a]
  end.

Definition word_table : list (ascii * PyStr.t) :=
  [ ("010"%char, py "NEWLINE"); ("'"%char, py "QUOTE1");
    ("034"%char, py "QUOTE2"); ("{"%char, py "PARO"); ("}"%char, py "PARC") ].

Definition no_underscore (w : PyStr.t) : Prop := Forall (fun a => a <> "_"%char) w.

(** A multi-line text with both kinds of quotes and with braces. *)
Definition sample_yaml : PyStr.t :=
  py "a: 'b'" ++ ["010"%char] ++ py "{c: " ++ ["034"%char] ++ py "d" ++ ["034"%char] ++ py "}".

End Escaping.


(* ================================================================= *)
(** * Python values, exceptions and warnings *)

Module Py.

(** The numpy scalar types that can occur as [np.array(x).dtype.type]. *)
Inductive dtype :=
| int8 | int16 | int32 | int64
| uint8 | uint16 | uint32 | uint64
| float16 | float32 | float64
| complex128 | bool_ | string_ | object_.

Definition dtype_eq_dec (a b : dtype) : {a = b} + {a <> b}.
Proof. decide equality. Defined.

Definition dtype_eqb (a b : dtype) : bool :=
  if dtype_eq_dec a b then true else false.

(** The Python values that reach the FITS layer. *)
Inductive pyval :=
| PNone
| PBool (b : bool)
| PInt (z : Z)
| PFloat (x : float)
| PStr (s : PyStr.t)
| PNumpy (t : dtype) (x : float)            (* a numpy scalar of type [t] *)
| PQuantity (value : pyval) (unit : PyStr.t) (* an astropy Quantity *)
| PList (items : list pyval)
| PArray (t : dtype) (items : list pyval)    (* an ndarray of type [t] *)
| PObject (repr : PyStr.t).                  (* any other object *)

(** The arguments of a [%]-formatted message. *)
Inductive fmt_arg :=
| AInt (z : Z)
| ANat (n : nat)
| AFloat (x : float)
| AStr (s : PyStr.t)
| AShape (shape : list nat)
| ADtype (t : dtype).

(** A message: the format string of the source and its arguments. *)
Record message := Fmt { template : string; args : list fmt_arg }.

Inductive exn :=
| AssertionError (msg : option message)
| RuntimeError (msg : message)
| ValueError (msg : message)
| KeyError (key : fmt_arg)
| IndexError
| TypeError
| AttributeError
| NumpyError.                                (* an exception raised inside numpy *)

(** The outcome of a call: a value together with the warnings issued on the
    way, or an exception. *)
Inductive outcome (A : Type) :=
| Return (a : A) (warnings : list message)
| Raise (e : exn).

Arguments Raise {A} e.

Definition ret {A} (a : A) : outcome A := Return a [].

Definition bind {A B} (m : outcome A) (k : A -> outcome B) : outcome B :=
  match m with
  | Raise e => Raise e
  | Return a w =>
      match k a with
      | Raise e => Raise e
      | Return b w' => Return b (w ++ w')
      end
  end.

Definition warn (m : message) : outcome unit := Return tt [m].

(** [assert cond, msg] *)
Definition assert (cond : bool) (msg : option message) : outcome unit :=
  if cond then ret tt else Raise (AssertionError msg).

(** A [for] loop whose body may raise. *)
Fixpoint for_each {A S} (body : S -> A -> outcome S) (items : list A) (s : S) : outcome S :=
  match items with
  | [] => ret s
  | a :: rest => bind (body s a) (for_each body rest)
  end.

(** [map] with a function that may raise. *)
Fixpoint map_m {A B} (f : A -> outcome B) (items : list A) : outcome (list B) :=
  match items with
  | [] => ret []
  | a :: rest => bind (f a) (fun b => bind (map_m f rest) (fun bs => ret (b :: bs)))
  end.

(** [len(x)] *)
Fixpoint len (v : pyval) : outcome nat :=
  match v with
  | PStr s => ret (List.length s)
  | PList items | PArray _ items => ret (List.length items)
  | PQuantity value _ => len value
  | _ => Raise TypeError
  end.

(** [x[0]] *)
Fixpoint getitem0 (v : pyval) : outcome pyval :=
  match v with
  | PList items | PArray _ items =>
      match items with
      | [] => Raise IndexError
      | first :: _ => ret first
      end
  | PStr s =>
      match s with
      | [] => Raise IndexError
      | c :: _ => ret (PStr [c])
      end
  | PQuantity value unit =>
      bind (getitem0 value) (fun first => ret (PQuantity first unit))
  | _ => Raise TypeError
  end.

(** The items a [for] loop over [x] visits. *)
Fixpoint iter (v : pyval) : outcome (list pyval) :=
  match v with
  | PList items | PArray _ items => ret items
  | PStr s => ret (map (fun c => PStr [c]) s)
  | PQuantity value unit =>
      bind (iter value) (fun items => ret (map (fun i => PQuantity i unit) items))
  | _ => Raise TypeError
  end.

(** [try: m except: handler] with a bare [except]. *)
Definition try_except {A} (m handler : outcome A) : outcome A :=
  match m with
  | Raise _ => handler
  | Return _ _ => m
  end.

(** ["%i" % n] for a natural number. *)
Definition format_i (n : nat) : PyStr.t :=
  PyStr.of_string (NilEmpty.string_of_uint (Nat.to_uint n)).

(** [int(s)] on a string of decimal digits; anything else is refused here
    (Python also accepts a sign and surrounding blanks, which the keywords
    read back never have). *)
Definition int_of_str (s : PyStr.t) : outcome nat :=
  match NilEmpty.uint_of_string (string_of_list_ascii s) with
  | Some d => ret (Nat.of_uint d)
  | None => Raise (ValueError (Fmt "invalid literal for int() with base 10: %s" [AStr s]))
  end.

(** [float(z)] for an integer: the nearest binary64 number. *)
Definition float_of_Z (z : Z) : float :=
  SF2Prim (SpecFloat.binary_normalize prec emax z 0 false).

(** [float(n)] for a count (a count fits in 63 bits). *)
Definition float_of_nat (n : nat) : float := PrimFloat.of_uint63 (Uint63.of_Z (Z.of_nat n)).

(** A binary64 number that is not negative (or not a number). *)
Definition not_negative (x : spec_float) : Prop :=
  match x with
  | S754_zero false | S754_infinity false | S754_finite false _ _ | S754_nan => True
  | _ => False
  end.

(** [float(x)]; a string would be parsed by Python, which is not modelled:
    the headers written by this program hold numbers where [float] is used. *)
Definition float_of (v : pyval) : outcome float :=
  match v with
  | PFloat x | PNumpy _ x => ret x
  | PInt z => ret (float_of_Z z)
  | PBool b => ret (if b then 1 else 0)%float
  | PStr s => Raise (ValueError (Fmt "could not convert string to float: %s" [AStr s]))
  | _ => Raise TypeError
  end.

End Py.

Notation "x <- m ;; k" := (Py.bind m (fun x => k))
  (at level 61, m at next level, right associativity).
Notation "m ;;; k" := (Py.bind m (fun _ => k))
  (at level 61, right associativity).

(* ================================================================= *)
(** * threeML/io/fits_file.py *)

Module FitsFile.
Import Py.

(** [_NUMPY_TO_FITS_CODE] *)
Definition _NUMPY_TO_FITS_CODE (t : dtype) : option PyStr.t :=
  match t with
  | int16 => Some (py "I")
  | int32 => Some (py "J")
  | int64 => Some (py "K")
  | uint16 => Some (py "U")
  | uint32 => Some (py "V")
  | float32 => Some (py "E")
  | float64 => Some (py "D")
  | _ => None
  end.

(** [_NUMPY_TO_FITS_CODE[t]] *)
Definition fits_code (t : dtype) : outcome PyStr.t :=
  match _NUMPY_TO_FITS_CODE t with
  | Some code => ret code
  | None => Raise (KeyError (ADtype t))
  end.

(** ** The astropy objects the module builds *)

Record card := Card { keyword : PyStr.t; card_value : pyval; comment : option PyStr.t }.

Definition Header := list card.

(** [header.get(key)] *)
Definition header_get (header : Header) (key : PyStr.t) : pyval :=
  match find (fun c => PyStr.eqb (keyword c) key) header with
  | Some c => card_value c
  | None => PNone
  end.

(** [header.set(key, value, comment)]: an existing card is updated in place,
    a new one goes to the end. *)
Fixpoint header_set (header : Header) (key : PyStr.t) (v : pyval) (cmt : option PyStr.t) : Header :=
  match header with
  | [] => [Card key v cmt]
  | c :: rest =>
      if PyStr.eqb (keyword c) key
      then Card key v (match cmt with Some _ => cmt | None => comment c end) :: rest
      else c :: header_set rest key v cmt
  end.

(** [header.keys()] *)
Definition header_keys (header : Header) : list PyStr.t := map keyword header.

Record Column := MkColumn {
  col_name : PyStr.t;
  col_format : PyStr.t;
  col_unit : option PyStr.t;
  col_array : pyval }.

(** A binary table extension: its header cards and its columns.  The
    structural keywords astropy adds on its own (XTENSION, NAXIS, TTYPEn,
    TFORMn, ...) are left out. *)
Record BinTableHDU := MkHDU { hdu_header : Header; hdu_columns : list Column }.

(** [np.isscalar(x)] *)
Definition isscalar (v : pyval) : bool :=
  match v with
  | PBool _ | PInt _ | PFloat _ | PStr _ | PNumpy _ _ => true
  | _ => false
  end.

(** [isinstance(x, list) or isinstance(x, np.ndarray)] *)
Definition is_sequence (v : pyval) : bool :=
  match v with
  | PList _ | PArray _ _ => true
  | _ => false
  end.

(** [max(items, key=len)]: the first item of greatest length. *)
Definition max_by_len (items : list pyval) : outcome pyval :=
  match items with
  | [] => Raise (ValueError (Fmt "max() arg is an empty sequence" []))
  | first :: rest =>
      n0 <- len first ;;
      best <- for_each (fun (best : pyval * nat) item =>
                          n <- len item ;;
                          ret (if snd best <? n then (item, n) else best))
                       rest (first, n0) ;;
      ret (fst best)
  end.

Section Numpy.

(** What numpy does with a Python list is taken as given: the scalar type
    it infers for the list ([None] when it raises), and whether a value can
    be converted to a requested type. *)
Variable list_dtype : list pyval -> option dtype.
Variable coercible : pyval -> dtype -> bool.

(** The version string of the installed threeML distribution. *)
Variable version : PyStr.t.

(** [np.array(x).dtype.type]; a Python integer is a C long. *)
Fixpoint array_dtype (v : pyval) : outcome dtype :=
  match v with
  | PNone | PObject _ => ret object_
  | PBool _ => ret bool_
  | PInt _ => ret int64
  | PFloat _ => ret float64
  | PStr _ => ret string_
  | PNumpy t _ => ret t
  | PQuantity value _ => array_dtype value
  | PArray t _ => ret t
  | PList items =>
      match list_dtype items with
      | Some t => ret t
      | None => Raise NumpyError
      end
  end.

(** Whether [np.array(x, t)] succeeds; an array already of type [t] is
    taken as it is. *)
Definition can_coerce (v : pyval) (t : dtype) : bool :=
  match v with
  | PArray t' _ => dtype_eqb t' t || coercible v t
  | _ => coercible v t
  end.

(** The body of the loop of [FITSExtension.__init__]: the format and the
    unit of one column, decided on [column_data[0]]. *)
Definition make_column (column_name : PyStr.t) (column_data : pyval) : outcome Column :=
  test_value <- getitem0 column_data ;;
  fu <- match test_value with
        | PQuantity value unit =>
            t <- array_dtype value ;;
            format <- fits_code t ;;
            ret (format, Some unit)
        | PStr _ =>
            items <- iter column_data ;;
            longest <- max_by_len items ;;
            max_string_length <- len longest ;;
            ret (format_i max_string_length ++ py "A", None)
        | _ =>
            if isscalar test_value then
              t <- array_dtype test_value ;;
              format <- fits_code t ;;
              ret (format, None)
            else
              match test_value with
              | PList _ | PArray _ _ =>
                  col_type <- try_except
                                (first <- getitem0 test_value ;; array_dtype first)
                                (Raise (RuntimeError
                                   (Fmt "Could not understand type of column %s"
                                        [AStr column_name]))) ;;
                  assert (negb (dtype_eqb col_type object_)) None ;;;
                  if can_coerce test_value col_type then
                    line_length <- len test_value ;;
                    code <- fits_code col_type ;;
                    ret (format_i line_length ++ code, None)
                  else
                    Raise (RuntimeError
                             (Fmt "Column %s contain data which cannot be coerced to %s"
                                  [AStr column_name; ADtype col_type]))
              | _ =>
                  Raise (RuntimeError
                           (Fmt "Column %s in dataframe contains objects which are not strings"
                                [AStr column_name]))
              end
        end ;;
  ret (MkColumn column_name (fst fu) (snd fu) column_data).

(** [FITSExtension.__init__(data_tuple, header_tuple)]; the [CREATOR] card
    is the one the last statement of the constructor sets. *)
Definition FITSExtension (data_tuple : list (PyStr.t * pyval)) (header_tuple : Header)
  : outcome BinTableHDU :=
  fits_columns <- map_m (fun c => make_column (fst c) (snd c)) data_tuple ;;
  ret (MkHDU (header_set header_tuple (py "CREATOR")
                (PStr (py "3ML v." ++ version))
                (Some (py "(G.Vianello, giacomov@slac.stanford.edu)")))
             fits_columns).

End Numpy.

(** A numpy that infers no type for a Python list and converts nothing;
    used where the values at hand never reach either question. *)
Definition no_list_dtype (items : list pyval) : option dtype := None.
Definition not_coercible (v : pyval) (t : dtype) : bool := false.

(** Two small columns. *)
Definition names_column : pyval := PList [PStr (py "norm"); PStr (py "index"); PStr (py "K")].
Definition opaque_column : pyval := PList [PList [PNone; PInt 1]].
Definition uint64_column : pyval := PList [PNumpy uint64 1].

(** ** A FITS file *)

(** [FITSFile]: the primary header followed by the extensions. *)
Record FITSFile := MkFile { primary_header : Header; file_extensions : list BinTableHDU }.

(** [hdu.name] and [hdu.ver], read from EXTNAME and EXTVER. *)
Definition hdu_name (h : BinTableHDU) : PyStr.t :=
  match header_get (hdu_header h) (py "EXTNAME") with
  | PStr s => s
  | _ => []
  end.

Definition hdu_ver (h : BinTableHDU) : Z :=
  match header_get (hdu_header h) (py "EXTVER") with
  | PInt z => z
  | _ => 1%Z
  end.

(** [f[name]] and [f[name, ver]] *)
Definition getitem_name (f : FITSFile) (name : PyStr.t) : outcome BinTableHDU :=
  match find (fun h => PyStr.eqb (hdu_name h) name) (file_extensions f) with
  | Some h => ret h
  | None => Raise (KeyError (AStr name))
  end.

Definition getitem_name_ver (f : FITSFile) (name : PyStr.t) (ver : Z) : outcome BinTableHDU :=
  match find (fun h => PyStr.eqb (hdu_name h) name && (hdu_ver h =? ver)%Z) (file_extensions f) with
  | Some h => ret h
  | None => Raise (KeyError (AStr name))
  end.

(** [hdu.data.field(name)] *)
Definition data_field (h : BinTableHDU) (name : PyStr.t) : outcome pyval :=
  match find (fun c => PyStr.eqb (col_name c) name) (hdu_columns h) with
  | Some c => ret (col_array c)
  | None => Raise (KeyError (AStr name))
  end.

End FitsFile.

(* ================================================================= *)
(** * numpy arrays of floats *)

Module Np.
Import Py.

(** A two-dimensional float array of shape [(length rows, ncols)]; the
    number of columns is kept apart because an array may have no row. *)
Record matrix := Matrix { ncols : nat; rows : list (list float) }.

(** A float array of at most two dimensions. *)
Inductive ndarray :=
| A0 (x : float)
| A1 (v : list float)
| A2 (m : matrix).

(** [a.shape] *)
Definition mshape (m : matrix) : list nat := [List.length (rows m); ncols m].

Definition shape (a : ndarray) : list nat :=
  match a with
  | A0 _ => []
  | A1 v => [List.length v]
  | A2 m => mshape m
  end.

Definition shape_eqb (s1 s2 : list nat) : bool :=
  if list_eq_dec Nat.eq_dec s1 s2 then true else false.

(** Every row has [ncols] entries. *)
Definition rectangular (m : matrix) : Prop :=
  Forall (fun r => List.length r = ncols m) (rows m).

(** [m.T] *)
Definition transpose (m : matrix) : matrix :=
  Matrix (List.length (rows m))
         (map (fun j => map (fun r => nth j r nan) (rows m)) (seq 0 (ncols m))).

Definition T (a : ndarray) : ndarray :=
  match a with
  | A2 m => A2 (transpose m)
  | _ => a
  end.

(** [m[i][j]] read off the rows. *)
Definition cell (m : matrix) (i j : nat) : float := nth j (nth i (rows m) []) nan.

(** A square array equal to its transpose. *)
Definition symmetric (m : matrix) : Prop := transpose m = m.

(** [np.zeros((n, m))], [np.zeros(n)] and [np.ones((n, m))] *)
Definition zeros2 (n m : nat) : matrix := Matrix m (repeat (repeat 0%float m) n).
Definition zeros1 (n : nat) : list float := repeat 0%float n.
Definition ones2 (n m : nat) : matrix := Matrix m (repeat (repeat 1%float m) n).

(** [m * v], the vector broadcast over the rows. *)
Definition mul_rows (m : matrix) (v : list float) : matrix :=
  Matrix (ncols m) (map (fun r => map (fun p => (fst p * snd p)%float) (combine r v)) (rows m)).

(** [np.isfinite(x)] and [np.all(np.isfinite(m))] *)
Definition isfinite (x : float) : bool := PrimFloat.is_finite x.

Definition all_finite (a : ndarray) : bool :=
  match a with
  | A0 x => isfinite x
  | A1 v => forallb isfinite v
  | A2 m => forallb (forallb isfinite) (rows m)
  end.

(** [m[i, j]] for non-negative indices. *)
Definition getitem2 (m : matrix) (i j : nat) : outcome float :=
  match nth_error (rows m) i with
  | None => Raise IndexError
  | Some r =>
      if j <? ncols m then
        match nth_error r j with
        | Some x => ret x
        | None => Raise IndexError
        end
      else Raise IndexError
  end.

Fixpoint list_set {A} (l : list A) (i : nat) (x : A) : list A :=
  match l, i with
  | [], _ => []
  | _ :: rest, O => x :: rest
  | a :: rest, S i' => a :: list_set rest i' x
  end.

(** [m[i, j] = x] *)
Definition setitem2 (m : matrix) (i j : nat) (x : float) : outcome matrix :=
  match nth_error (rows m) i with
  | None => Raise IndexError
  | Some r =>
      if (j <? ncols m) && (j <? List.length r)
      then ret (Matrix (ncols m) (list_set (rows m) i (list_set r j x)))
      else Raise IndexError
  end.

(** The array after [m[i, j] = x]. *)
Definition set_cell (m : matrix) (i j : nat) (x : float) : matrix :=
  Matrix (ncols m) (list_set (rows m) i (list_set (nth i (rows m) []) j x)).

(** An array of shape [(n, n)]. *)
Definition square (n : nat) (m : matrix) : Prop :=
  ncols m = n /\ List.length (rows m) = n /\ Forall (fun r => List.length r = n) (rows m).

(** A float array as the Python sequence it is. *)
Definition py_of_vector (v : list float) : pyval :=
  PArray float64 (map (PNumpy float64) v).

Definition py_of_matrix (m : matrix) : pyval :=
  PArray float64 (map py_of_vector (rows m)).

(** The float array a column read back from a table holds. *)
Definition scalar_of_py (v : pyval) : option float :=
  match v with
  | PFloat x | PNumpy _ x => Some x
  | PInt z => Some (float_of_Z z)
  | _ => None
  end.

Fixpoint option_all {A} (l : list (option A)) : option (list A) :=
  match l with
  | [] => Some []
  | None :: _ => None
  | Some a :: rest =>
      match option_all rest with
      | Some r => Some (a :: r)
      | None => None
      end
  end.

Definition vector_of_py (v : pyval) : option (list float) :=
  match v with
  | PList items | PArray _ items => option_all (map scalar_of_py items)
  | _ => None
  end.

Definition ndarray_of_py (v : pyval) : outcome ndarray :=
  match v with
  | PList items | PArray _ items =>
      match option_all (map scalar_of_py items) with
      | Some xs => ret (A1 xs)
      | None =>
          match option_all (map vector_of_py items) with
          | Some [] => Raise NumpyError
          | Some (r :: rs) =>
              if forallb (fun r' => List.length r' =? List.length r) rs
              then ret (A2 (Matrix (List.length r) (r :: rs)))
              else Raise NumpyError
          | None => Raise NumpyError
          end
      end
  | _ =>
      match scalar_of_py v with
      | Some x => ret (A0 x)
      | None => Raise NumpyError
      end
  end.

End Np.

(* ================================================================= *)
(** * The model, as astromodels hands it over *)

Module Astromodels.

Record FreeParameter := MkParameter {
  path : PyStr.t;
  value : float;
  min_value : option float;
  max_value : option float;
  unit : PyStr.t }.

(** Only the ordered mapping of the free parameters is looked at. *)
Record Model := MkModel { free_parameters : list FreeParameter }.

(** [astromodels.clone_model]: values are immutable here, a clone is the
    value itself. *)
Definition clone_model (m : Model) : Model := m.

(** What astromodels guarantees of a parameter: its value lies within the
    bounds it declares. *)
Definition within_bounds (p : FreeParameter) : bool :=
  match max_value p with
  | Some hi => negb (hi <? value p)%float
  | None => true
  end &&
  match min_value p with
  | Some lo => negb (value p <? lo)%float
  | None => true
  end.

End Astromodels.

(* ================================================================= *)
(** * threeML/analysis_results.py: the result records *)

Module AnalysisResults.
Import Py Np Astromodels.

(** Modelled from the spec: [threeML/random_variates.py] is not among the
    sources.  A random variate is a sample vector with a designated best
    value. *)
Record RandomVariates := MkVariates { rv_samples : list float; rv_value : float }.

(** The fields [_AnalysisResults.__init__] sets. *)
Record _AnalysisResults := MkBase {
  _n_free_parameters : nat;
  _optimized_model : Model;
  _samples_transposed : matrix;
  _optimal_statistic_values : list (pyval * float);
  _free_parameters : list FreeParameter;
  _values : list float;
  _analysis_type : PyStr.t }.

(** The two subclasses; [MLEResults] adds [_covariance_matrix]. *)
Inductive Results :=
| MLEResults (base : _AnalysisResults) (_covariance_matrix : matrix)
| BayesianResults (base : _AnalysisResults).

Definition base_of (r : Results) : _AnalysisResults :=
  match r with
  | MLEResults b _ => b
  | BayesianResults b => b
  end.

Definition analysis_type (r : Results) : PyStr.t := _analysis_type (base_of r).
Definition samples (r : Results) : matrix := _samples_transposed (base_of r).
Definition optimized_model (r : Results) : Model := clone_model (_optimized_model (base_of r)).
Definition optimal_statistic_values (r : Results) : list (pyval * float) :=
  _optimal_statistic_values (base_of r).

(** [_AnalysisResults.__init__] *)
Definition _AnalysisResults__init__ (optimized_model : Model) (samples : matrix)
  (statistic_values : list (pyval * float)) (analysis_type : PyStr.t)
  : outcome _AnalysisResults :=
  let n_free := List.length (free_parameters optimized_model) in
  assert (ncols samples =? n_free)
         (Some (Fmt "Number of free parameters (%s) and set of samples (%s) do not agree."
                    [ANat (ncols samples); ANat n_free])) ;;;
  let model := clone_model optimized_model in
  ret (MkBase n_free model (transpose samples) statistic_values
              (free_parameters model)
              (map value (free_parameters model))
              analysis_type).

(** [BayesianResults.__init__] *)
Definition BayesianResults__init__ (optimized_model : Model) (samples : matrix)
  (posterior_values : list (pyval * float)) : outcome Results :=
  base <- _AnalysisResults__init__ optimized_model samples posterior_values (py "Bayesian") ;;
  ret (BayesianResults base).

(** [np.array(bounds, float)]: a missing bound becomes not-a-number. *)
Definition float_array (bounds : list (option float)) : list float :=
  map (fun b => match b with Some x => x | None => nan end) bounds.

(** [a[np.isnan(a)] = fill] *)
Definition fix_nans (a : list float) (fill : float) : list float :=
  map (fun x => if PrimFloat.is_nan x then fill else x) a.

(** The two arrays of bounds, every missing bound made infinite. *)
Definition low_bounds (params : list FreeParameter) : list float :=
  fix_nans (float_array (map min_value params)) neg_infinity.

Definition hi_bounds (params : list FreeParameter) : list float :=
  fix_nans (float_array (map max_value params)) infinity.

(** [np.any(sample > hi_bounds) or np.any(sample < low_bounds)] *)
Definition out_of_bounds (low_bounds hi_bounds sample : list float) : bool :=
  existsb (fun p => (snd p <? fst p)%float) (combine sample hi_bounds)
  || existsb (fun p => (fst p <? snd p)%float) (combine sample low_bounds).

(** [samples[mask, :]] *)
Fixpoint select_rows (rs : list (list float)) (mask : list bool) : list (list float) :=
  match rs, mask with
  | r :: rs', b :: mask' => if b then r :: select_rows rs' mask' else select_rows rs' mask'
  | _, _ => []
  end.

(** [np.sum(mask)] *)
Definition count_true (mask : list bool) : nat := List.length (filter (fun b => b) mask).

(** A coordinate lies outside the bounds a parameter declares; a bound that
    is missing does not constrain. *)
Definition outside_bounds (p : FreeParameter) (x : float) : bool :=
  match max_value p with
  | Some hi => (hi <? x)%float
  | None => false
  end ||
  match min_value p with
  | Some lo => (x <? lo)%float
  | None => false
  end.

Definition violates (params : list FreeParameter) (sample : list float) : bool :=
  existsb (fun xp => outside_bounds (snd xp) (fst xp)) (combine sample params).

(** The comparison [removed > n / 100.0] made on floats agrees, for [n]
    drawn samples, with the comparison [100 * removed > n] on integers. *)
Definition threshold_exact (n : nat) : bool :=
  forallb (fun removed =>
             Bool.eqb (float_of_nat n / 100 <? float_of_nat removed)%float
                      (Z.of_nat n <? 100 * Z.of_nat removed)%Z)
          (seq 0 (S n)).

(** A generator that draws nothing, and one that draws four fixed rows. *)
Definition no_draw (mean : list float) (cov : matrix) (n : nat) : list (list float) := [].

Definition four_draws (mean : list float) (cov : matrix) (n : nat) : list (list float) :=
  [[1; 0.5]; [2.5; 0.125]; [-0.5; 3]; [1; 1]]%float.

(** A model with two free parameters, the first one bounded, and one with
    no free parameter. *)
Definition two_parameters : Model :=
  MkModel [ MkParameter (py "src.K") 1.5%float (Some 0%float) (Some 2%float) (py "keV");
            MkParameter (py "src.index") (-1)%float None None (py "") ].

Definition no_parameters : Model := MkModel [].

Definition covariance_2x2 : matrix := Matrix 2 [[1; 0.5]; [0.5; 2]]%float.
Definition covariance_3x3 : matrix := Matrix 3 [[1; 0; 0]; [0; 1; 0]; [0; 0; 1]]%float.

Section Sampling.

(** The rows [np.random.multivariate_normal(mean, cov, n)] draws. *)
Variable random_normal : list float -> matrix -> nat -> list (list float).

Definition multivariate_normal (mean : list float) (cov : matrix) (n : nat) : matrix :=
  Matrix (List.length mean) (random_normal mean cov n).

(** [MLEResults.__init__]; [A0] is the array of shape [()] that
    [np.array(None, float)] gives. *)
Definition MLEResults__init__ (optimized_model : Model) (covariance_matrix : ndarray)
  (likelihood_values : list (pyval * float)) (n_samples : nat) : outcome Results :=
  let values := map value (free_parameters optimized_model) in
  let expected_shape := [List.length values; List.length values] in
  sc <- (if negb (shape_eqb (shape covariance_matrix) []) then
           assert (shape_eqb (shape covariance_matrix) expected_shape)
                  (Some (Fmt "Covariance matrix has wrong shape. Got %s, should be %s"
                             [AShape (shape covariance_matrix); AShape expected_shape])) ;;;
           assert (all_finite covariance_matrix)
                  (Some (Fmt "Covariance matrix contains Nan or inf. Cannot continue." [])) ;;;
           match covariance_matrix with
           | A2 cov => ret (multivariate_normal values cov n_samples, cov)
           | _ => Raise NumpyError   (* not reached: the shape has two entries *)
           end
         else
           ret (mul_rows (ones2 n_samples (List.length values)) values,
                zeros2 (List.length values) (List.length values))) ;;
  let samples := fst sc in
  let covariance_matrix := snd sc in
  let low_bounds := low_bounds (free_parameters optimized_model) in
  let hi_bounds := hi_bounds (free_parameters optimized_model) in
  let to_be_kept_mask :=
    map (fun sample => negb (out_of_bounds low_bounds hi_bounds sample)) (rows samples) in
  let n_drawn := List.length (rows samples) in
  let n_removed_samples := n_drawn - count_true to_be_kept_mask in
  (if (float_of_nat n_drawn / 100 <? float_of_nat n_removed_samples)%float then
     warn (Fmt ("%s percent of samples have been thrown away because they failed the constraints "
                ++ "on the parameters. This results might not be suitable for error propagation. "
                ++ "Enlarge the boundaries until you loose less than 1 percent of the samples.")
               [AFloat (float_of_nat n_removed_samples / float_of_nat n_drawn * 100)%float])
   else ret tt) ;;;
  let samples := Matrix (ncols samples) (select_rows (rows samples) to_be_kept_mask) in
  base <- _AnalysisResults__init__ optimized_model samples likelihood_values (py "MLE") ;;
  ret (MLEResults base covariance_matrix).

End Sampling.

(** [self.get_variates(param_path)] *)
Fixpoint index_of (paths : list PyStr.t) (p : PyStr.t) : option nat :=
  match paths with
  | [] => None
  | q :: rest => if PyStr.eqb q p then Some 0 else option_map S (index_of rest p)
  end.

Definition get_variates (self : _AnalysisResults) (param_path : PyStr.t) : outcome RandomVariates :=
  assert (existsb (fun p => PyStr.eqb (path p) param_path)
                  (free_parameters (_optimized_model self)))
         (Some (Fmt "Parameter %s is not a free parameters of the model" [AStr param_path])) ;;;
  match index_of (map path (_free_parameters self)) param_path with
  | None => Raise (ValueError (Fmt "%s is not in list" [AStr param_path]))
  | Some param_index =>
      match nth_error (_values self) param_index,
            nth_error (rows (_samples_transposed self)) param_index with
      | Some this_value, Some these_samples => ret (MkVariates these_samples this_value)
      | _, _ => Raise IndexError
      end
  end.

(** One row of the data frame [get_data_frame] returns. *)
Record frame_row := MkRow {
  row_path : PyStr.t;
  row_value : float;
  row_negative_error : float;
  row_positive_error : float;
  row_error : float;
  row_unit : PyStr.t }.

Section Intervals.

(** The quantile of a sample vector (numpy's percentile). *)
Variable quantile : list float -> float -> float.

(** Modelled from the spec: [RandomVariates.equal_tail_confidence_interval]
    is not among the sources.  It returns the (1-cl)/2 and 1-(1-cl)/2
    quantiles of the samples, requires 0 < cl < 1 and fails with ValueError
    otherwise. *)
Definition equal_tail_confidence_interval (rv : RandomVariates) (cl : float)
  : outcome (float * float) :=
  if ((0 <? cl) && (cl <? 1))%float then
    ret (quantile (rv_samples rv) ((1 - cl) / 2)%float,
         quantile (rv_samples rv) (1 - (1 - cl) / 2)%float)
  else Raise (ValueError (Fmt "Confidence level must be 0 < cl < 1" [])).

(** [self.get_data_frame(error_type, cl)] *)
Definition get_data_frame (self : _AnalysisResults) (error_type : PyStr.t) (cl : float)
  : outcome (list frame_row) :=
  errors_gatherer <-
    (if PyStr.eqb error_type (py "equal tail") then ret equal_tail_confidence_interval
     else if PyStr.eqb error_type (py "hpd") then ret equal_tail_confidence_interval
     else Raise (ValueError (Fmt "error_type must be either 'equal tail' or 'hpd'. Got %s"
                                 [AStr error_type]))) ;;
  for_each (fun frame this_par =>
              let this_path := path this_par in
              this_phys_q <- get_variates self this_path ;;
              let v := rv_value this_phys_q in
              bounds <- errors_gatherer this_phys_q cl ;;
              let low_bound := fst bounds in
              let hi_bound := snd bounds in
              ret (frame ++ [MkRow this_path v (low_bound - v) (hi_bound - v)
                                   ((hi_bound - low_bound) / 2) (unit this_par)])%float)
           (_free_parameters self) [].

End Intervals.

(** The row of the data frame for the parameter at position [i], computed
    from column [i] of the samples with the equal-tail quantiles. *)
Definition equal_tail_row (quantile : list float -> float -> float)
  (samples : matrix) (cl : float) (i : nat) (p : FreeParameter) : frame_row :=
  let s := map (fun r => nth i r nan) (rows samples) in
  let low_bound := quantile s ((1 - cl) / 2)%float in
  let hi_bound := quantile s (1 - (1 - cl) / 2)%float in
  MkRow (path p) (value p) (low_bound - value p)%float (hi_bound - value p)%float
        ((hi_bound - low_bound) / 2)%float (unit p).

(** A stand-in for numpy's percentile: the first sample. *)
Definition first_sample (s : list float) (q : float) : float := hd nan s.

(** [self._get_correlation_matrix(covariance)] *)
Definition _get_correlation_matrix (self : _AnalysisResults) (covariance : matrix)
  : outcome matrix :=
  let correlation_matrix := zeros2 (List.length (rows covariance)) (ncols covariance) in
  for_each (fun correlation_matrix i =>
     variance_i <- getitem2 covariance i i ;;
     for_each (fun correlation_matrix j =>
        variance_j <- getitem2 covariance j j ;;
        if (0 <? variance_i * variance_j)%float then
          c <- getitem2 covariance i j ;;
          setitem2 correlation_matrix i j (c / PrimFloat.sqrt (variance_i * variance_j))%float
        else
          setitem2 correlation_matrix i j nan)
       (seq 0 (_n_free_parameters self)) correlation_matrix)
    (seq 0 (_n_free_parameters self)) correlation_matrix.

(** The correlation of parameters [i] and [j] as the specification gives it:
    [cov[i,j] / sqrt(cov[i,i] * cov[j,j])] when the product of the variances
    is positive, not-a-number otherwise. *)
Definition correlation (cov : matrix) (i j : nat) : float :=
  if (0 <? cell cov i i * cell cov j j)%float
  then (cell cov i j / PrimFloat.sqrt (cell cov i i * cell cov j j))%float
  else nan.

(** A covariance with a zero variance for the second parameter. *)
Definition degenerate_covariance : matrix := Matrix 2 [[4; 1]; [1; 0]]%float.

Definition two_parameter_results : _AnalysisResults :=
  MkBase 2 two_parameters (Matrix 3 [[1; 1.5; 2]; [-1; -1; -1]]%float) []
         (free_parameters two_parameters) [1.5; -1]%float (py "MLE").

(** [MLEResults.get_correlation_matrix] *)
Definition get_correlation_matrix (r : Results) : outcome matrix :=
  match r with
  | MLEResults base cov => _get_correlation_matrix base cov
  | BayesianResults _ => Raise NumpyError   (* np.cov of the samples: not modelled *)
  end.

End AnalysisResults.

(* ================================================================= *)
(** * threeML/analysis_results.py: writing and reading containers *)

Module Persistence.
Import Py Np Astromodels AnalysisResults FitsFile Escaping.

(** [AnalysisResultsSet]; the two sequence attributes exist only once
    [characterize_sequence] has run.  An entry is [None] where
    [_load_one_results] returned nothing. *)
Record AnalysisResultsSet := MkSet {
  _results : list (option Results);
  _sequence_name : option pyval;
  _sequence_tuple : option (list (PyStr.t * pyval)) }.

Definition AnalysisResultsSet__init__ (results : list (option Results)) : AnalysisResultsSet :=
  MkSet results None None.

Definition set_len (s : AnalysisResultsSet) : nat := List.length (_results s).

(** What [load_analysis_results] returns. *)
Inductive loaded :=
| Single (r : option Results)
| Several (s : AnalysisResultsSet).

(** [str(name)]: a string is itself; the text of another value is not
    spelled out and the value is kept. *)
Definition str_of (name : pyval) : pyval := name.

(** [enumerate(items)] *)
Definition enumerate {A} (items : list A) : list (nat * A) :=
  combine (seq 0 (List.length items)) items.

(** [AnalysisResultsSet.characterize_sequence] *)
Definition characterize_sequence (self : AnalysisResultsSet) (name : pyval)
  (data_tuple : list (PyStr.t * pyval)) : outcome AnalysisResultsSet :=
  let self := MkSet (_results self) (Some (str_of name)) (_sequence_tuple self) in
  for_each (fun (_ : Datatypes.unit) (it : nat * (PyStr.t * pyval)) =>
              n <- len (snd (snd it)) ;;
              assert (n =? set_len self)
                     (Some (Fmt "Column %i in tuple has length of %i (should be %i)"
                                [ANat (fst it); ANat (List.length data_tuple);
                                 ANat (set_len self)])))
           (enumerate data_tuple) tt ;;;
  ret (MkSet (_results self) (_sequence_name self) (Some data_tuple)).

(** Keys of the dictionary of statistic values: strings, numbers and
    [None], as a header hands them back. *)
Definition key_eqb (a b : pyval) : bool :=
  match a, b with
  | PNone, PNone => true
  | PStr s1, PStr s2 => PyStr.eqb s1 s2
  | PInt z1, PInt z2 => (z1 =? z2)%Z
  | PBool b1, PBool b2 => Bool.eqb b1 b2
  | PFloat x1, PFloat x2 => (x1 =? x2)%float
  | _, _ => false
  end.

(** [d[key] = v] on an ordered dictionary. *)
Fixpoint dict_set (d : list (pyval * float)) (key : pyval) (v : float) : list (pyval * float) :=
  match d with
  | [] => [(key, v)]
  | (k, old) :: rest =>
      if key_eqb k key then (k, v) :: rest else (k, old) :: dict_set rest key v
  end.

(** The keywords of dataset [i] and the cards the writer adds for a list of
    numbered datasets. *)
Definition key_stat (i : nat) : PyStr.t := py "STAT" ++ format_i i.
Definition key_pn (i : nat) : PyStr.t := py "PN" ++ format_i i.

Definition stat_cards (items : list (nat * (pyval * float))) : Header :=
  flat_map (fun it =>
              [ Card (key_stat (fst it)) (PFloat (snd (snd it)))
                     (Some (py "Stat. value for plugin " ++ format_i (fst it)));
                Card (key_pn (fst it)) (fst (snd it))
                     (Some (py "Name of plugin " ++ format_i (fst it))) ])
           items.

(** No keyword of the header belongs to a dataset numbered [a] or more. *)
Definition fresh_from (a : nat) (header : Header) : Prop :=
  forall c j, In c header -> a <= j -> keyword c <> key_stat j /\ keyword c <> key_pn j.

(** The names of a dictionary of statistics are pairwise different keys. *)
Fixpoint distinct_names (stats : list (pyval * float)) : Prop :=
  match stats with
  | [] => True
  | (name, _) :: rest =>
      Forall (fun other => key_eqb name (fst other) = false) rest /\ distinct_names rest
  end.

(** The loop of [ANALYSIS_RESULTS.__init__] that adds two keywords for each
    dataset: [STAT<i>] with the statistic and [PN<i>] with the name. *)
Definition write_statistics (header : Header) (stat_series : list (pyval * float)) : Header :=
  fold_left (fun header (it : nat * (pyval * float)) =>
               let i := fst it in
               let plugin_instance_name := fst (snd it) in
               let stat_value := snd (snd it) in
               let header := header_set header (py "STAT" ++ format_i i) (PFloat stat_value)
                               (Some (py "Stat. value for plugin " ++ format_i i)) in
               header_set header (py "PN" ++ format_i i) plugin_instance_name
                 (Some (py "Name of plugin " ++ format_i i)))
            (enumerate stat_series) header.

(** The loop of [_load_one_results] that gathers the statistic values from
    the keywords starting with STAT: its body, then the loop. *)
Definition read_step (header : Header) (statistic_values : list (pyval * float))
  (key : PyStr.t) : outcome (list (pyval * float)) :=
  if PyStr.find_is_0 (py "STAT") key then
    id <- int_of_str (PyStr.replace (py "STAT") [] key) ;;
    value <- float_of (header_get header key) ;;
    let name := header_get header (py "PN" ++ format_i id) in
    ret (dict_set statistic_values name value)
  else ret statistic_values.

Definition read_statistics (header : Header) : outcome (list (pyval * float)) :=
  for_each (read_step header) (header_keys header) [].

(** An extension whose analysis type is neither of the two known ones, a
    container without any extension, and a parser that always succeeds. *)
Definition unknown_tag_extension : BinTableHDU :=
  MkHDU [ Card (py "EXTNAME") (PStr (py "ANALYSIS_RESULTS")) None;
          Card (py "MODEL") (PStr (py "model")) None;
          Card (py "RESUTYPE") (PStr (py "Profile")) None;
          Card (py "STAT0") (PFloat 12.5) None;
          Card (py "PN0") (PStr (py "detector")) None ]
        [].

Definition empty_container : FITSFile := MkFile [] [].

Definition parse_two_parameters (text : PyStr.t) : outcome Model := ret two_parameters.

(** A serialisation that writes the same text for every model; what
    [parse_two_parameters] reads from it is [two_parameters]. *)
Definition dump_sample_text (model : Model) : PyStr.t := sample_yaml.

(** The statistic of one dataset, a covariance that is not symmetric, an
    array of shape (0, 0) and three samples of two parameters. *)
Definition one_dataset : list (pyval * float) := [(PStr (py "detector"), 12.5%float)].
Definition skew_covariance : matrix := Matrix 2 [[1; 0.5]; [0.25; 2]]%float.
Definition empty_covariance : matrix := Matrix 0 [].
Definition three_samples : matrix := Matrix 2 [[1; -1]; [1.5; -0.5]; [0.5; -2]]%float.

Section External.

(** numpy, as in [FitsFile]. *)
Variable list_dtype : list pyval -> option dtype.
Variable coercible : pyval -> dtype -> bool.
Variable random_normal : list float -> matrix -> nat -> list (list float).
Variable quantile : list float -> float -> float.

(** [pkg_resources.get_distribution("threeML").version], [__version__] and
    [datetime.datetime.now().isoformat()]. *)
Variable version : PyStr.t.
Variable __version__ : PyStr.t.
Variable now : PyStr.t.

(** [my_yaml.dump(model.to_dict_with_types())] and
    [ModelParser(model_dict=my_yaml.load(text)).get_model()]. *)
Variable yaml_dump : Model -> PyStr.t.
Variable yaml_load : PyStr.t -> outcome Model.

Definition origin_comment : PyStr.t := py "Multi-Mission Max. Likelihood v. " ++ __version__.

(** [SEQUENCE._HEADER_KEYWORDS] and [ANALYSIS_RESULTS._HEADER_KEYWORDS] *)
Definition SEQUENCE_HEADER_KEYWORDS : Header :=
  [ Card (py "EXTNAME") (PStr (py "SEQUENCE")) (Some (py "Extension name"));
    Card (py "ORIGIN") (PStr (py "3ML")) (Some origin_comment);
    Card (py "SEQ_TYPE") PNone (Some (py "Description of sequence type")) ].

Definition ANALYSIS_RESULTS_HEADER_KEYWORDS : Header :=
  [ Card (py "EXTNAME") (PStr (py "ANALYSIS_RESULTS")) (Some (py "Extension name"));
    Card (py "MODEL") PNone (Some (py "A pseudo-yaml serialization of the model"));
    Card (py "ORIGIN") (PStr (py "3ML")) (Some origin_comment);
    Card (py "RESUTYPE") PNone (Some (py "Analysis producing results (MLE or Bayesian)")) ].

(** [SEQUENCE.__init__] *)
Definition SEQUENCE (name : pyval) (data_tuple : list (PyStr.t * pyval)) : outcome BinTableHDU :=
  hdu <- FITSExtension list_dtype coercible version data_tuple SEQUENCE_HEADER_KEYWORDS ;;
  ret (MkHDU (header_set (hdu_header hdu) (py "SEQ_TYPE") name None) (hdu_columns hdu)).

(** [ANALYSIS_RESULTS.__init__] *)
Definition ANALYSIS_RESULTS (analysis_results : Results) : outcome BinTableHDU :=
  let optimized_model := optimized_model analysis_results in
  let free_parameters := free_parameters optimized_model in
  let n_parameters := List.length free_parameters in
  cs <- (if PyStr.eqb (analysis_type analysis_results) (py "MLE") then
           match analysis_results with
           | MLEResults _ covariance_matrix =>
               assert (shape_eqb (mshape covariance_matrix) [n_parameters; n_parameters])
                      (Some (Fmt "Matrix has the wrong shape. Should be %i x %i, got %i x %i"
                                 [ANat n_parameters; ANat n_parameters;
                                  ANat (List.length (rows covariance_matrix));
                                  ANat (ncols covariance_matrix)])) ;;;
               ret (py_of_matrix covariance_matrix, py_of_vector (zeros1 n_parameters))
           | BayesianResults _ => Raise (AssertionError None)
           end
         else
           match analysis_results with
           | BayesianResults base =>
               ret (py_of_vector (zeros1 n_parameters), py_of_matrix (_samples_transposed base))
           | MLEResults _ _ => Raise (AssertionError None)
           end) ;;
  let covariance_matrix := fst cs in
  let samples := snd cs in
  let yaml_model_serialization := _escape_yaml_for_fits (yaml_dump optimized_model) in
  data_frame <- get_data_frame quantile (base_of analysis_results) (py "equal tail") 0.68 ;;
  let data_tuple :=
    [ (py "NAME", PList (map (fun p => PStr (path p)) free_parameters));
      (py "VALUE", py_of_vector (map row_value data_frame));
      (py "NEGATIVE_ERROR", py_of_vector (map row_negative_error data_frame));
      (py "POSITIVE_ERROR", py_of_vector (map row_positive_error data_frame));
      (py "ERROR", py_of_vector (map row_error data_frame));
      (py "UNIT", PArray string_ (map (fun r => PStr (row_unit r)) data_frame));
      (py "COVARIANCE", covariance_matrix);
      (py "SAMPLES", samples) ] in
  hdu <- FITSExtension list_dtype coercible version data_tuple ANALYSIS_RESULTS_HEADER_KEYWORDS ;;
  let header := header_set (hdu_header hdu) (py "MODEL") (PStr yaml_model_serialization) None in
  let header := header_set header (py "RESUTYPE") (PStr (analysis_type analysis_results)) None in
  let header := write_statistics header (optimal_statistic_values analysis_results) in
  ret (MkHDU header (hdu_columns hdu)).

(** The header of a result extension once written: the fixed keywords with
    their values, the cards of the datasets, and the version number. *)
Definition written_keywords (model : Model) (ty : PyStr.t) : Header :=
  [ Card (py "EXTNAME") (PStr (py "ANALYSIS_RESULTS")) (Some (py "Extension name"));
    Card (py "MODEL") (PStr (_escape_yaml_for_fits (yaml_dump model)))
         (Some (py "A pseudo-yaml serialization of the model"));
    Card (py "ORIGIN") (PStr (py "3ML")) (Some origin_comment);
    Card (py "RESUTYPE") (PStr ty) (Some (py "Analysis producing results (MLE or Bayesian)"));
    Card (py "CREATOR") (PStr (py "3ML v." ++ version))
         (Some (py "(G.Vianello, giacomov@slac.stanford.edu)")) ].

Definition written_header (model : Model) (ty : PyStr.t) (stats : list (pyval * float)) : Header :=
  written_keywords model ty ++ stat_cards (enumerate stats)
    ++ [Card (py "EXTVER") (PInt 1) None].

(** [FITSFile.__init__] with the default primary unit. *)
Definition FITSFile__init__ (fits_extensions : list BinTableHDU) : FITSFile :=
  MkFile [] fits_extensions.

(** [AnalysisResultsFITS.__init__]; [sequence] holds the two keyword
    arguments [sequence_name] and [sequence_tuple] when they are given.  An
    entry that is [None] has no [optimized_model]. *)
Definition AnalysisResultsFITS (analysis_results : list (option Results))
  (sequence : option (pyval * list (PyStr.t * pyval))) : outcome FITSFile :=
  extensions <- match sequence with
                | Some (sequence_name, sequence_tuple) =>
                    sequence_ext <- SEQUENCE sequence_name sequence_tuple ;;
                    ret [sequence_ext]
                | None => ret []
                end ;;
  results_ext <- map_m (fun r => match r with
                                 | Some r => ANALYSIS_RESULTS r
                                 | None => Raise AttributeError
                                 end) analysis_results ;;
  let results_ext :=
    map (fun it : nat * BinTableHDU =>
           MkHDU (header_set (hdu_header (snd it)) (py "EXTVER")
                             (PInt (Z.of_nat (fst it + 1))) None)
                 (hdu_columns (snd it)))
        (enumerate results_ext) in
  let file := FITSFile__init__ (extensions ++ results_ext) in
  let primary := header_set (primary_header file) (py "DATE") (PStr now) None in
  let primary := header_set primary (py "ORIGIN") (PStr (py "3ML")) (Some origin_comment) in
  ret (MkFile primary (file_extensions file)).

(** [_AnalysisResults.write_to]: the container that ends up on disk. *)
Definition write_to (self : Results) : outcome FITSFile :=
  AnalysisResultsFITS [Some self] None.

(** [AnalysisResultsSet.write_to] *)
Definition set_write_to (self : AnalysisResultsSet) : outcome FITSFile :=
  self <- match _sequence_name self with
          | Some _ => ret self
          | None =>
              characterize_sequence self (PStr (py "unspecified"))
                [(py "VALUE", PList (map (fun i => PInt (Z.of_nat i)) (seq 0 (set_len self))))]
          end ;;
  match _sequence_name self, _sequence_tuple self with
  | Some name, Some tuple => AnalysisResultsFITS (_results self) (Some (name, tuple))
  | _, _ => Raise AttributeError
  end.

(** [_load_one_results]; the value is [None] when the function falls off
    its end. *)
Definition _load_one_results (fits_extension : BinTableHDU) : outcome (option Results) :=
  let header := hdu_header fits_extension in
  let analysis_type := header_get header (py "RESUTYPE") in
  serialized_model <- match header_get header (py "MODEL") with
                      | PStr s => ret (_escape_back_yaml_from_fits s)
                      | _ => Raise AttributeError
                      end ;;
  optimized_model <- yaml_load serialized_model ;;
  statistic_values <- read_statistics header ;;
  match analysis_type with
  | PStr tag =>
      if PyStr.eqb tag (py "MLE") then
        field <- data_field fits_extension (py "COVARIANCE") ;;
        column <- ndarray_of_py field ;;
        r <- MLEResults__init__ random_normal optimized_model (T column) statistic_values 5000 ;;
        ret (Some r)
      else if PyStr.eqb tag (py "Bayesian") then
        field <- data_field fits_extension (py "SAMPLES") ;;
        samples <- ndarray_of_py field ;;
        match T samples with
        | A2 samples_T =>
            r <- BayesianResults__init__ optimized_model samples_T statistic_values ;;
            ret (Some r)
        | _ => Raise IndexError   (* [samples.shape[1]] of an array with fewer axes *)
        end
      else ret None
  | _ => ret None
  end.

(** [_load_set_of_results] *)
Definition _load_set_of_results (open_fits_file : FITSFile) (n_results : nat)
  : outcome AnalysisResultsSet :=
  all_results <- map_m (fun i =>
                          ext <- getitem_name_ver open_fits_file (py "ANALYSIS_RESULTS")
                                   (Z.of_nat (i + 1)) ;;
                          _load_one_results ext)
                       (seq 0 n_results) ;;
  let this_set := AnalysisResultsSet__init__ all_results in
  sequence_ext <- getitem_name open_fits_file (py "SEQUENCE") ;;
  let seq_type := header_get (hdu_header sequence_ext) (py "SEQ_TYPE") in
  let data_list :=
    map (fun column =>
           match col_unit column with
           | None => (col_name column, col_array column)
           | Some unit => (col_name column, PQuantity (col_array column) unit)
           end)
        (hdu_columns sequence_ext) in
  characterize_sequence this_set seq_type data_list.

(** [load_analysis_results]; the primary unit is named PRIMARY. *)
Definition load_analysis_results (f : FITSFile) : outcome loaded :=
  let names := py "PRIMARY" :: map hdu_name (file_extensions f) in
  let n_results := count_occ (list_eq_dec ascii_dec) names (py "ANALYSIS_RESULTS") in
  if n_results =? 1 then
    ext <- getitem_name_ver f (py "ANALYSIS_RESULTS") 1 ;;
    r <- _load_one_results ext ;;
    ret (Single r)
  else
    s <- _load_set_of_results f n_results ;;
    ret (Several s).

End External.

End Persistence.
(* ================================================================= *)
(** * threeML/analysis_results.py: further methods *)

Module Methods.
Import Py Np Astromodels AnalysisResults FitsFile Persistence.

(** [MLEResults.covariance_matrix]; a [BayesianResults] has no attribute
    of that name. *)
Definition covariance_matrix (r : Results) : outcome matrix :=
  match r with
  | MLEResults _ _covariance_matrix => ret _covariance_matrix
  | BayesianResults _ => Raise AttributeError
  end.

(** [d.get(key)] on an ordered dictionary. *)
Definition dict_lookup (d : list (pyval * float)) (key : pyval) : option float :=
  option_map snd (find (fun e => key_eqb (fst e) key) d).

Section Frames.

(** [np.sum] of a float array; the order in which numpy adds is not fixed
    here. *)
Variable np_sum : list float -> float.

(** [_AnalysisResults._get_statistic_frame(name)]: the frame has the one
    column [name]; it is given by that name and the ordered dictionary the
    column is built from. *)
Definition _get_statistic_frame (self : _AnalysisResults) (name : PyStr.t)
  : PyStr.t * list (pyval * float) :=
  let optimal_statistic_values := _optimal_statistic_values self in
  let optimal_statistic_values :=
    dict_set optimal_statistic_values (PStr (py "total"))
             (np_sum (map snd (_optimal_statistic_values self))) in
  (name, optimal_statistic_values).

(** [MLEResults.get_statistic_frame] and [BayesianResults.get_statistic_frame] *)
Definition get_statistic_frame (r : Results) : PyStr.t * list (pyval * float) :=
  match r with
  | MLEResults base _ => _get_statistic_frame base (py "-log(likelihood)")
  | BayesianResults base => _get_statistic_frame base (py "-log(posterior)")
  end.

End Frames.

(** [AnalysisResultsSet.set_x]; [unit] is a unit astropy accepts, and
    [x * unit] is the quantity with the values [x]. *)
Definition set_x (self : AnalysisResultsSet) (name x : pyval) (unit : option PyStr.t)
  : outcome AnalysisResultsSet :=
  n <- len x ;;
  assert (n =? set_len self)
         (Some (Fmt "Wrong number of bounds (%i, should be %i)"
                    [ANat n; ANat (set_len self)])) ;;;
  let data_tuple :=
    match unit with
    | Some unit => [(py "VALUE", PQuantity x unit)]
    | None => [(py "VALUE", x)]
    end in
  characterize_sequence self name data_tuple.

(** [AnalysisResultsSet.set_bins] *)
Definition set_bins (self : AnalysisResultsSet) (name lower_bounds upper_bounds : pyval)
  (unit : option PyStr.t) : outcome AnalysisResultsSet :=
  n_upper <- len upper_bounds ;;
  n_lower <- len lower_bounds ;;
  assert (n_upper =? n_lower)
         (Some (Fmt "Upper and lower bounds must have the same length" [])) ;;;
  assert (n_upper =? set_len self)
         (Some (Fmt "Wrong number of bounds (%i, should be %i)"
                    [ANat n_upper; ANat (set_len self)])) ;;;
  let data_tuple :=
    match unit with
    | Some unit => [(py "LOWER_BOUND", PQuantity lower_bounds unit);
                    (py "UPPER_BOUND", PQuantity upper_bounds unit)]
    | None => [(py "LOWER_BOUND", lower_bounds); (py "UPPER_BOUND", upper_bounds)]
    end in
  characterize_sequence self name data_tuple.

(** A covariance with an infinite entry, a model whose parameters have no
    bounds, and a set of two results that were not read. *)
Definition infinite_covariance : matrix := Matrix 2 [[1; infinity]; [infinity; 2]]%float.

Definition unbounded_parameters : Model :=
  MkModel [ MkParameter (py "src.K") 1.5%float None None (py "keV");
            MkParameter (py "src.index") (-1)%float None None (py "") ].

Definition two_missing_results : AnalysisResultsSet := AnalysisResultsSet__init__ [None; None].

(** Extensions that lack something: the MODEL keyword; every column; the
    number after STAT; the PN keyword that goes with STAT0. *)
Definition extension_without_model : BinTableHDU :=
  MkHDU [ Card (py "EXTNAME") (PStr (py "ANALYSIS_RESULTS")) None;
          Card (py "RESUTYPE") (PStr (py "MLE")) None ]
        [].

Definition extension_without_columns : BinTableHDU :=
  MkHDU [ Card (py "EXTNAME") (PStr (py "ANALYSIS_RESULTS")) None;
          Card (py "MODEL") (PStr (py "model")) None;
          Card (py "RESUTYPE") (PStr (py "MLE")) None;
          Card (py "STAT0") (PFloat 12.5) None;
          Card (py "PN0") (PStr (py "detector")) None ]
        [].

Definition header_with_status : Header :=
  [ Card (py "EXTNAME") (PStr (py "ANALYSIS_RESULTS")) None;
    Card (py "MODEL") (PStr (py "model")) None;
    Card (py "STATUS") (PStr (py "ok")) None;
    Card (py "STAT0") (PFloat 12.5) None ].

(** A container that holds a SEQUENCE extension and no result, and a
    record of a fit of two parameters. *)
Definition sequence_only_container : FITSFile :=
  MkFile [] [MkHDU [ Card (py "EXTNAME") (PStr (py "SEQUENCE")) None;
                     Card (py "SEQ_TYPE") (PStr (py "time")) None ] []].

Definition fit_record : Results := MLEResults two_parameter_results covariance_2x2.

(** The record [BayesianResults] builds from three samples of the two
    parameters. *)
Definition bayesian_record : Results :=
  BayesianResults
    (MkBase 2 two_parameters (transpose three_samples) one_dataset
            (free_parameters two_parameters) [1.5; -1]%float (py "Bayesian")).

Definition header_without_name : Header :=
  [ Card (py "EXTNAME") (PStr (py "ANALYSIS_RESULTS")) None;
    Card (py "STAT0") (PFloat 12.5) None;
    Card (py "EXTVER") (PInt 1) None ].

End Methods.
(* ================================================================= *)
(** * Facts about Python strings *)

Module PyStrFacts.
Import PyStr.

Lemma starts_with_app (p r : t) : starts_with p (p ++ r) = true.
Proof.
  induction p as [|a p IH]; simpl; [reflexivity|].
  now rewrite Ascii.eqb_refl, IH.
Qed.

Lemma starts_with_app_l (p q s : t) :
  starts_with (p ++ q) s = true -> starts_with p s = true.
Proof.
  revert s; induction p as [|a p IH]; intros s H; [reflexivity|].
  destruct s as [|b s]; simpl in *; [discriminate|].
  apply andb_true_iff in H as [-> H]. simpl. now apply IH.
Qed.

Lemma starts_with_contains (p s : t) :
  starts_with p s = true -> contains p s = true.
Proof. intros H. destruct s; simpl in *; now rewrite H. Qed.

Lemma contains_cons_false (p : t) (a : ascii) (s : t) :
  contains p (a :: s) = false ->
  starts_with p (a :: s) = false /\ contains p s = false.
Proof. simpl contains. intros H. now apply orb_false_iff in H. Qed.

Lemma contains_app_r (p u s : t) :
  contains p s = true -> contains p (u ++ s) = true.
Proof.
  intros H. induction u as [|a u IH]; [exact H|].
  simpl. rewrite IH. apply orb_true_r.
Qed.

Lemma replace_from_skip (old new pre r : t) :
  replace_from old new (List.length pre) (pre ++ r) = replace_from old new 0 r.
Proof. induction pre as [|a pre IH]; simpl; [reflexivity | exact IH]. Qed.

Lemma replace_from_match (old new r : t) :
  old <> [] ->
  replace_from old new 0 (old ++ r) = new ++ replace_from old new 0 r.
Proof.
  destruct old as [|a old]; [congruence|]. intros _.
  change ((a :: old) ++ r) with (a :: (old ++ r)).
  unfold replace_from at 1; fold replace_from.
  change (a :: old ++ r) with ((a :: old) ++ r).
  rewrite starts_with_app.
  replace (List.length (a :: old) - 1) with (List.length old) by (simpl; lia).
  now rewrite replace_from_skip.
Qed.

Lemma replace_from_nomatch (old new : t) (c : ascii) (s : t) :
  starts_with old (c :: s) = false ->
  replace_from old new 0 (c :: s) = c :: replace_from old new 0 s.
Proof. intros H. unfold replace_from at 1; fold replace_from. now rewrite H. Qed.

(** A block in which no match of [old] starts is copied unchanged. *)
Lemma replace_from_block (old new blk r : t) :
  (forall p q, blk = p ++ q -> q <> [] -> starts_with old (q ++ r) = false) ->
  replace_from old new 0 (blk ++ r) = blk ++ replace_from old new 0 r.
Proof.
  induction blk as [|a blk IH]; intros H; [reflexivity|].
  simpl app. rewrite replace_from_nomatch.
  - f_equal. apply IH. intros p q -> Hq. apply (H (a :: p) q); [reflexivity | exact Hq].
  - apply (H [] (a :: blk)); [reflexivity | discriminate].
Qed.

(** Replacing a single character is a character-wise substitution. *)
Lemma replace_char (c : ascii) (new s : t) :
  replace [c] new s = flat_map (fun a => if Ascii.eqb c a then new else [a]) s.
Proof.
  unfold replace. induction s as [|a s IH]; [reflexivity|].
  unfold replace_from; fold replace_from. simpl starts_with.
  rewrite andb_true_r. simpl flat_map.
  destruct (Ascii.eqb c a); simpl; now rewrite IH.
Qed.

End PyStrFacts.

(* ================================================================= *)
(** * Facts about the escaping codec *)

Module EscapingFacts.
Import PyStr PyStrFacts Escaping.

#[local] Arguments Ascii.eqb : simpl never.

Lemma flat_map_flat_map (A B C : Type) (f : B -> list C) (g : A -> list B) (x : list A) :
  flat_map f (flat_map g x) = flat_map (fun a => flat_map f (g a)) x.
Proof.
  induction x as [|a x IH]; [reflexivity|].
  simpl. now rewrite flat_map_app, IH.
Qed.

(** Escaping is the character-wise encoding given by [word_table]. *)
Lemma escape_is_enc (x : PyStr.t) :
  _escape_yaml_for_fits x = flat_map (enc word_table) x.
Proof.
  unfold _escape_yaml_for_fits, for_subs, _subs. cbn [fold_left fst snd].
  change (py "'") with ["'"%char].
  change (py "{") with ["{"%char].
  change (py "}") with ["}"%char].
  rewrite !replace_char, !flat_map_flat_map.
  apply flat_map_ext. intros a.
  destruct a as [[] [] [] [] [] [] [] []]; reflexivity.
Qed.

Lemma enc_head (c : ascii) (w : PyStr.t) (table : list (ascii * PyStr.t)) (a : ascii) :
  enc ((c, w) :: table) a = if Ascii.eqb c a then wrap w else enc table a.
Proof. unfold enc. simpl. now destruct (Ascii.eqb c a). Qed.

Lemma enc_cases (table : list (ascii * PyStr.t)) (a : ascii) :
  enc table a = [a] \/ exists w, In w (map snd table) /\ enc table a = wrap w.
Proof.
  unfold enc. destruct (find _ table) as [p|] eqn:E; [right | now left].
  apply find_some in E as [Hin _]. exists (snd p). split; [now apply in_map | reflexivity].
Qed.

Lemma enc_absent (table : list (ascii * PyStr.t)) (c : ascii) :
  ~ In c (map fst table) -> enc table c = [c].
Proof.
  intros H. unfold enc. destruct (find _ table) as [p|] eqn:E; [|reflexivity].
  apply find_some in E as [Hin Heq]. apply Ascii.eqb_eq in Heq. subst c.
  exfalso. apply H. now apply in_map.
Qed.

(** A word without underscores that starts the encoding of [y] starts [y]. *)
Lemma starts_with_word_enc (table : list (ascii * PyStr.t)) (w y : PyStr.t) :
  no_underscore w ->
  starts_with w (flat_map (enc table) y) = true -> starts_with w y = true.
Proof.
  intros Hw. revert y. induction Hw as [|a w Ha Hw IH]; intros y H; [reflexivity|].
  destruct y as [|b y]; [discriminate H|].
  simpl flat_map in H. destruct (enc_cases table b) as [E | (w' & _ & E)]; rewrite E in H.
  - simpl in H |- *. apply andb_true_iff in H as [-> H]. simpl. now apply IH.
  - simpl in H. apply andb_true_iff in H as [H _]. apply Ascii.eqb_eq in H. contradiction.
Qed.

(** Two placeholders that agree up to the closing underscore are the same. *)
Lemma starts_with_word_eq (w w' r : PyStr.t) :
  no_underscore w -> no_underscore w' ->
  starts_with (w ++ ["_"%char]) (w' ++ "_"%char :: r) = true -> w = w'.
Proof.
  intros Hw. revert w'. induction Hw as [|a w Ha Hw IH]; intros w' Hw' H.
  - destruct Hw' as [|b w' Hb _]; [reflexivity|].
    simpl in H. apply andb_true_iff in H as [H _]. apply Ascii.eqb_eq in H.
    symmetry in H. contradiction.
  - destruct Hw' as [|b w' Hb Hw'].
    + simpl in H. apply andb_true_iff in H as [H _]. apply Ascii.eqb_eq in H. contradiction.
    + simpl in H. apply andb_true_iff in H as [H1 H2]. apply Ascii.eqb_eq in H1.
      subst b. f_equal. now apply IH.
Qed.

(** A non-empty suffix of [w ++ "_"] is the underscore or starts inside [w]. *)
Lemma suffix_of_word (w p q : PyStr.t) :
  w ++ ["_"%char] = p ++ q -> q <> [] ->
  q = ["_"%char] \/ exists b q', q = b :: q' /\ In b w.
Proof.
  revert p. induction w as [|a w IH]; intros p H Hq.
  - destruct p as [|b p]; simpl in H.
    + left. now symmetry.
    + injection H as _ H. destruct p; destruct q; simpl in H; congruence.
  - destruct p as [|b p]; simpl in H.
    + right. exists a, (w ++ ["_"%char]). split; [now symmetry | now left].
    + injection H as _ H. destruct (IH p H Hq) as [E | (c & q' & E & Hin)].
      * now left.
      * right. exists c, q'. split; [exact E | now right].
Qed.

(** One step of unescaping undoes the head of the table, as long as the
    head's word does not occur in the original text. *)
Lemma unescape_step (c : ascii) (w : PyStr.t) (table : list (ascii * PyStr.t)) (x : PyStr.t) :
  no_underscore w ->
  Forall no_underscore (map snd table) ->
  ~ In w (map snd table) ->
  ~ In c (map fst table) ->
  contains w x = false ->
  replace (wrap w) [c] (flat_map (enc ((c, w) :: table)) x) = flat_map (enc table) x.
Proof.
  intros Hw Htab Hnew Hc. unfold replace, wrap at 1.
  change (replace_from ("_"%char :: w ++ ["_"%char])) with (replace_from (wrap w)).
  assert (Hstart : forall y, contains w y = false ->
            starts_with (wrap w) ("_"%char :: flat_map (enc ((c, w) :: table)) y) = false).
  { intros y Hy. match goal with |- ?t = false => destruct t eqn:E; [|reflexivity] end.
    unfold wrap in E. simpl in E. apply starts_with_app_l in E.
    apply starts_with_word_enc in E; [|exact Hw].
    apply starts_with_contains in E. congruence. }
  induction x as [|a x IH]; intros Hx; [reflexivity|].
  apply contains_cons_false in Hx as [Hhd Hx]. specialize (IH Hx).
  simpl flat_map. rewrite enc_head. destruct (Ascii.eqb c a) eqn:Eca.
  - apply Ascii.eqb_eq in Eca. subst a.
    rewrite replace_from_match by discriminate. rewrite IH.
    now rewrite (enc_absent table c Hc).
  - destruct (enc_cases table a) as [E | (w' & Hin & E)]; rewrite E.
    + simpl app. rewrite replace_from_nomatch; [now rewrite IH|].
      destruct (Ascii.eqb "_"%char a) eqn:Ea.
      * apply Ascii.eqb_eq in Ea. subst a. now apply Hstart.
      * unfold wrap. simpl. now rewrite Ea.
    + rewrite replace_from_block; [now rewrite IH|].
      intros p q Hpq Hq. destruct p as [|b p].
      * simpl in Hpq. subst q. unfold wrap. simpl. rewrite <- app_assoc. simpl.
        match goal with |- ?t = false => destruct t eqn:Es; [|reflexivity] end.
        apply starts_with_word_eq in Es; [congruence | exact Hw |].
        rewrite Forall_forall in Htab. now apply Htab.
      * unfold wrap in Hpq. simpl in Hpq. injection Hpq as _ Hpq.
        destruct (@suffix_of_word _ _ _ Hpq Hq) as [-> | (d & q' & -> & Hd)].
        -- now apply Hstart.
        -- rewrite Forall_forall in Htab. specialize (Htab w' Hin).
           unfold no_underscore in Htab. rewrite Forall_forall in Htab.
           specialize (Htab d Hd). unfold wrap. simpl.
           destruct (Ascii.eqb "_"%char d) eqn:Ed; [|reflexivity].
           apply Ascii.eqb_eq in Ed. congruence.
Qed.

Lemma free_of_word (w x : PyStr.t) :
  free_of placeholder_words x = true -> In w placeholder_words -> contains w x = false.
Proof.
  unfold free_of. rewrite forallb_forall. intros H Hin.
  specialize (H w Hin). now apply negb_true_iff in H.
Qed.

Ltac word_side :=
  cbn [map fst snd];
  solve [ repeat constructor; discriminate
        | repeat (constructor; [repeat constructor; discriminate|]); constructor
        | cbn [In]; intuition discriminate
        | cbn [In]; intuition congruence ].

(** Unescaping undoes escaping on a text in which none of the five words
    occurs. *)
Lemma escape_roundtrip (x : PyStr.t) :
  free_of placeholder_words x = true ->
  _escape_back_yaml_from_fits (_escape_yaml_for_fits x) = x.
Proof.
  intros Hfree.
  rewrite escape_is_enc.
  unfold _escape_back_yaml_from_fits, for_subs, _subs. cbn [fold_left fst snd].
  unfold word_table.
  change (py "_NEWLINE_") with (wrap (py "NEWLINE")).
  change (py "_QUOTE1_") with (wrap (py "QUOTE1")).
  change (py "_QUOTE2_") with (wrap (py "QUOTE2")).
  change (py "_PARO_") with (wrap (py "PARO")).
  change (py "_PARC_") with (wrap (py "PARC")).
  change (py "'") with ["'"%char].
  change (py "{") with ["{"%char].
  change (py "}") with ["}"%char].
  assert (Hw : forall w, In w placeholder_words -> contains w x = false)
    by (intros w; now apply free_of_word).
  rewrite unescape_step;
    [| word_side | word_side | word_side | word_side | apply Hw; cbn; tauto ].
  rewrite unescape_step;
    [| word_side | word_side | word_side | word_side | apply Hw; cbn; tauto ].
  rewrite unescape_step;
    [| word_side | word_side | word_side | word_side | apply Hw; cbn; tauto ].
  rewrite unescape_step;
    [| word_side | word_side | word_side | word_side | apply Hw; cbn; tauto ].
  rewrite unescape_step;
    [| word_side | word_side | word_side | word_side | apply Hw; cbn; tauto ].
  clear. induction x as [|a x IH]; [reflexivity|]. simpl. now rewrite IH.
Qed.




End EscapingFacts.

(* ================================================================= *)
(** * Facts about binary64 numbers *)

Module FloatFacts.

Lemma Prim2SF_infinity : Prim2SF infinity = S754_infinity false.
Proof. reflexivity. Qed.

Lemma Prim2SF_neg_infinity : Prim2SF neg_infinity = S754_infinity true.
Proof. reflexivity. Qed.

Lemma Prim2SF_zero : Prim2SF 0%float = S754_zero false.
Proof. reflexivity. Qed.

Lemma Prim2SF_one : Prim2SF 1%float = S754_finite false 4503599627370496 (-52).
Proof. reflexivity. Qed.

(** Nothing is above plus infinity, nothing below minus infinity. *)
Lemma ltb_infinity_l (x : float) : (infinity <? x)%float = false.
Proof.
  rewrite ltb_spec, Prim2SF_infinity. unfold SFltb, SFcompare.
  destruct (Prim2SF x) as [s| [|] | |s m e]; try reflexivity; now destruct s.
Qed.

Lemma ltb_neg_infinity_r (x : float) : (x <? neg_infinity)%float = false.
Proof.
  rewrite ltb_spec, Prim2SF_neg_infinity. unfold SFltb, SFcompare.
  destruct (Prim2SF x) as [s| [|] | |s m e]; try reflexivity; now destruct s.
Qed.

Lemma is_nan_spec (x : float) : PrimFloat.is_nan x = true -> Prim2SF x = S754_nan.
Proof.
  unfold PrimFloat.is_nan. rewrite eqb_spec. unfold SFeqb, SFcompare.
  destruct (Prim2SF x) as [s| [|] | |[|] m e]; try discriminate; try reflexivity.
  - rewrite Z.compare_refl, Pos.compare_cont_refl. discriminate.
  - rewrite Z.compare_refl, Pos.compare_cont_refl. discriminate.
Qed.

(** A not-a-number compares false with everything. *)
Lemma ltb_nan (b x : float) :
  PrimFloat.is_nan b = true -> (b <? x)%float = false /\ (x <? b)%float = false.
Proof.
  intros H. apply is_nan_spec in H. rewrite !ltb_spec, H. unfold SFltb, SFcompare.
  split; [reflexivity|]. now destruct (Prim2SF x).
Qed.

Lemma eqb_zero_spec (x : float) :
  (x =? 0)%float = true -> exists s, Prim2SF x = S754_zero s.
Proof.
  rewrite eqb_spec, Prim2SF_zero. unfold SFeqb, SFcompare.
  destruct (Prim2SF x) as [s| [|] | |[|] m e]; try discriminate. intros _. now exists s.
Qed.

(** A product with a zero factor is never positive. *)
Lemma zero_mul_not_positive (x y : float) :
  (x =? 0)%float = true ->
  (0 <? x * y)%float = false /\ (0 <? y * x)%float = false.
Proof.
  intros H. destruct (eqb_zero_spec H) as (s & Hx).
  rewrite !ltb_spec, !mul_spec, Hx, Prim2SF_zero. unfold SF64mul, SFmul, SFltb, SFcompare.
  split; destruct (Prim2SF y) as [s'| [|] | |s' m e]; reflexivity.
Qed.

Lemma digits_shift52 (m : positive) :
  (Zpos (digits2_pos (4503599627370496 * m)) = Zpos (digits2_pos m) + 52)%Z.
Proof. cbn [Pos.mul digits2_pos]. rewrite !Pos2Z.inj_succ. lia. Qed.

Lemma shr52 (m : positive) :
  iter_pos shr_1 52 (Build_shr_record (Zpos (4503599627370496 * m)) false false)
  = Build_shr_record (Zpos m) false false.
Proof. reflexivity. Qed.

(** Multiplying by one changes nothing: the product of the mantissas is the
    mantissa shifted by 52 bits, and rounding shifts it back exactly. *)
Lemma mul_one_l (x : float) : (1 * x)%float = x.
Proof.
  apply Prim2SF_inj. rewrite mul_spec, Prim2SF_one.
  pose proof (Prim2SF_valid x) as Hv.
  destruct (Prim2SF x) as [s|s| |s m e]; try reflexivity.
  unfold SF64mul, SFmul. change (xorb false s) with s.
  cbn [SpecFloat.valid_binary] in Hv. unfold bounded, canonical_mantissa in Hv.
  apply andb_true_iff in Hv as [Hc He]. apply Z.eqb_eq in Hc.
  unfold binary_round_aux, shr_fexp. cbn [Zdigits2].
  rewrite digits_shift52.
  replace (Z.pos (digits2_pos m) + 52 + (-52 + e))%Z with (Z.pos (digits2_pos m) + e)%Z by lia.
  rewrite Hc.
  replace (e - (-52 + e))%Z with 52%Z by lia.
  cbn [shr shr_record_of_loc]. rewrite shr52.
  cbn [shr_m loc_of_shr_record round_nearest_even Zdigits2].
  replace (-52 + e + 52)%Z with e by lia.
  rewrite Hc, Z.sub_diag. cbn [shr shr_record_of_loc shr_m]. now rewrite He.
Qed.

Lemma round_aux_not_negative (mx ex : Z) (lx : location) :
  Py.not_negative (binary_round_aux prec emax false mx ex lx).
Proof.
  unfold binary_round_aux.
  destruct (shr_fexp prec emax mx ex lx) as [mrs' e'].
  destruct (shr_fexp prec emax _ e' loc_Exact) as [mrs'' e''].
  destruct (shr_m mrs''); try exact I.
  destruct (Z.leb e'' (emax - prec)); exact I.
Qed.

Lemma float_of_nat_not_negative (n : nat) : Py.not_negative (Prim2SF (Py.float_of_nat n)).
Proof.
  unfold Py.float_of_nat. rewrite of_uint63_spec.
  pose proof (Uint63.to_Z_bounded (Uint63.of_Z (Z.of_nat n))) as Hb.
  destruct (Uint63.to_Z _) as [|p|p]; [exact I | | lia].
  unfold binary_normalize, binary_round.
  destruct (shl_align _ _ _) as [mz ez]. apply round_aux_not_negative.
Qed.

Lemma div_not_negative (x : spec_float) (my : positive) (ey : Z) :
  Py.not_negative x -> Py.not_negative (SF64div x (S754_finite false my ey)).
Proof.
  unfold SF64div, SFdiv. intros H.
  destruct x as [[|]|[|]| |[|] mx ex]; try contradiction; try exact I.
  cbn [xorb]. destruct (SFdiv_core_binary _ _ _ _ _ _) as [[mz ez] lz].
  apply round_aux_not_negative.
Qed.

Lemma ltb_zero_not_negative (x : spec_float) :
  Py.not_negative x -> SFltb x (S754_zero false) = false.
Proof. destruct x as [[|]|[|]| |[|] mx ex]; intros H; try contradiction; reflexivity. Qed.

(** One per cent of a count is never below zero. *)
Lemma percent_not_below_zero (n : nat) :
  (Py.float_of_nat n / 100 <? Py.float_of_nat 0)%float = false.
Proof.
  change (Py.float_of_nat 0) with 0%float.
  rewrite ltb_spec, div_spec, Prim2SF_zero.
  change (Prim2SF 100) with (S754_finite false 7036874417766400 (-46)).
  apply ltb_zero_not_negative, div_not_negative, float_of_nat_not_negative.
Qed.

End FloatFacts.

(* ================================================================= *)
(** * Facts about the outcome monad *)

Module PyFacts.
Import Py.

Lemma bind_ret_l (A B : Type) (a : A) (k : A -> outcome B) : bind (ret a) k = k a.
Proof. unfold bind, ret. destruct (k a); reflexivity. Qed.

Lemma bind_Return_l (A B : Type) (a : A) (k : A -> outcome B) : bind (Return a []) k = k a.
Proof. apply bind_ret_l. Qed.

Lemma bind_return (A B : Type) (m : outcome A) (k : A -> outcome B) (a : A) :
  m = Return a [] -> bind m k = k a.
Proof. intros ->. apply bind_ret_l. Qed.

Lemma bind_raise (A B : Type) (m : outcome A) (k : A -> outcome B) (e : exn) :
  m = Raise e -> bind m k = Raise e.
Proof. now intros ->. Qed.

Lemma bind_assoc (A B C : Type) (m : outcome A) (k : A -> outcome B) (h : B -> outcome C) :
  bind (bind m k) h = bind m (fun a => bind (k a) h).
Proof.
  destruct m as [a w|e]; [|reflexivity]. simpl.
  destruct (k a) as [b w'|e]; [|reflexivity]. simpl.
  destruct (h b) as [c w''|e]; [|reflexivity]. now rewrite app_assoc.
Qed.

Lemma bind_ext (A B : Type) (m : outcome A) (k k' : A -> outcome B) :
  (forall a, k a = k' a) -> bind m k = bind m k'.
Proof. intros H. destruct m as [a w|e]; [|reflexivity]. simpl. now rewrite H. Qed.

Lemma bind_ret_r (A : Type) (m : outcome A) : bind m (fun a => ret a) = m.
Proof. destruct m as [a w|e]; [|reflexivity]. simpl. now rewrite app_nil_r. Qed.

Lemma assert_true (msg : option message) : assert true msg = ret tt.
Proof. reflexivity. Qed.

Lemma assert_false (msg : option message) : assert false msg = Raise (AssertionError msg).
Proof. reflexivity. Qed.

Lemma map_m_pure (A B : Type) (f : A -> outcome B) (g : A -> B) (items : list A) :
  (forall a, In a items -> f a = Return (g a) []) ->
  map_m f items = Return (map g items) [].
Proof.
  induction items as [|a items IH]; intros H; [reflexivity|].
  simpl. rewrite (bind_return _ (H a (or_introl eq_refl))).
  rewrite (bind_return _ (IH (fun b Hb => H b (or_intror Hb)))). reflexivity.
Qed.

Lemma for_each_pure (A S : Type) (body : S -> A -> outcome S) (step : S -> A -> S)
  (items : list A) (s : S) :
  (forall s a, In a items -> body s a = Return (step s a) []) ->
  for_each body items s = Return (fold_left step items s) [].
Proof.
  revert s. induction items as [|a items IH]; intros s H; [reflexivity|].
  simpl. rewrite (bind_return _ (H s a (or_introl eq_refl))).
  apply IH. intros s' b Hb. apply H. now right.
Qed.

End PyFacts.

(* ================================================================= *)
(** * Facts about the column formats *)

Module FitsFileFacts.
Import Py PyFacts FitsFile.

Lemma max_by_len_fold (strs : list PyStr.t) (b : PyStr.t) :
  exists b',
    for_each (fun (best : pyval * nat) item =>
                bind (len item) (fun n => ret (if snd best <? n then (item, n) else best)))
             (map PStr strs) (PStr b, List.length b)
    = Return (PStr b', List.length b') []
    /\ List.length b' = Nat.max (List.length b) (list_max (map (@List.length ascii) strs)).
Proof.
  revert b. induction strs as [|s strs IH]; intros b.
  - exists b. split; [reflexivity|]. simpl. now rewrite Nat.max_0_r.
  - cbn [map for_each len]. rewrite bind_ret_l. cbn [snd].
    destruct (List.length b <? List.length s) eqn:E.
    + rewrite bind_ret_l. destruct (IH s) as (b' & H1 & H2). exists b'. split; [exact H1|].
      apply Nat.ltb_lt in E. simpl list_max. lia.
    + rewrite bind_ret_l. destruct (IH b) as (b' & H1 & H2). exists b'. split; [exact H1|].
      apply Nat.ltb_ge in E. simpl list_max. lia.
Qed.

(** The longest string of a column of strings sets the width. *)
Lemma max_by_len_strings (s : PyStr.t) (strs : list PyStr.t) :
  exists longest,
    max_by_len (map PStr (s :: strs)) = Return (PStr longest) []
    /\ List.length longest = list_max (map (@List.length ascii) (s :: strs)).
Proof.
  unfold max_by_len. cbn [map len]. rewrite bind_ret_l.
  destruct (max_by_len_fold strs s) as (b' & H1 & H2).
  exists b'. split; [|exact H2].
  rewrite (bind_return _ H1). reflexivity.
Qed.

Section Columns.

Variable list_dtype : list pyval -> option dtype.
Variable coercible : pyval -> dtype -> bool.

#[local] Abbreviation make_column := (FitsFile.make_column list_dtype coercible).
#[local] Abbreviation array_dtype := (FitsFile.array_dtype list_dtype).
#[local] Abbreviation can_coerce := (FitsFile.can_coerce coercible).

(** A column of strings. *)
Lemma make_column_strings (column_name : PyStr.t) (column_data : pyval)
  (s : PyStr.t) (strs : list PyStr.t) :
  getitem0 column_data = Return (PStr s) [] ->
  iter column_data = Return (map PStr (s :: strs)) [] ->
  make_column column_name column_data =
    Return (MkColumn column_name
              (format_i (list_max (map (@List.length ascii) (s :: strs))) ++ py "A")
              None column_data) [].
Proof.
  intros H0 Hit. unfold FitsFile.make_column.
  rewrite (bind_return _ H0). rewrite (bind_return _ Hit).
  destruct (max_by_len_strings s strs) as (longest & H1 & H2).
  rewrite (bind_return _ H1). cbn [len]. rewrite !bind_ret_l. cbn [fst snd].
  now rewrite H2.
Qed.

(** An array-like first element. *)
Lemma make_column_sequence (column_name : PyStr.t) (column_data test_value : pyval) :
  getitem0 column_data = Return test_value [] ->
  is_sequence test_value = true ->
  make_column column_name column_data =
    bind (try_except (bind (getitem0 test_value) array_dtype)
            (Raise (RuntimeError (Fmt "Could not understand type of column %s"
                                      [AStr column_name]))))
      (fun col_type =>
         bind (assert (negb (dtype_eqb col_type object_)) None)
           (fun _ =>
              if can_coerce test_value col_type then
                bind (len test_value) (fun line_length =>
                  bind (fits_code col_type) (fun code =>
                    ret (MkColumn column_name (format_i line_length ++ code) None column_data)))
              else Raise (RuntimeError
                            (Fmt "Column %s contain data which cannot be coerced to %s"
                                 [AStr column_name; ADtype col_type])))).
Proof.
  intros H0 Hseq. unfold FitsFile.make_column. rewrite (bind_return _ H0).
  destruct test_value; try discriminate Hseq; cbn [isscalar];
    rewrite !bind_assoc; apply bind_ext; intros col_type;
    rewrite !bind_assoc; apply bind_ext; intros _;
    (destruct (FitsFile.can_coerce coercible _ col_type); [|reflexivity]);
    rewrite !bind_assoc; apply bind_ext; intros line_length;
    rewrite !bind_assoc; apply bind_ext; intros code;
    now rewrite bind_ret_l.
Qed.

(** Apart from a column of strings, what is decided depends on the first
    element alone. *)
Lemma make_column_first_only (column_name : PyStr.t) (data data' test_value : pyval) :
  getitem0 data = Return test_value [] ->
  getitem0 data' = Return test_value [] ->
  (forall s, test_value <> PStr s) ->
  match make_column column_name data, make_column column_name data' with
  | Return c _, Return c' _ => col_format c = col_format c' /\ col_unit c = col_unit c'
  | Raise e, Raise e' => e = e'
  | _, _ => False
  end.
Proof.
  intros H H' Hs. unfold FitsFile.make_column.
  rewrite (bind_return _ H), (bind_return _ H').
  destruct test_value; try (now destruct (Hs s));
    match goal with
    | |- match bind ?m _ with _ => _ end => destruct m as [fu w|e]; simpl; auto
    end.
Qed.


End Columns.



End FitsFileFacts.

(* ================================================================= *)
(** * Facts about the construction of result records *)

Module ResultsFacts.
Import Py PyFacts Np Astromodels AnalysisResults FloatFacts.

Lemma shape_eqb_eq (s1 s2 : list nat) : shape_eqb s1 s2 = true <-> s1 = s2.
Proof. unfold shape_eqb. destruct (list_eq_dec Nat.eq_dec s1 s2); split; congruence. Qed.

Lemma shape_eqb_neq (s1 s2 : list nat) : s1 <> s2 -> shape_eqb s1 s2 = false.
Proof. unfold shape_eqb. now destruct (list_eq_dec Nat.eq_dec s1 s2). Qed.

Lemma shape_eqb_refl (s : list nat) : shape_eqb s s = true.
Proof. now apply shape_eqb_eq. Qed.

Lemma select_rows_filter (f : list float -> bool) (rs : list (list float)) :
  select_rows rs (map f rs) = filter f rs.
Proof. induction rs as [|r rs IH]; [reflexivity|]. simpl. now rewrite IH. Qed.

Lemma count_true_map (f : list float -> bool) (rs : list (list float)) :
  count_true (map f rs) = List.length (filter f rs).
Proof.
  unfold count_true. induction rs as [|r rs IH]; [reflexivity|].
  simpl. destruct (f r); simpl; now rewrite IH.
Qed.

(** ** Bounds *)

Lemma hi_bound_test (p : FreeParameter) (x : float) :
  ((if PrimFloat.is_nan (match max_value p with Some b => b | None => nan end)
    then infinity else match max_value p with Some b => b | None => nan end) <? x)%float
  = match max_value p with Some hi => (hi <? x)%float | None => false end.
Proof.
  destruct (max_value p) as [hi|].
  - destruct (PrimFloat.is_nan hi) eqn:E; [|reflexivity].
    rewrite ltb_infinity_l. symmetry. now destruct (@ltb_nan hi x E).
  - change (PrimFloat.is_nan nan) with true. cbv iota. apply ltb_infinity_l.
Qed.

Lemma low_bound_test (p : FreeParameter) (x : float) :
  (x <? (if PrimFloat.is_nan (match min_value p with Some b => b | None => nan end)
         then neg_infinity else match min_value p with Some b => b | None => nan end))%float
  = match min_value p with Some lo => (x <? lo)%float | None => false end.
Proof.
  destruct (min_value p) as [lo|].
  - destruct (PrimFloat.is_nan lo) eqn:E; [|reflexivity].
    rewrite ltb_neg_infinity_r. symmetry. now destruct (@ltb_nan lo x E).
  - change (PrimFloat.is_nan nan) with true. cbv iota. apply ltb_neg_infinity_r.
Qed.

(** The two passes of the code over the bounds are one pass over the
    parameters. *)
Lemma out_of_bounds_violates (params : list FreeParameter) (sample : list float) :
  out_of_bounds (low_bounds params) (hi_bounds params) sample = violates params sample.
Proof.
  unfold out_of_bounds, violates, low_bounds, hi_bounds, fix_nans, float_array.
  revert sample. induction params as [|p params IH]; intros sample.
  - destruct sample; reflexivity.
  - destruct sample as [|x sample]; [reflexivity|].
    cbn [map combine existsb fst snd]. rewrite hi_bound_test, low_bound_test.
    rewrite <- IH. unfold outside_bounds.
    destruct (match max_value p with Some hi => (hi <? x)%float | None => false end),
             (match min_value p with Some lo => (x <? lo)%float | None => false end),
             (existsb _ (combine sample (map _ (map _ (map max_value params))))),
             (existsb _ (combine sample (map _ (map _ (map min_value params)))));
      reflexivity.
Qed.

(** The best-fit point of a model whose values respect their bounds is
    never rejected. *)
Lemma best_fit_not_rejected (params : list FreeParameter) :
  Forall (fun p => within_bounds p = true) params ->
  violates params (map value params) = false.
Proof.
  unfold violates. induction 1 as [|p params Hp _ IH]; [reflexivity|].
  cbn [map combine existsb fst snd]. rewrite IH, orb_false_r.
  unfold within_bounds in Hp. apply andb_true_iff in Hp as [H1 H2].
  unfold outside_bounds.
  destruct (max_value p); destruct (min_value p);
    rewrite ?negb_true_iff in *; now rewrite ?H1, ?H2.
Qed.

(** ** The constructors *)

Lemma base_init_ok (model : Model) (samples : matrix) (stats : list (pyval * float))
  (ty : PyStr.t) :
  ncols samples = List.length (free_parameters model) ->
  _AnalysisResults__init__ model samples stats ty =
    Return (MkBase (List.length (free_parameters model)) model (transpose samples) stats
                   (free_parameters model) (map value (free_parameters model)) ty) [].
Proof.
  intros H. unfold _AnalysisResults__init__. rewrite H, Nat.eqb_refl.
  now rewrite assert_true, bind_ret_l.
Qed.

Lemma base_init_fail (model : Model) (samples : matrix) (stats : list (pyval * float))
  (ty : PyStr.t) :
  ncols samples <> List.length (free_parameters model) ->
  _AnalysisResults__init__ model samples stats ty =
    Raise (AssertionError
             (Some (Fmt "Number of free parameters (%s) and set of samples (%s) do not agree."
                        [ANat (ncols samples); ANat (List.length (free_parameters model))]))).
Proof.
  intros H. unfold _AnalysisResults__init__.
  apply Nat.eqb_neq in H. now rewrite H.
Qed.

Section Construction.

Variable random_normal : list float -> matrix -> nat -> list (list float).

(** What [MLEResults.__init__] does once the samples are there. *)
Lemma mle_init_with_samples (model : Model) (cov : ndarray) (stats : list (pyval * float))
  (n : nat) (drawn : matrix) (stored : matrix) :
  ncols drawn = List.length (free_parameters model) ->
  (if negb (shape_eqb (shape cov) []) then
     bind (assert (shape_eqb (shape cov)
                     [List.length (map value (free_parameters model));
                      List.length (map value (free_parameters model))])
             (Some (Fmt "Covariance matrix has wrong shape. Got %s, should be %s"
                        [AShape (shape cov);
                         AShape [List.length (map value (free_parameters model));
                                 List.length (map value (free_parameters model))]])))
       (fun _ =>
          bind (assert (all_finite cov)
                  (Some (Fmt "Covariance matrix contains Nan or inf. Cannot continue." [])))
            (fun _ =>
               match cov with
               | A2 c => ret (multivariate_normal random_normal
                                (map value (free_parameters model)) c n, c)
               | _ => Raise NumpyError
               end))
   else ret (mul_rows (ones2 n (List.length (map value (free_parameters model))))
                      (map value (free_parameters model)),
             zeros2 (List.length (map value (free_parameters model)))
                    (List.length (map value (free_parameters model)))))
  = Return (drawn, stored) [] ->
  let keep := fun s => negb (violates (free_parameters model) s) in
  let kept := filter keep (rows drawn) in
  let n_drawn := List.length (rows drawn) in
  let n_removed := n_drawn - List.length kept in
  MLEResults__init__ random_normal model cov stats n =
    Return (MLEResults
              (MkBase (List.length (free_parameters model)) model
                      (transpose (Matrix (ncols drawn) kept)) stats
                      (free_parameters model) (map value (free_parameters model)) (py "MLE"))
              stored)
           (if (float_of_nat n_drawn / 100 <? float_of_nat n_removed)%float
            then [Fmt ("%s percent of samples have been thrown away because they failed the constraints "
                       ++ "on the parameters. This results might not be suitable for error propagation. "
                       ++ "Enlarge the boundaries until you loose less than 1 percent of the samples.")
                      [AFloat (float_of_nat n_removed / float_of_nat n_drawn * 100)%float]]
            else []).
Proof.
  intros Hcols Hsc keep kept n_drawn n_removed.
  unfold MLEResults__init__. rewrite (bind_return _ Hsc). cbn [fst snd].
  assert (Hmask : map (fun sample =>
                         negb (out_of_bounds (low_bounds (free_parameters model))
                                 (hi_bounds (free_parameters model)) sample)) (rows drawn)
                  = map keep (rows drawn)).
  { apply map_ext. intros s. unfold keep. now rewrite out_of_bounds_violates. }
  rewrite Hmask, select_rows_filter, count_true_map.
  fold kept. fold n_drawn. fold n_removed.
  rewrite (@base_init_ok model (Matrix (ncols drawn) kept) stats (py "MLE") Hcols).
  destruct (float_of_nat n_drawn / 100 <? float_of_nat n_removed)%float; reflexivity.
Qed.

Lemma ones_times_values (values : list float) :
  map (fun p => (fst p * snd p)%float) (combine (repeat 1%float (List.length values)) values)
  = values.
Proof.
  induction values as [|v values IH]; [reflexivity|].
  simpl. now rewrite mul_one_l, IH.
Qed.

Lemma rows_of_duplicates (n : nat) (values : list float) :
  rows (mul_rows (ones2 n (List.length values)) values) = repeat values n.
Proof.
  unfold mul_rows, ones2. cbn [rows]. induction n as [|n IH]; [reflexivity|].
  simpl. now rewrite ones_times_values, IH.
Qed.

Lemma filter_repeat_true (A : Type) (f : A -> bool) (a : A) (n : nat) :
  f a = true -> filter f (repeat a n) = repeat a n.
Proof. intros H. induction n as [|n IH]; [reflexivity|]. simpl. now rewrite H, IH. Qed.

(** C5 (as amended).  For a model with k free parameters, a covariance
    array whose shape is neither () nor (k,k) -- (k+1,k+1) for one -- makes
    [MLEResults] fail with an assertion error that names the shape it got
    and the shape it expected, and a sample matrix with a number of columns
    other than k makes [BayesianResults] fail with an assertion error that
    names both counts; a covariance of shape () is accepted and replaced by
    a (k,k) array of zeros. *)
Theorem wrong_shape_is_refused (model : Model) (cov : ndarray) (samples : matrix)
  (stats : list (pyval * float)) (n : nat) :
  let k := List.length (free_parameters model) in
  shape cov <> [] -> shape cov <> [k; k] -> ncols samples <> k ->
  MLEResults__init__ random_normal model cov stats n =
    Raise (AssertionError
             (Some (Fmt "Covariance matrix has wrong shape. Got %s, should be %s"
                        [AShape (shape cov); AShape [k; k]])))
  /\ BayesianResults__init__ model samples stats =
       Raise (AssertionError
                (Some (Fmt "Number of free parameters (%s) and set of samples (%s) do not agree."
                           [ANat (ncols samples); ANat k])))
  /\ (forall x, exists base ws,
         MLEResults__init__ random_normal model (A0 x) stats n =
           Return (MLEResults base (zeros2 k k)) ws).
Proof.
  intros k Hne Hshape Hcols. repeat split.
  - unfold MLEResults__init__. rewrite length_map. fold k.
    rewrite (shape_eqb_neq Hne), (shape_eqb_neq Hshape). reflexivity.
  - unfold BayesianResults__init__. now rewrite (@base_init_fail model samples stats (py "Bayesian") Hcols).
  - intros x. eexists. eexists.
    rewrite (@mle_init_with_samples model (A0 x) stats n
               (mul_rows (ones2 n (List.length (map value (free_parameters model))))
                         (map value (free_parameters model)))
               (zeros2 (List.length (map value (free_parameters model)))
                       (List.length (map value (free_parameters model))))).
    + rewrite length_map. fold k. reflexivity.
    + cbn [mul_rows ones2 ncols]. now rewrite length_map.
    + reflexivity.
Qed.

(** C7 (as amended).  With a covariance argument of shape () and a model
    whose values respect their bounds, the stored samples are [n] copies of
    the best-fit vector (kept transposed) and the stored covariance is the
    (k,k) array of zeros; no warning is issued. *)
Theorem no_covariance_gives_duplicates (model : Model) (stats : list (pyval * float))
  (n : nat) (x : float) :
  let k := List.length (free_parameters model) in
  let values := map value (free_parameters model) in
  Forall (fun p => within_bounds p = true) (free_parameters model) ->
  MLEResults__init__ random_normal model (A0 x) stats n =
    Return (MLEResults
              (MkBase k model (transpose (Matrix k (repeat values n))) stats
                      (free_parameters model) values (py "MLE"))
              (Matrix k (repeat (repeat 0%float k) k)))
           [].
Proof.
  intros k values Hb.
  rewrite (@mle_init_with_samples model (A0 x) stats n
             (mul_rows (ones2 n (List.length values)) values)
             (zeros2 (List.length values) (List.length values))).
  - rewrite rows_of_duplicates.
    rewrite filter_repeat_true
      by (fold values; unfold values; now rewrite best_fit_not_rejected).
    rewrite Nat.sub_diag, percent_not_below_zero.
    cbn [mul_rows ones2 ncols zeros2]. unfold values. rewrite length_map. reflexivity.
  - cbn [mul_rows ones2 ncols]. unfold values. now rewrite length_map.
  - reflexivity.
Qed.


End Construction.

(** For the default of 5000 samples the float comparison of the threshold
    is exact whatever the number removed. *)
Lemma threshold_exact_default : threshold_exact 5000 = true.
Proof. vm_compute. reflexivity. Qed.

Lemma wrong_shape_is_refused_witness :
  shape (A2 covariance_3x3) <> []
  /\ shape (A2 covariance_3x3) <> [2; 2]
  /\ ncols (Matrix 3 [[1; 2; 3]]%float) <> 2
  /\ MLEResults__init__ no_draw two_parameters (A2 covariance_3x3) [] 5000 =
       Raise (AssertionError
                (Some (Fmt "Covariance matrix has wrong shape. Got %s, should be %s"
                           [AShape [3; 3]; AShape [2; 2]]))).
Proof.
  assert (H1 : shape (A2 covariance_3x3) <> []) by (simpl; discriminate).
  assert (H2 : shape (A2 covariance_3x3) <> [2; 2]) by (simpl; discriminate).
  assert (H3 : ncols (Matrix 3 [[1; 2; 3]]%float) <> 2) by (simpl; discriminate).
  split; [exact H1 | split; [exact H2 | split; [exact H3 |]]].
  apply (@wrong_shape_is_refused no_draw two_parameters (A2 covariance_3x3)
           (Matrix 3 [[1; 2; 3]]%float) [] 5000 H1 H2 H3).
Defined.

(** The claim as stated fails: a covariance of shape (), which is not
    (2,2), is accepted without an error. *)
Lemma wrong_shape_counterexample :
  shape (A0 nan) <> [2; 2]
  /\ MLEResults__init__ no_draw two_parameters (A0 nan) [] 3 =
       Return (MLEResults
                 (MkBase 2 two_parameters
                    (Matrix 3 [[1.5; 1.5; 1.5]; [-1; -1; -1]]%float) []
                    (free_parameters two_parameters) [1.5; -1]%float (py "MLE"))
                 (Matrix 2 [[0; 0]; [0; 0]]%float))
              [].
Proof. split; [discriminate | vm_compute; reflexivity]. Qed.

Lemma no_covariance_gives_duplicates_witness :
  Forall (fun p => within_bounds p = true) (free_parameters two_parameters)
  /\ MLEResults__init__ no_draw two_parameters (A0 nan) [] 3 =
       Return (MLEResults
                 (MkBase 2 two_parameters
                    (transpose (Matrix 2 (repeat [1.5; -1]%float 3))) []
                    (free_parameters two_parameters) [1.5; -1]%float (py "MLE"))
                 (Matrix 2 (repeat (repeat 0%float 2) 2)))
              [].
Proof.
  assert (H : Forall (fun p => within_bounds p = true) (free_parameters two_parameters))
    by (repeat constructor).
  split; [exact H|].
  apply (@no_covariance_gives_duplicates no_draw two_parameters [] 3 nan H).
Defined.

(** The claim as stated fails: an empty covariance array has shape (0,),
    not (), and is refused by the shape assertion. *)
Lemma no_covariance_counterexample :
  MLEResults__init__ no_draw two_parameters (A1 []) [] 3 =
    Raise (AssertionError
             (Some (Fmt "Covariance matrix has wrong shape. Got %s, should be %s"
                        [AShape [0]; AShape [2; 2]]))).
Proof. reflexivity. Qed.


End ResultsFacts.

(* ================================================================= *)
(** * Facts about the correlation matrix *)

Module CorrelationFacts.
Import Py PyFacts Np Astromodels AnalysisResults FloatFacts.

(** A [for] loop over [range]: an invariant indexed by the loop counter. *)
Lemma for_each_range (S : Type) (I : nat -> S -> Prop) (body : S -> nat -> outcome S)
  (len a : nat) (s : S) :
  I a s ->
  (forall t s, a <= t < a + len -> I t s ->
     exists s', body s t = Return s' [] /\ I (Datatypes.S t) s') ->
  exists s', for_each body (seq a len) s = Return s' [] /\ I (a + len) s'.
Proof.
  revert a s. induction len as [|len IH]; intros a s Hs Hbody.
  - exists s. split; [reflexivity|]. now rewrite Nat.add_0_r.
  - destruct (Hbody a s ltac:(lia) Hs) as (s1 & H1 & HI).
    destruct (IH (Datatypes.S a) s1 HI) as (s' & H' & HI').
    { intros t s0 Ht. apply Hbody. lia. }
    exists s'. split.
    + cbn [seq for_each]. now rewrite (bind_return _ H1).
    + now replace (a + Datatypes.S len) with (Datatypes.S a + len) by lia.
Qed.

Lemma length_list_set (A : Type) (l : list A) (i : nat) (x : A) :
  List.length (list_set l i x) = List.length l.
Proof.
  revert i. induction l as [|a l IH]; intros i; [reflexivity|].
  destruct i; simpl; [reflexivity | now rewrite IH].
Qed.

Lemma nth_list_set_same (A : Type) (l : list A) (i : nat) (x d : A) :
  i < List.length l -> nth i (list_set l i x) d = x.
Proof.
  revert i. induction l as [|a l IH]; intros i H; [simpl in H; lia|].
  destruct i; simpl; [reflexivity | apply IH; simpl in H; lia].
Qed.

Lemma nth_list_set_other (A : Type) (l : list A) (i i' : nat) (x d : A) :
  i <> i' -> nth i' (list_set l i x) d = nth i' l d.
Proof.
  revert i i'. induction l as [|a l IH]; intros i i' H; [reflexivity|].
  destruct i, i'; simpl; try reflexivity; [lia | apply IH; lia].
Qed.

Lemma In_list_set (A : Type) (l : list A) (i : nat) (x y : A) :
  In y (list_set l i x) -> y = x \/ In y l.
Proof.
  revert i. induction l as [|a l IH]; intros i H; [destruct H|].
  destruct i; simpl in H.
  - destruct H as [<- | H]; [now left | right; now right].
  - destruct H as [<- | H]; [right; now left|].
    destruct (IH _ H) as [-> | H']; [now left | right; now right].
Qed.

Section Square.

Variable n : nat.

Lemma square_row (m : matrix) (i : nat) :
  square n m -> i < n -> List.length (nth i (rows m) []) = n.
Proof.
  intros (_ & Hlen & Hrows) Hi. rewrite Forall_forall in Hrows.
  apply Hrows, nth_In. lia.
Qed.

Lemma getitem2_cell (m : matrix) (i j : nat) :
  square n m -> i < n -> j < n -> getitem2 m i j = Return (cell m i j) [].
Proof.
  intros Hsq Hi Hj. pose proof (square_row Hsq Hi) as Hrow.
  destruct Hsq as (Hc & Hlen & _). unfold getitem2, cell.
  destruct (nth_error (rows m) i) as [r|] eqn:Er.
  - rewrite (nth_error_nth _ _ [] Er) in *.
    rewrite Hc. apply Nat.ltb_lt in Hj. rewrite Hj. apply Nat.ltb_lt in Hj.
    destruct (nth_error r j) as [x|] eqn:Ex.
    + now rewrite (nth_error_nth _ _ nan Ex).
    + apply nth_error_None in Ex. lia.
  - apply nth_error_None in Er. lia.
Qed.

Lemma setitem2_set_cell (m : matrix) (i j : nat) (x : float) :
  square n m -> i < n -> j < n -> setitem2 m i j x = Return (set_cell m i j x) [].
Proof.
  intros Hsq Hi Hj. pose proof (square_row Hsq Hi) as Hrow.
  destruct Hsq as (Hc & Hlen & _). unfold setitem2, set_cell.
  destruct (nth_error (rows m) i) as [r|] eqn:Er.
  - rewrite (nth_error_nth _ _ [] Er) in *. rewrite Hc, Hrow.
    apply Nat.ltb_lt in Hj. now rewrite Hj.
  - apply nth_error_None in Er. lia.
Qed.

Lemma square_set_cell (m : matrix) (i j : nat) (x : float) :
  square n m -> i < n -> square n (set_cell m i j x).
Proof.
  intros Hsq Hi. pose proof (square_row Hsq Hi) as Hrow.
  destruct Hsq as (Hc & Hlen & Hrows). unfold square, set_cell. cbn [ncols rows].
  split; [exact Hc|]. split; [now rewrite length_list_set|].
  rewrite Forall_forall in *. intros r Hr.
  destruct (In_list_set _ _ _ _ Hr) as [-> | Hin]; [|now apply Hrows].
  now rewrite length_list_set.
Qed.

Lemma cell_set_cell_same (m : matrix) (i j : nat) (x : float) :
  square n m -> i < n -> j < n -> cell (set_cell m i j x) i j = x.
Proof.
  intros Hsq Hi Hj. pose proof (square_row Hsq Hi) as Hrow.
  destruct Hsq as (Hc & Hlen & _). unfold cell, set_cell. cbn [rows].
  rewrite nth_list_set_same by lia. apply nth_list_set_same. lia.
Qed.

Lemma cell_set_cell_other (m : matrix) (i j i' j' : nat) (x : float) :
  square n m -> i < n -> (i <> i' \/ j <> j') ->
  cell (set_cell m i j x) i' j' = cell m i' j'.
Proof.
  intros Hsq Hi Hne. destruct Hsq as (Hc & Hlen & _). unfold cell, set_cell. cbn [rows].
  destruct (Nat.eq_dec i i') as [<- | Hii].
  - rewrite nth_list_set_same by lia. apply nth_list_set_other. lia.
  - now rewrite nth_list_set_other.
Qed.

Lemma square_zeros : square n (zeros2 n n).
Proof.
  unfold square, zeros2. cbn [ncols rows]. split; [reflexivity|].
  split; [apply repeat_length|].
  rewrite Forall_forall. intros r Hr. apply repeat_spec in Hr. subst r. apply repeat_length.
Qed.

End Square.

(** The inner loop fills row [i]. *)
Lemma correlation_row (n : nat) (cov corr : matrix) (i : nat) :
  square n cov -> square n corr -> i < n ->
  exists corr',
    for_each (fun correlation_matrix j =>
                bind (getitem2 cov j j) (fun variance_j =>
                  if (0 <? cell cov i i * variance_j)%float then
                    bind (getitem2 cov i j) (fun c =>
                      setitem2 correlation_matrix i j
                        (c / PrimFloat.sqrt (cell cov i i * variance_j))%float)
                  else setitem2 correlation_matrix i j nan))
             (seq 0 n) corr
    = Return corr' []
    /\ square n corr'
    /\ (forall j, j < n -> cell corr' i j = correlation cov i j)
    /\ (forall i' j, i' <> i -> cell corr' i' j = cell corr i' j).
Proof.
  intros Hcov Hcorr Hi.
  destruct (@for_each_range matrix
              (fun t c => square n c
                          /\ (forall j, j < t -> cell c i j = correlation cov i j)
                          /\ (forall i' j, i' <> i -> cell c i' j = cell corr i' j))
              (fun correlation_matrix j =>
                 bind (getitem2 cov j j) (fun variance_j =>
                   if (0 <? cell cov i i * variance_j)%float then
                     bind (getitem2 cov i j) (fun c =>
                       setitem2 correlation_matrix i j
                         (c / PrimFloat.sqrt (cell cov i i * variance_j))%float)
                   else setitem2 correlation_matrix i j nan))
              n 0 corr) as (corr' & Hrun & Hsq & Hrow & Hrest).
  - split; [exact Hcorr|]. split; [intros j Hj; lia | reflexivity].
  - intros t c Ht (Hc & Hdone & Hother).
    exists (set_cell c i t (correlation cov i t)). split.
    + rewrite (getitem2_cell Hcov) by lia. rewrite bind_Return_l. unfold correlation.
      destruct (0 <? cell cov i i * cell cov t t)%float.
      * rewrite (getitem2_cell Hcov) by lia. rewrite bind_Return_l.
        apply (setitem2_set_cell _ Hc); lia.
      * apply (setitem2_set_cell _ Hc); lia.
    + split; [apply square_set_cell; [exact Hc | lia]|]. split.
      * intros j Hj. destruct (Nat.eq_dec j t) as [-> | Hne].
        -- apply (cell_set_cell_same _ Hc); lia.
        -- rewrite (cell_set_cell_other _ Hc) by (try right; lia). apply Hdone. lia.
      * intros i' j Hne. rewrite (cell_set_cell_other _ Hc) by (try left; lia).
        now apply Hother.
  - exists corr'. split; [exact Hrun|]. split; [exact Hsq|].
    split; [intros j Hj; apply Hrow; lia | exact Hrest].
Qed.

(** C8.  On a (k,k) covariance the correlation matrix is computed without
    an exception; each cell is [cov[i,j] / sqrt(cov[i,i] * cov[j,j])] when
    the product of the two variances is positive and not-a-number otherwise;
    a zero variance at index [i] makes row [i] and column [i] not-a-number. *)
Theorem correlation_matrix_cells (self : _AnalysisResults) (covariance : matrix) :
  let n := _n_free_parameters self in
  square n covariance ->
  exists corr,
    _get_correlation_matrix self covariance = Return corr []
    /\ mshape corr = [n; n]
    /\ (forall i j, i < n -> j < n ->
          cell corr i j =
            if (0 <? cell covariance i i * cell covariance j j)%float
            then (cell covariance i j
                  / PrimFloat.sqrt (cell covariance i i * cell covariance j j))%float
            else nan)
    /\ (forall i, i < n -> (cell covariance i i =? 0)%float = true ->
          forall j, j < n -> cell corr i j = nan /\ cell corr j i = nan).
Proof.
  intros n Hcov.
  assert (Hcells : exists corr,
             _get_correlation_matrix self covariance = Return corr []
             /\ square n corr
             /\ (forall i j, i < n -> j < n -> cell corr i j = correlation covariance i j)).
  { unfold _get_correlation_matrix. fold n.
    destruct Hcov as (Hc & Hlen & Hrows). rewrite Hc, Hlen.
    assert (Hcov : square n covariance) by (repeat split; assumption).
    destruct (@for_each_range matrix
                (fun t c => square n c
                            /\ forall i j, i < t -> j < n ->
                                 cell c i j = correlation covariance i j)
                (fun correlation_matrix i =>
                   bind (getitem2 covariance i i) (fun variance_i =>
                     for_each (fun correlation_matrix j =>
                       bind (getitem2 covariance j j) (fun variance_j =>
                         if (0 <? variance_i * variance_j)%float then
                           bind (getitem2 covariance i j) (fun c =>
                             setitem2 correlation_matrix i j
                               (c / PrimFloat.sqrt (variance_i * variance_j))%float)
                         else setitem2 correlation_matrix i j nan))
                       (seq 0 n) correlation_matrix))
                n 0 (zeros2 n n)) as (corr & Hrun & Hsq & Hall).
    - split; [apply square_zeros | intros; lia].
    - intros t c Ht (Hc' & Hdone).
      destruct (@correlation_row n covariance c t Hcov Hc' ltac:(lia))
        as (c' & Hrun & Hsq & Hrow & Hrest).
      exists c'. split.
      + rewrite (getitem2_cell Hcov) by lia. now rewrite bind_Return_l.
      + split; [exact Hsq|]. intros i j Hi Hj.
        destruct (Nat.eq_dec i t) as [-> | Hne]; [now apply Hrow|].
        rewrite Hrest by exact Hne. apply Hdone; lia.
    - exists corr. split; [exact Hrun|]. split; [exact Hsq|].
      intros i j Hi Hj. now apply Hall. }
  destruct Hcells as (corr & Hrun & (Hc & Hlen & _) & Hcell).
  exists corr. split; [exact Hrun|]. split; [unfold mshape; now rewrite Hc, Hlen|]. split.
  - intros i j Hi Hj. now rewrite Hcell.
  - intros i Hi Hzero j Hj. rewrite !Hcell by assumption. unfold correlation.
    destruct (zero_mul_not_positive (cell covariance j j) Hzero) as [H1 H2].
    now rewrite H1, H2.
Qed.

Lemma correlation_matrix_cells_witness :
  square 2 degenerate_covariance
  /\ exists corr,
       _get_correlation_matrix two_parameter_results degenerate_covariance = Return corr []
       /\ cell corr 0 0 = 1%float
       /\ cell corr 0 1 = nan /\ cell corr 1 0 = nan /\ cell corr 1 1 = nan.
Proof.
  assert (H : square 2 degenerate_covariance) by (repeat constructor).
  split; [exact H|].
  destruct (@correlation_matrix_cells two_parameter_results degenerate_covariance H)
    as (corr & Hrun & _ & Hcell & Hzero).
  exists corr. split; [exact Hrun|]. split.
  - rewrite (Hcell 0 0) by (simpl; lia). reflexivity.
  - assert (H1 : 1 < _n_free_parameters two_parameter_results) by (simpl; lia).
    assert (H0 : 0 < _n_free_parameters two_parameter_results) by (simpl; lia).
    destruct (Hzero 1 H1 eq_refl 0 H0) as [Ha Hb].
    destruct (Hzero 1 H1 eq_refl 1 H1) as [Hc _].
    split; [exact Hb | split; [exact Ha | exact Hc]].
Defined.

End CorrelationFacts.

(* ================================================================= *)
(** * Facts about the data frame of parameters *)

Module FrameFacts.
Import Py PyFacts Np Astromodels AnalysisResults ResultsFacts.

Lemma pystr_eqb_refl (a : PyStr.t) : PyStr.eqb a a = true.
Proof. unfold PyStr.eqb. now destruct (list_eq_dec ascii_dec a a). Qed.

Lemma pystr_eqb_eq (a b : PyStr.t) : PyStr.eqb a b = true <-> a = b.
Proof. unfold PyStr.eqb. destruct (list_eq_dec ascii_dec a b); split; congruence. Qed.

Lemma pystr_eqb_neq (a b : PyStr.t) : a <> b -> PyStr.eqb a b = false.
Proof. unfold PyStr.eqb. now destruct (list_eq_dec ascii_dec a b). Qed.

Lemma index_of_nth (paths : list PyStr.t) (i : nat) (p : PyStr.t) :
  NoDup paths -> nth_error paths i = Some p -> index_of paths p = Some i.
Proof.
  intros Hnd. revert i. induction Hnd as [|q paths Hq Hnd IH]; intros i H.
  - destruct i; discriminate H.
  - destruct i as [|i]; simpl in H |- *.
    + injection H as ->. now rewrite pystr_eqb_refl.
    + rewrite pystr_eqb_neq.
      * now rewrite (IH i H).
      * intros ->. apply Hq. eapply nth_error_In. exact H.
Qed.

Lemma nth_error_transpose (m : matrix) (i : nat) :
  i < ncols m ->
  nth_error (rows (transpose m)) i = Some (map (fun r => nth i r nan) (rows m)).
Proof.
  intros Hi. unfold transpose. cbn [rows].
  rewrite nth_error_map, nth_error_seq. apply Nat.ltb_lt in Hi. now rewrite Hi.
Qed.

Section Frame.

Variable quantile : list float -> float -> float.

Lemma equal_tail_inside (rv : RandomVariates) (cl : float) :
  ((0 <? cl) && (cl <? 1))%float = true ->
  equal_tail_confidence_interval quantile rv cl =
    Return (quantile (rv_samples rv) ((1 - cl) / 2)%float,
            quantile (rv_samples rv) (1 - (1 - cl) / 2)%float) [].
Proof. intros H. unfold equal_tail_confidence_interval. now rewrite H. Qed.

Lemma equal_tail_outside (rv : RandomVariates) (cl : float) :
  ((0 <? cl) && (cl <? 1))%float = false ->
  equal_tail_confidence_interval quantile rv cl =
    Raise (ValueError (Fmt "Confidence level must be 0 < cl < 1" [])).
Proof. intros H. unfold equal_tail_confidence_interval. now rewrite H. Qed.
Variable model : Model.
Variable samples : matrix.
Variable stats : list (pyval * float).
Variable ty : PyStr.t.
Variable self : _AnalysisResults.

Hypothesis built : _AnalysisResults__init__ model samples stats ty = Return self [].

Lemma built_fields :
  ncols samples = List.length (free_parameters model)
  /\ self = MkBase (List.length (free_parameters model)) model (transpose samples) stats
                   (free_parameters model) (map value (free_parameters model)) ty.
Proof.
  destruct (Nat.eq_dec (ncols samples) (List.length (free_parameters model))) as [E|E].
  - split; [exact E|]. rewrite (base_init_ok model samples stats ty E) in built.
    now injection built.
  - rewrite (base_init_fail model samples stats ty E) in built. discriminate.
Qed.

(** The variates of the parameter at position [i]: column [i] of the
    samples and the parameter's value. *)
Lemma get_variates_nth (i : nat) (p : FreeParameter) :
  NoDup (map path (free_parameters model)) ->
  nth_error (free_parameters model) i = Some p ->
  get_variates self (path p) =
    Return (MkVariates (map (fun r => nth i r nan) (rows samples)) (value p)) [].
Proof.
  intros Hnd Hp. destruct built_fields as [Hcols ->]. unfold get_variates.
  cbn [_optimized_model _free_parameters _values _samples_transposed].
  assert (Hin : existsb (fun q => PyStr.eqb (path q) (path p)) (free_parameters model) = true).
  { apply existsb_exists. exists p. split; [eapply nth_error_In; exact Hp|].
    apply pystr_eqb_refl. }
  rewrite Hin, assert_true, bind_ret_l.
  rewrite (index_of_nth i Hnd) by (rewrite nth_error_map, Hp; reflexivity).
  rewrite nth_error_map, Hp. cbn [option_map].
  rewrite nth_error_transpose; [reflexivity|].
  rewrite Hcols. apply nth_error_Some. congruence.
Qed.

(** The loop of [get_data_frame] with the equal-tail gatherer. *)
Lemma frame_loop (cl : float) (suffix : list FreeParameter) (i : nat) (frame : list frame_row) :
  ((0 <? cl) && (cl <? 1))%float = true ->
  NoDup (map path (free_parameters model)) ->
  (forall t p, nth_error suffix t = Some p ->
               nth_error (free_parameters model) (i + t) = Some p) ->
  for_each (fun frame this_par =>
              bind (get_variates self (path this_par)) (fun this_phys_q =>
                bind (equal_tail_confidence_interval quantile this_phys_q cl) (fun bounds =>
                  ret (frame ++ [MkRow (path this_par) (rv_value this_phys_q)
                                       (fst bounds - rv_value this_phys_q)
                                       (snd bounds - rv_value this_phys_q)
                                       ((snd bounds - fst bounds) / 2)
                                       (unit this_par)])%float)))
           suffix frame
  = Return (frame ++ map (fun ip => equal_tail_row quantile samples cl (fst ip) (snd ip))
                         (combine (seq i (List.length suffix)) suffix)) [].
Proof.
  intros Hcl Hnd. revert i frame.
  induction suffix as [|p suffix IH]; intros i frame Hnth.
  - cbn. now rewrite app_nil_r.
  - cbn [for_each].
    assert (Hp : nth_error (free_parameters model) i = Some p)
      by (specialize (Hnth 0 p eq_refl); now rewrite Nat.add_0_r in Hnth).
    rewrite (@get_variates_nth i p Hnd Hp), bind_Return_l.
    rewrite (@equal_tail_inside _ cl Hcl), bind_Return_l, bind_ret_l.
    rewrite (IH (S i)).
    + cbn [List.length seq combine map fst snd]. now rewrite <- app_assoc.
    + intros t q Hq. replace (S i + t) with (i + S t) by lia. now apply Hnth.
Qed.

(** With a confidence level inside (0,1) every row comes from the
    equal-tail quantiles. *)
Lemma get_data_frame_rows (cl : float) :
  NoDup (map path (free_parameters model)) ->
  ((0 <? cl) && (cl <? 1))%float = true ->
  get_data_frame quantile self (py "equal tail") cl =
    Return (map (fun ip => equal_tail_row quantile samples cl (fst ip) (snd ip))
                (combine (seq 0 (List.length (free_parameters model)))
                         (free_parameters model))) [].
Proof.
  intros Hnd Hcl. unfold get_data_frame.
  change (PyStr.eqb (py "equal tail") (py "equal tail")) with true. cbv iota.
  rewrite bind_ret_l.
  assert (Hfp : _free_parameters self = free_parameters model)
    by (destruct built_fields as [_ Hself]; now rewrite Hself).
  rewrite Hfp.
  rewrite (@frame_loop cl (free_parameters model) 0 [] Hcl Hnd); [reflexivity|].
  intros t p Hp. exact Hp.
Qed.

(** C9 (as amended).  For a record as its constructor builds it, with
    distinct parameter paths: the kind "hpd" gives what "equal tail" gives;
    any other kind raises ValueError; with 0 < cl < 1 every row comes from
    the equal-tail quantiles of the parameter's samples; with cl outside
    (0,1) the interval computation raises ValueError as soon as there is a
    free parameter to compute it for. *)
Theorem data_frame_error_kinds (error_type : PyStr.t) (cl : float) :
  NoDup (map path (free_parameters model)) ->
  get_data_frame quantile self (py "hpd") cl = get_data_frame quantile self (py "equal tail") cl
  /\ (error_type <> py "equal tail" -> error_type <> py "hpd" ->
      get_data_frame quantile self error_type cl =
        Raise (ValueError (Fmt "error_type must be either 'equal tail' or 'hpd'. Got %s"
                               [AStr error_type])))
  /\ (((0 <? cl) && (cl <? 1))%float = true ->
      get_data_frame quantile self (py "equal tail") cl =
        Return (map (fun ip => equal_tail_row quantile samples cl (fst ip) (snd ip))
                    (combine (seq 0 (List.length (free_parameters model)))
                             (free_parameters model))) [])
  /\ (((0 <? cl) && (cl <? 1))%float = false -> free_parameters model <> [] ->
      get_data_frame quantile self (py "equal tail") cl =
        Raise (ValueError (Fmt "Confidence level must be 0 < cl < 1" []))).
Proof.
  intros Hnd. split; [reflexivity|]. split; [|split].
  - intros H1 H2. unfold get_data_frame.
    now rewrite (pystr_eqb_neq H1), (pystr_eqb_neq H2).
  - intros Hcl. now apply get_data_frame_rows.
  - intros Hcl Hne. unfold get_data_frame.
    change (PyStr.eqb (py "equal tail") (py "equal tail")) with true. cbv iota.
    rewrite bind_ret_l.
    assert (Hfp : _free_parameters self = free_parameters model)
      by (destruct built_fields as [_ Hself]; now rewrite Hself).
    rewrite Hfp.
    destruct (free_parameters model) as [|p ps] eqn:Ep; [congruence|].
    cbn [for_each].
    assert (Hp : nth_error (free_parameters model) 0 = Some p) by now rewrite Ep.
    rewrite <- Ep in Hnd. rewrite (@get_variates_nth 0 p Hnd Hp), bind_Return_l.
    now rewrite (@equal_tail_outside _ cl Hcl).
Qed.

End Frame.

Lemma data_frame_error_kinds_witness :
  _AnalysisResults__init__ two_parameters (Matrix 2 [[1; -1]; [1.5; -1]; [2; -1]]%float) []
    (py "MLE") = Return two_parameter_results []
  /\ NoDup (map path (free_parameters two_parameters))
  /\ get_data_frame first_sample two_parameter_results (py "median") 0.5%float =
       Raise (ValueError (Fmt "error_type must be either 'equal tail' or 'hpd'. Got %s"
                              [AStr (py "median")]))
  /\ get_data_frame first_sample two_parameter_results (py "equal tail") 1.5%float =
       Raise (ValueError (Fmt "Confidence level must be 0 < cl < 1" [])).
Proof.
  assert (H1 : _AnalysisResults__init__ two_parameters
                 (Matrix 2 [[1; -1]; [1.5; -1]; [2; -1]]%float) [] (py "MLE")
               = Return two_parameter_results []) by reflexivity.
  assert (H2 : NoDup (map path (free_parameters two_parameters))).
  { simpl. repeat constructor; simpl; intuition discriminate. }
  split; [exact H1 | split; [exact H2 |]].
  destruct (@data_frame_error_kinds first_sample two_parameters _ [] (py "MLE")
              two_parameter_results H1 (py "median") 1.5%float H2) as (_ & Hkind & _ & Hcl).
  split.
  - assert (E : get_data_frame first_sample two_parameter_results (py "median") 0.5%float
                = get_data_frame first_sample two_parameter_results (py "median") 1.5%float)
      by reflexivity.
    rewrite E. apply Hkind; discriminate.
  - apply Hcl; [reflexivity | discriminate].
Defined.

(** The claim as stated fails: with no free parameter the confidence level
    is never looked at, and a level of 2 gives an empty frame. *)
Lemma confidence_level_counterexample :
  exists base,
    BayesianResults__init__ no_parameters (Matrix 0 [[]; []]) [] = Return (BayesianResults base) []
    /\ get_data_frame first_sample base (py "equal tail") 2%float = Return [] [].
Proof. eexists. split; reflexivity. Qed.

End FrameFacts.

(* ================================================================= *)
(** * Facts about reading containers *)

Module LoadFacts.
Import Py PyFacts Np Astromodels AnalysisResults FitsFile Escaping Persistence FrameFacts.

Section Loading.

Variable random_normal : list float -> matrix -> nat -> list (list float).
Variable yaml_load : PyStr.t -> outcome Model.

(** C3.  What the code does with an analysis type it does not know: once
    the model and the statistics have been read, [_load_one_results] falls
    off its end and returns [None]; no exception is raised. *)
Theorem unknown_analysis_type_returns_nothing (fits_extension : BinTableHDU)
  (serialized : PyStr.t) (model : Model) (stats : list (pyval * float)) :
  header_get (hdu_header fits_extension) (py "RESUTYPE") <> PStr (py "MLE") ->
  header_get (hdu_header fits_extension) (py "RESUTYPE") <> PStr (py "Bayesian") ->
  header_get (hdu_header fits_extension) (py "MODEL") = PStr serialized ->
  yaml_load (_escape_back_yaml_from_fits serialized) = Return model [] ->
  read_statistics (hdu_header fits_extension) = Return stats [] ->
  _load_one_results random_normal yaml_load fits_extension = Return None [].
Proof.
  intros Hmle Hbayes Hmodel Hparse Hstats. unfold _load_one_results.
  rewrite Hmodel, bind_ret_l, (bind_return _ Hparse), (bind_return _ Hstats).
  destruct (header_get (hdu_header fits_extension) (py "RESUTYPE")) as [| | | |tag| | | | |];
    try reflexivity.
  destruct (PyStr.eqb tag (py "MLE")) eqn:E1.
  - apply pystr_eqb_eq in E1. congruence.
  - destruct (PyStr.eqb tag (py "Bayesian")) eqn:E2; [|reflexivity].
    apply pystr_eqb_eq in E2. congruence.
Qed.


End Loading.

Lemma unknown_analysis_type_returns_nothing_witness :
  header_get (hdu_header unknown_tag_extension) (py "RESUTYPE") <> PStr (py "MLE")
  /\ header_get (hdu_header unknown_tag_extension) (py "RESUTYPE") <> PStr (py "Bayesian")
  /\ _load_one_results no_draw parse_two_parameters unknown_tag_extension = Return None [].
Proof.
  assert (H1 : header_get (hdu_header unknown_tag_extension) (py "RESUTYPE") <> PStr (py "MLE"))
    by (vm_compute; discriminate).
  assert (H2 : header_get (hdu_header unknown_tag_extension) (py "RESUTYPE")
               <> PStr (py "Bayesian")) by (vm_compute; discriminate).
  split; [exact H1 | split; [exact H2 |]].
  apply (@unknown_analysis_type_returns_nothing no_draw parse_two_parameters
           unknown_tag_extension (py "model") two_parameters [(PStr (py "detector"), 12.5%float)]
           H1 H2 eq_refl eq_refl eq_refl).
Defined.


End LoadFacts.

(* ================================================================= *)
(** * Facts about headers and the statistics keywords *)

Module HeaderFacts.
Import Py PyFacts PyStrFacts Np Astromodels AnalysisResults FitsFile Escaping Persistence FrameFacts.

Lemma int_of_format (n : nat) : int_of_str (format_i n) = Return n [].
Proof.
  unfold int_of_str, format_i, PyStr.of_string.
  rewrite string_of_list_ascii_of_string, NilEmpty.usu.
  now rewrite DecimalNat.Unsigned.of_to.
Qed.

Lemma format_i_inj (i j : nat) : format_i i = format_i j -> i = j.
Proof.
  intros H. pose proof (int_of_format i) as Hi. rewrite H, int_of_format in Hi.
  now injection Hi.
Qed.

Lemma digits_not_S (d : Decimal.uint) :
  Forall (fun c => c <> "S"%char) (list_ascii_of_string (NilEmpty.string_of_uint d)).
Proof. induction d; simpl; constructor; try assumption; discriminate. Qed.

Lemma key_stat_inj (i j : nat) : key_stat i = key_stat j -> i = j.
Proof. unfold key_stat. intros H. apply app_inv_head in H. now apply format_i_inj. Qed.

Lemma key_pn_inj (i j : nat) : key_pn i = key_pn j -> i = j.
Proof. unfold key_pn. intros H. apply app_inv_head in H. now apply format_i_inj. Qed.

Lemma key_stat_not_pn (i j : nat) : key_stat i <> key_pn j.
Proof. discriminate. Qed.

Lemma key_stat_is_stat (i : nat) : PyStr.find_is_0 (py "STAT") (key_stat i) = true.
Proof. apply starts_with_app. Qed.

Lemma key_pn_is_not_stat (i : nat) : PyStr.find_is_0 (py "STAT") (key_pn i) = false.
Proof. reflexivity. Qed.

(** Taking STAT away from a statistics keyword leaves its number. *)
Lemma key_stat_number (i : nat) : PyStr.replace (py "STAT") [] (key_stat i) = format_i i.
Proof.
  unfold key_stat. change (PyStr.replace (py "STAT") []) with (PyStr.replace_from (py "STAT") [] 0).
  rewrite replace_from_match by discriminate. cbn [app].
  rewrite <- (app_nil_r (format_i i)) at 1.
  rewrite replace_from_block; [now rewrite app_nil_r|].
  intros p q Hpq Hq. rewrite app_nil_r.
  pose proof (digits_not_S (Nat.to_uint i)) as Hd.
  fold (PyStr.of_string (NilEmpty.string_of_uint (Nat.to_uint i))) in Hd.
  fold (format_i i) in Hd. rewrite Hpq in Hd. apply Forall_app in Hd as [_ Hd].
  destruct q as [|c q]; [congruence|]. inversion Hd as [|? ? Hc _]; subst.
  unfold py, PyStr.of_string. cbn [list_ascii_of_string PyStr.starts_with].
  destruct (Ascii.eqb "S"%char c) eqn:E; [|reflexivity].
  apply Ascii.eqb_eq in E. congruence.
Qed.

(** ** Looking keywords up *)

Lemma header_get_app_l (h1 h2 : Header) (key : PyStr.t) :
  (exists c, In c h1 /\ keyword c = key) ->
  header_get (h1 ++ h2) key = header_get h1 key.
Proof.
  intros (c & Hin & Hk). unfold header_get.
  induction h1 as [|a h1 IH]; [destruct Hin|].
  cbn [app find]. destruct (PyStr.eqb (keyword a) key) eqn:E; [reflexivity|].
  apply IH. destruct Hin as [-> | Hin]; [|exact Hin].
  rewrite Hk, pystr_eqb_refl in E. discriminate.
Qed.

Lemma header_get_app_r (h1 h2 : Header) (key : PyStr.t) :
  (forall c, In c h1 -> keyword c <> key) ->
  header_get (h1 ++ h2) key = header_get h2 key.
Proof.
  intros Hno. unfold header_get.
  induction h1 as [|a h1 IH]; [reflexivity|].
  cbn [app find]. rewrite pystr_eqb_neq by (apply Hno; now left).
  apply IH. intros c Hc. apply Hno. now right.
Qed.

Lemma header_set_absent (h : Header) (key : PyStr.t) (v : pyval) (cmt : option PyStr.t) :
  (forall c, In c h -> keyword c <> key) ->
  header_set h key v cmt = h ++ [Card key v cmt].
Proof.
  intros Hno. induction h as [|a h IH]; [reflexivity|].
  cbn [header_set app]. rewrite pystr_eqb_neq by (apply Hno; now left).
  f_equal. apply IH. intros c Hc. apply Hno. now right.
Qed.

(** ** Writing the statistics *)

Lemma fresh_from_next (a : nat) (h : Header) (name : pyval) (v : float)
  (c1 c2 : option PyStr.t) :
  fresh_from a h ->
  fresh_from (S a) (h ++ [Card (key_stat a) (PFloat v) c1; Card (key_pn a) name c2]).
Proof.
  intros Hf c j Hin Hj. apply in_app_or in Hin as [Hin | [<- | [<- | []]]].
  - apply Hf; [exact Hin | lia].
  - cbn [keyword]. split; [|apply key_stat_not_pn].
    intros E. apply key_stat_inj in E. lia.
  - cbn [keyword]. split.
    + intros E. symmetry in E. now apply key_stat_not_pn in E.
    + intros E. apply key_pn_inj in E. lia.
Qed.

Lemma write_statistics_from (l : list (pyval * float)) (a : nat) (h : Header) :
  fresh_from a h ->
  fold_left (fun header (it : nat * (pyval * float)) =>
               header_set
                 (header_set header (py "STAT" ++ format_i (fst it)) (PFloat (snd (snd it)))
                    (Some (py "Stat. value for plugin " ++ format_i (fst it))))
                 (py "PN" ++ format_i (fst it)) (fst (snd it))
                 (Some (py "Name of plugin " ++ format_i (fst it))))
            (combine (seq a (List.length l)) l) h
  = h ++ stat_cards (combine (seq a (List.length l)) l).
Proof.
  revert a h. induction l as [|[name v] l IH]; intros a h Hf.
  - cbn. now rewrite app_nil_r.
  - cbn [List.length seq combine fold_left fst snd].
    fold (key_stat a). fold (key_pn a).
    rewrite (header_set_absent h) by (intros c Hc; apply (Hf c a Hc); lia).
    rewrite header_set_absent.
    + rewrite <- app_assoc. cbn [app]. rewrite IH by now apply fresh_from_next.
      rewrite <- app_assoc. reflexivity.
    + intros c Hc. apply in_app_or in Hc as [Hc | [<- | []]].
      * apply (Hf c a Hc); lia.
      * apply key_stat_not_pn.
Qed.

Lemma write_statistics_cards (h : Header) (stats : list (pyval * float)) :
  fresh_from 0 h ->
  write_statistics h stats = h ++ stat_cards (enumerate stats).
Proof. intros Hf. unfold write_statistics, enumerate. now apply write_statistics_from. Qed.

(** ** Reading the statistics back *)

Lemma stat_cards_lookup (items : list (nat * (pyval * float))) (tail : Header)
  (i : nat) (name : pyval) (v : float) :
  NoDup (map fst items) ->
  In (i, (name, v)) items ->
  header_get (stat_cards items ++ tail) (key_stat i) = PFloat v
  /\ header_get (stat_cards items ++ tail) (key_pn i) = name.
Proof.
  intros Hnd Hin. induction items as [|[i0 [n0 v0]] items IH]; [destruct Hin|].
  cbn [map fst] in Hnd. inversion Hnd as [|? ? Hnot Hnd']; subst.
  unfold header_get in *. cbn [stat_cards flat_map app find keyword fst snd].
  destruct Hin as [E | Hin].
  - injection E as -> -> ->. rewrite pystr_eqb_refl.
    rewrite (pystr_eqb_neq (@key_stat_not_pn i i)), pystr_eqb_refl. now split.
  - assert (Hne : i0 <> i).
    { intros ->. apply Hnot. change i with (fst (i, (name, v))). now apply in_map. }
    rewrite (pystr_eqb_neq (a := key_stat i0) (b := key_stat i))
      by (intros E; now apply key_stat_inj in E).
    rewrite (pystr_eqb_neq (a := key_pn i0) (b := key_stat i))
      by (intros E; symmetry in E; now apply key_stat_not_pn in E).
    rewrite (pystr_eqb_neq (@key_stat_not_pn i0 i)).
    rewrite (pystr_eqb_neq (a := key_pn i0) (b := key_pn i))
      by (intros E; now apply key_pn_inj in E).
    now apply IH.
Qed.

Lemma dict_set_fresh (d : list (pyval * float)) (name : pyval) (v : float) :
  Forall (fun e => key_eqb (fst e) name = false) d ->
  dict_set d name v = d ++ [(name, v)].
Proof.
  induction 1 as [|[k old] d Hk _ IH]; [reflexivity|].
  cbn [dict_set app]. cbn [fst] in Hk. now rewrite Hk, IH.
Qed.

Lemma distinct_names_split (acc : list (pyval * float)) (name : pyval) (v : float)
  (rest : list (pyval * float)) :
  distinct_names (acc ++ (name, v) :: rest) ->
  Forall (fun e => key_eqb (fst e) name = false) acc.
Proof.
  induction acc as [|[k old] acc IH]; intros H; [constructor|].
  cbn [app distinct_names] in H. destruct H as [Hk Hrest].
  constructor; [|now apply IH].
  rewrite Forall_forall in Hk. apply (Hk (name, v)). apply in_or_app. right. now left.
Qed.

Lemma for_each_app (A S : Type) (body : S -> A -> outcome S) (l1 l2 : list A) (s : S) :
  for_each body (l1 ++ l2) s = bind (for_each body l1 s) (for_each body l2).
Proof.
  revert s. induction l1 as [|a l1 IH]; intros s.
  - cbn [app for_each]. now rewrite bind_ret_l.
  - cbn [app for_each]. rewrite bind_assoc. apply bind_ext. intros s'. apply IH.
Qed.

Section Reading.

Variable header : Header.

Lemma read_other_keys (keys : list PyStr.t) (acc : list (pyval * float)) :
  (forall key, In key keys -> PyStr.find_is_0 (py "STAT") key = false) ->
  for_each (read_step header) keys acc = Return acc [].
Proof.
  induction keys as [|key keys IH]; intros H; [reflexivity|].
  cbn [for_each]. unfold read_step at 1. rewrite (H key (or_introl eq_refl)), bind_ret_l.
  apply IH. intros k Hk. apply H. now right.
Qed.

Lemma read_stat_keys (items : list (nat * (pyval * float))) (acc : list (pyval * float)) :
  (forall i name v, In (i, (name, v)) items ->
     header_get header (key_stat i) = PFloat v /\ header_get header (key_pn i) = name) ->
  distinct_names (acc ++ map snd items) ->
  for_each (read_step header) (flat_map (fun it => [key_stat (fst it); key_pn (fst it)]) items) acc
  = Return (acc ++ map snd items) [].
Proof.
  revert acc. induction items as [|[i [name v]] items IH]; intros acc Hget Hd.
  - cbn. now rewrite app_nil_r.
  - cbn [flat_map app for_each fst snd].
    destruct (Hget i name v (or_introl eq_refl)) as [Hv Hn].
    unfold read_step at 1. rewrite key_stat_is_stat, key_stat_number, int_of_format.
    rewrite bind_Return_l, Hv. cbn [float_of]. rewrite bind_ret_l. fold (key_pn i). rewrite Hn.
    rewrite bind_ret_l. unfold read_step at 1. rewrite key_pn_is_not_stat, bind_ret_l.
    cbn [map snd] in Hd.
    rewrite (@dict_set_fresh acc name v (@distinct_names_split acc name v _ Hd)).
    rewrite IH.
    + cbn [map snd]. now rewrite <- app_assoc.
    + intros j n w Hin. apply Hget. now right.
    + now rewrite <- app_assoc.
Qed.

End Reading.

End HeaderFacts.

(* ================================================================= *)
(** * Facts about arrays stored in columns *)

Module ColumnFacts.
Import Py PyFacts Np Astromodels AnalysisResults FitsFile FitsFileFacts.

Lemma map_nth_seq (A : Type) (l : list A) (d : A) :
  map (fun j => nth j l d) (seq 0 (List.length l)) = l.
Proof.
  induction l as [|a l IH]; [reflexivity|].
  cbn [List.length seq map nth]. f_equal.
  rewrite <- seq_shift, map_map. exact IH.
Qed.

(** Transposing twice gives the array back. *)
Lemma transpose_involutive (m : matrix) : rectangular m -> transpose (transpose m) = m.
Proof.
  intros Hrect. destruct m as [c rs]. unfold rectangular in Hrect. cbn [ncols rows] in Hrect.
  unfold transpose. cbn [ncols rows]. rewrite length_map, length_seq. f_equal.
  transitivity (map (fun i => nth i rs []) (seq 0 (List.length rs)));
    [|apply map_nth_seq].
  apply map_ext_in. intros i Hi. apply in_seq in Hi.
  rewrite map_map.
  assert (Hrow : List.length (nth i rs []) = c).
  { rewrite Forall_forall in Hrect. apply Hrect, nth_In. lia. }
  transitivity (map (fun j => nth j (nth i rs []) nan) (seq 0 (List.length (nth i rs []))));
    [|apply map_nth_seq].
  rewrite Hrow. apply map_ext. intros j.
  rewrite (nth_indep _ nan (nth j [] nan)) by (rewrite length_map; lia).
  now rewrite (map_nth (fun r => nth j r nan)).
Qed.

Lemma transpose_rectangular (m : matrix) : rectangular (transpose m).
Proof.
  unfold rectangular, transpose. cbn [ncols rows]. rewrite Forall_forall.
  intros r Hr. apply in_map_iff in Hr as (j & <- & _). apply length_map.
Qed.

Lemma square_rectangular (n : nat) (m : matrix) : square n m -> rectangular m.
Proof. intros (Hc & _ & Hrows). unfold rectangular. now rewrite Hc. Qed.

(** ** Reading an array back from the Python sequence *)

Lemma option_all_scalars (v : list float) :
  option_all (map scalar_of_py (map (PNumpy float64) v)) = Some v.
Proof. induction v as [|x v IH]; [reflexivity|]. cbn. now rewrite IH. Qed.

Lemma vector_of_py_of_vector (v : list float) : vector_of_py (py_of_vector v) = Some v.
Proof. apply option_all_scalars. Qed.

Lemma option_all_vectors (rs : list (list float)) :
  option_all (map vector_of_py (map py_of_vector rs)) = Some rs.
Proof.
  induction rs as [|r rs IH]; [reflexivity|].
  cbn [map option_all]. now rewrite vector_of_py_of_vector, IH.
Qed.

Lemma ndarray_of_py_of_matrix (m : matrix) :
  rectangular m -> rows m <> [] -> ndarray_of_py (py_of_matrix m) = Return (A2 m) [].
Proof.
  intros Hrect Hne. destruct m as [c rs]. cbn [rows] in Hne.
  unfold rectangular in Hrect. cbn [ncols rows] in Hrect.
  destruct rs as [|r rs]; [congruence|].
  unfold ndarray_of_py, py_of_matrix. cbn [rows].
  change (option_all (map scalar_of_py (map py_of_vector (r :: rs)))) with (@None (list float)).
  rewrite option_all_vectors.
  inversion Hrect as [|? ? Hr Hrs]; subst.
  assert (Hall : forallb (fun r' => List.length r' =? List.length r) rs = true).
  { apply forallb_forall. intros r' Hr'. rewrite Forall_forall in Hrs.
    rewrite (Hrs r' Hr'). apply Nat.eqb_refl. }
  now rewrite Hall.
Qed.

(** ** Columns of the result extension *)

Section Columns.

Variable list_dtype : list pyval -> option dtype.
Variable coercible : pyval -> dtype -> bool.

Lemma make_column_floats (name : PyStr.t) (v : list float) :
  v <> [] ->
  make_column list_dtype coercible name (py_of_vector v) =
    Return (MkColumn name (py "D") None (py_of_vector v)) [].
Proof. intros Hv. destruct v as [|x v]; [congruence|]. reflexivity. Qed.

Lemma make_column_text (name : PyStr.t) (strs : list PyStr.t) (data : pyval) :
  strs <> [] ->
  data = PList (map PStr strs) \/ data = PArray string_ (map PStr strs) ->
  exists fmt, make_column list_dtype coercible name data = Return (MkColumn name fmt None data) [].
Proof.
  intros Hne Hdata. destruct strs as [|s strs]; [congruence|].
  eexists. apply make_column_strings with (s := s) (strs := strs);
    destruct Hdata as [-> | ->]; reflexivity.
Qed.

Lemma make_column_rows (name : PyStr.t) (m : matrix) (r : list float) (rs : list (list float)) :
  rows m = r :: rs -> r <> [] ->
  make_column list_dtype coercible name (py_of_matrix m) =
    Return (MkColumn name (format_i (List.length r) ++ py "D") None (py_of_matrix m)) [].
Proof.
  intros Hrows Hr. destruct r as [|x r]; [congruence|].
  unfold py_of_matrix. rewrite Hrows.
  unfold make_column. cbn [map getitem0 py_of_vector]. rewrite bind_ret_l.
  cbn [isscalar getitem0 try_except bind array_dtype ret app].
  cbn [dtype_eqb dtype_eq_dec negb assert can_coerce orb len fits_code _NUMPY_TO_FITS_CODE].
  cbn. now rewrite length_map.
Qed.

End Columns.

End ColumnFacts.

(* ================================================================= *)
(** * Facts about writing a result *)

Module WriteFacts.
Import Py PyFacts PyStrFacts Np Astromodels AnalysisResults FitsFile Escaping Persistence.
Import FrameFacts HeaderFacts ColumnFacts ResultsFacts.

Lemma map_fst_enumerate (A : Type) (l : list A) :
  map fst (enumerate l) = seq 0 (List.length l).
Proof.
  unfold enumerate. generalize 0. induction l as [|a l IH]; intros n; [reflexivity|].
  cbn [List.length seq combine map fst]. now rewrite IH.
Qed.

Lemma map_snd_enumerate (A : Type) (l : list A) : map snd (enumerate l) = l.
Proof.
  unfold enumerate. generalize 0. induction l as [|a l IH]; intros n; [reflexivity|].
  cbn [List.length seq combine map snd]. now rewrite IH.
Qed.

Lemma stat_cards_keywords (items : list (nat * (pyval * float))) :
  map keyword (stat_cards items)
  = flat_map (fun it => [key_stat (fst it); key_pn (fst it)]) items.
Proof.
  induction items as [|it items IH]; [reflexivity|].
  unfold stat_cards in *. cbn [flat_map]. rewrite map_app, IH. reflexivity.
Qed.

Lemma stat_cards_not_extver (items : list (nat * (pyval * float))) (c : card) :
  In c (stat_cards items) -> keyword c <> py "EXTVER".
Proof.
  intros Hin. apply (in_map keyword) in Hin. rewrite stat_cards_keywords in Hin.
  apply in_flat_map in Hin as (it & _ & [<- | [<- | []]]); discriminate.
Qed.

Section Writing.

Variable list_dtype : list pyval -> option dtype.
Variable coercible : pyval -> dtype -> bool.
Variable quantile : list float -> float -> float.
Variable version : PyStr.t.
Variable __version__ : PyStr.t.
Variable now : PyStr.t.
Variable yaml_dump : Model -> PyStr.t.

Variable model : Model.
Variable samples : matrix.
Variable stats : list (pyval * float).
Variable ty : PyStr.t.
Variable base : _AnalysisResults.

Hypothesis built : _AnalysisResults__init__ model samples stats ty = Return base [].
Hypothesis some_parameter : free_parameters model <> [].
Hypothesis distinct_paths : NoDup (map path (free_parameters model)).

Lemma written_keywords_fresh :
  fresh_from 0 (written_keywords version __version__ yaml_dump model ty).
Proof.
  intros c j Hin _.
  destruct Hin as [<- | [<- | [<- | [<- | [<- | []]]]]]; split; discriminate.
Qed.

(** The extension built once the two array columns are given. *)
Lemma extension_with_columns (covariance_column samples_column : pyval) (fc fs : PyStr.t) :
  make_column list_dtype coercible (py "COVARIANCE") covariance_column =
    Return (MkColumn (py "COVARIANCE") fc None covariance_column) [] ->
  make_column list_dtype coercible (py "SAMPLES") samples_column =
    Return (MkColumn (py "SAMPLES") fs None samples_column) [] ->
  exists columns,
    (data_frame <- get_data_frame quantile base (py "equal tail") 0.68 ;;
     hdu <- FITSExtension list_dtype coercible version
              [ (py "NAME", PList (map (fun p => PStr (path p)) (free_parameters model)));
                (py "VALUE", py_of_vector (map row_value data_frame));
                (py "NEGATIVE_ERROR", py_of_vector (map row_negative_error data_frame));
                (py "POSITIVE_ERROR", py_of_vector (map row_positive_error data_frame));
                (py "ERROR", py_of_vector (map row_error data_frame));
                (py "UNIT", PArray string_ (map (fun r => PStr (row_unit r)) data_frame));
                (py "COVARIANCE", covariance_column);
                (py "SAMPLES", samples_column) ]
              (ANALYSIS_RESULTS_HEADER_KEYWORDS __version__) ;;
     ret (MkHDU (write_statistics
                   (header_set
                      (header_set (hdu_header hdu) (py "MODEL")
                         (PStr (_escape_yaml_for_fits (yaml_dump model))) None)
                      (py "RESUTYPE") (PStr ty) None)
                   stats)
                (hdu_columns hdu)))
    = Return (MkHDU (written_keywords version __version__ yaml_dump model ty
                       ++ stat_cards (enumerate stats)) columns) []
    /\ (forall h, data_field (MkHDU h columns) (py "COVARIANCE") = Return covariance_column [])
    /\ (forall h, data_field (MkHDU h columns) (py "SAMPLES") = Return samples_column []).
Proof.
  intros Hcov Hsam.
  rewrite (@get_data_frame_rows quantile model samples stats ty base built
             0.68%float distinct_paths eq_refl).
  rewrite bind_Return_l.
  set (frame := map (fun ip => equal_tail_row quantile samples 0.68 (fst ip) (snd ip))
                    (combine (seq 0 (List.length (free_parameters model)))
                             (free_parameters model))).
  assert (Hframe : frame <> []).
  { unfold frame. destruct (free_parameters model); [congruence | discriminate]. }
  assert (Hmap : forall (B : Type) (g : frame_row -> B), map g frame <> []).
  { intros B g. destruct frame; [congruence | discriminate]. }
  destruct (@make_column_text list_dtype coercible (py "NAME")
              (map path (free_parameters model))
              (PList (map (fun p => PStr (path p)) (free_parameters model))))
    as (fname & Hname).
  { destruct (free_parameters model); [congruence | discriminate]. }
  { left. now rewrite map_map. }
  destruct (@make_column_text list_dtype coercible (py "UNIT")
              (map row_unit frame)
              (PArray string_ (map (fun r => PStr (row_unit r)) frame)))
    as (funit & Hunit).
  { apply Hmap. }
  { right. now rewrite map_map. }
  eexists. split; [|split].
  - unfold FITSExtension. cbn [map_m fst snd].
    rewrite Hname, bind_Return_l.
    rewrite !make_column_floats by apply Hmap.
    rewrite !bind_Return_l.
    rewrite Hunit, bind_Return_l, Hcov, bind_Return_l, Hsam, bind_Return_l.
    rewrite !bind_ret_l. cbn [hdu_header hdu_columns].
    rewrite <- (@write_statistics_cards
                  (written_keywords version __version__ yaml_dump model ty) stats
                  written_keywords_fresh).
    reflexivity.
  - intros h. reflexivity.
  - intros h. reflexivity.
Qed.

(** The container [write_to] produces once the extension is known. *)
Lemma write_to_container (r : Results) (columns : list Column) :
  ANALYSIS_RESULTS list_dtype coercible quantile version __version__ yaml_dump r =
    Return (MkHDU (written_keywords version __version__ yaml_dump model ty
                     ++ stat_cards (enumerate stats)) columns) [] ->
  write_to list_dtype coercible quantile version __version__ now yaml_dump r =
    Return (MkFile
              (header_set (header_set [] (py "DATE") (PStr now) None) (py "ORIGIN")
                          (PStr (py "3ML")) (Some (origin_comment __version__)))
              [MkHDU (written_header version __version__ yaml_dump model ty stats) columns])
           [].
Proof.
  intros Hext. unfold write_to, AnalysisResultsFITS. rewrite bind_ret_l.
  cbn [map_m]. rewrite Hext, bind_Return_l, !bind_ret_l.
  change (enumerate [MkHDU (written_keywords version __version__ yaml_dump model ty
                              ++ stat_cards (enumerate stats)) columns])
    with [(0, MkHDU (written_keywords version __version__ yaml_dump model ty
                       ++ stat_cards (enumerate stats)) columns)].
  cbn [map fst snd hdu_header hdu_columns FITSFile__init__ primary_header file_extensions app].
  rewrite (header_set_absent (written_keywords version __version__ yaml_dump model ty
                                ++ stat_cards (enumerate stats))).
  - unfold written_header. rewrite <- app_assoc. reflexivity.
  - intros c Hc. apply in_app_or in Hc as [Hc | Hc].
    + destruct Hc as [<- | [<- | [<- | [<- | [<- | []]]]]]; discriminate.
    + now apply stat_cards_not_extver in Hc.
Qed.

(** [ANALYSIS_RESULTS.__init__] on a record of a maximum-likelihood fit. *)
Lemma extension_of_mle (cov : matrix) :
  ty = py "MLE" ->
  square (List.length (free_parameters model)) cov ->
  exists columns,
    ANALYSIS_RESULTS list_dtype coercible quantile version __version__ yaml_dump
      (MLEResults base cov)
    = Return (MkHDU (written_keywords version __version__ yaml_dump model ty
                       ++ stat_cards (enumerate stats)) columns) []
    /\ (forall h, data_field (MkHDU h columns) (py "COVARIANCE") = Return (py_of_matrix cov) []).
Proof.
  intros Hty Hsq.
  destruct (@built_fields model samples stats ty base built) as [Hcols Hself].
  assert (Hk : List.length (free_parameters model) <> 0)
    by (destruct (free_parameters model); [congruence | discriminate]).
  destruct Hsq as (Hc & Hlen & Hrows).
  destruct (rows cov) as [|r rs] eqn:Er; [cbn in Hlen; lia|].
  assert (Hr : r <> []).
  { inversion Hrows as [|? ? Hr0 _]; subst. destruct r; [cbn in Hr0; lia | discriminate]. }
  destruct (@extension_with_columns
              (py_of_matrix cov) (py_of_vector (zeros1 (List.length (free_parameters model))))
              (format_i (List.length r) ++ py "D") (py "D"))
    as (columns & Hext & Hcovf & _).
  { now apply make_column_rows with (rs := rs). }
  { apply make_column_floats. unfold zeros1.
    destruct (List.length (free_parameters model)); [congruence | discriminate]. }
  exists columns. split; [|exact Hcovf].
  unfold ANALYSIS_RESULTS.
  assert (Hat : analysis_type (MLEResults base cov) = py "MLE").
  { unfold analysis_type. cbn [base_of]. rewrite Hself. cbn [_analysis_type]. exact Hty. }
  assert (Hmodel : optimized_model (MLEResults base cov) = model).
  { unfold optimized_model, clone_model. cbn [base_of]. now rewrite Hself. }
  assert (Hstats : optimal_statistic_values (MLEResults base cov) = stats).
  { unfold optimal_statistic_values. cbn [base_of]. now rewrite Hself. }
  rewrite Hat, Hmodel, Hstats. cbn [base_of].
  change (PyStr.eqb (py "MLE") (py "MLE")) with true. cbv iota.
  rewrite <- Hty.
  unfold mshape. rewrite Er, Hc.
  replace (List.length (r :: rs)) with (List.length (free_parameters model)) by (symmetry; exact Hlen).
  rewrite shape_eqb_refl, assert_true, !bind_ret_l. cbn [fst snd].
  exact Hext.
Qed.

(** [ANALYSIS_RESULTS.__init__] on a record of a Bayesian analysis. *)
Lemma extension_of_bayesian :
  ty = py "Bayesian" ->
  rows samples <> [] ->
  exists columns,
    ANALYSIS_RESULTS list_dtype coercible quantile version __version__ yaml_dump
      (BayesianResults base)
    = Return (MkHDU (written_keywords version __version__ yaml_dump model ty
                       ++ stat_cards (enumerate stats)) columns) []
    /\ (forall h, data_field (MkHDU h columns) (py "SAMPLES")
                  = Return (py_of_matrix (transpose samples)) []).
Proof.
  intros Hty Hsam.
  destruct (@built_fields model samples stats ty base built) as [Hcols Hself].
  assert (Hk : List.length (free_parameters model) <> 0)
    by (destruct (free_parameters model); [congruence | discriminate]).
  assert (Hst : _samples_transposed base = transpose samples) by now rewrite Hself.
  destruct (ncols samples) as [|c] eqn:Ec; [lia|].
  destruct (@extension_with_columns
              (py_of_vector (zeros1 (List.length (free_parameters model))))
              (py_of_matrix (transpose samples))
              (py "D")
              (format_i (List.length (map (fun r => nth 0 r nan) (rows samples))) ++ py "D"))
    as (columns & Hext & _ & Hsamf).
  { apply make_column_floats. unfold zeros1.
    destruct (List.length (free_parameters model)); [congruence | discriminate]. }
  { apply make_column_rows
      with (rs := map (fun j => map (fun r => nth j r nan) (rows samples)) (seq 1 c)).
    - unfold transpose. cbn [rows]. rewrite Ec. reflexivity.
    - destruct (rows samples); [congruence | discriminate]. }
  exists columns. split; [|exact Hsamf].
  unfold ANALYSIS_RESULTS.
  assert (Hat : analysis_type (BayesianResults base) = py "Bayesian").
  { unfold analysis_type. cbn [base_of]. rewrite Hself. cbn [_analysis_type]. exact Hty. }
  assert (Hmodel : optimized_model (BayesianResults base) = model).
  { unfold optimized_model, clone_model. cbn [base_of]. now rewrite Hself. }
  assert (Hstats : optimal_statistic_values (BayesianResults base) = stats).
  { unfold optimal_statistic_values. cbn [base_of]. now rewrite Hself. }
  rewrite Hat, Hmodel, Hstats. cbn [base_of].
  change (PyStr.eqb (py "Bayesian") (py "MLE")) with false. cbv iota.
  rewrite <- Hty.
  rewrite Hst, !bind_ret_l. cbn [fst snd].
  exact Hext.
Qed.

End Writing.

End WriteFacts.
(* ================================================================= *)
(** * Facts about reading back what was written *)

Module ReadFacts.
Import Py PyFacts PyStrFacts Np Astromodels AnalysisResults FitsFile Escaping Persistence.
Import FrameFacts HeaderFacts ColumnFacts ResultsFacts EscapingFacts WriteFacts.

(** The transpose of a square array of finite numbers holds finite numbers. *)
Lemma all_finite_transpose (n : nat) (m : matrix) :
  square n m -> all_finite (A2 m) = true -> all_finite (A2 (transpose m)) = true.
Proof.
  intros (Hc & _ & Hrows) Hfin. cbn [all_finite] in *. unfold transpose. cbn [rows].
  rewrite forallb_forall in Hfin. rewrite Forall_forall in Hrows.
  apply forallb_forall. intros col Hcol.
  apply in_map_iff in Hcol as (j & <- & Hj). apply in_seq in Hj.
  apply forallb_forall. intros x Hx.
  apply in_map_iff in Hx as (r & <- & Hr).
  specialize (Hfin r Hr). rewrite forallb_forall in Hfin. apply Hfin.
  apply nth_In. rewrite (Hrows r Hr). lia.
Qed.

Lemma shape_transpose_square (n : nat) (m : matrix) :
  square n m -> mshape (transpose m) = [n; n].
Proof.
  intros (Hc & Hlen & _). unfold mshape, transpose. cbn [rows ncols].
  now rewrite length_map, length_seq, Hc, Hlen.
Qed.

Section Reading.

Variable random_normal : list float -> matrix -> nat -> list (list float).
Variable version : PyStr.t.
Variable __version__ : PyStr.t.
Variable yaml_dump : Model -> PyStr.t.
Variable yaml_load : PyStr.t -> outcome Model.

Variable model : Model.
Variable ty : PyStr.t.
Variable stats : list (pyval * float).
Variable columns : list Column.

Hypothesis distinct : distinct_names stats.
Hypothesis plain_text : free_of placeholder_words (yaml_dump model) = true.
Hypothesis parsed : yaml_load (yaml_dump model) = Return model [].

#[local] Abbreviation header := (written_header version __version__ yaml_dump model ty stats).
#[local] Abbreviation keywords := (written_keywords version __version__ yaml_dump model ty).

Lemma written_name : hdu_name (MkHDU header columns) = py "ANALYSIS_RESULTS".
Proof. reflexivity. Qed.

Lemma written_ver : hdu_ver (MkHDU header columns) = 1%Z.
Proof.
  unfold hdu_ver, written_header. cbn [hdu_header].
  rewrite (@header_get_app_r keywords).
  - rewrite header_get_app_r; [reflexivity|]. intros c. apply stat_cards_not_extver.
  - intros c Hc. destruct Hc as [<- | [<- | [<- | [<- | [<- | []]]]]]; discriminate.
Qed.

Lemma written_type : header_get header (py "RESUTYPE") = PStr ty.
Proof. reflexivity. Qed.

Lemma written_model :
  header_get header (py "MODEL") = PStr (_escape_yaml_for_fits (yaml_dump model)).
Proof. reflexivity. Qed.

(** The loop over the keywords gives back the statistics, in their order. *)
Lemma written_statistics : read_statistics header = Return stats [].
Proof.
  unfold read_statistics, header_keys.
  assert (Hkeys : map keyword header =
                  map keyword keywords
                  ++ flat_map (fun it => [key_stat (fst it); key_pn (fst it)]) (enumerate stats)
                  ++ [py "EXTVER"]).
  { unfold written_header. now rewrite !map_app, stat_cards_keywords. }
  rewrite Hkeys, for_each_app.
  rewrite (@read_other_keys header (map keyword keywords) []).
  2:{ intros key Hkey.
      destruct Hkey as [<- | [<- | [<- | [<- | [<- | []]]]]]; reflexivity. }
  rewrite bind_Return_l, for_each_app.
  rewrite (@read_stat_keys header (enumerate stats) []).
  - cbn [app]. rewrite map_snd_enumerate, bind_Return_l.
    apply read_other_keys. intros key [<- | []]. reflexivity.
  - intros i name v Hin. unfold written_header.
    rewrite !(@header_get_app_r keywords).
    + apply stat_cards_lookup; [|exact Hin].
      rewrite map_fst_enumerate. apply seq_NoDup.
    + intros c Hc. apply (@written_keywords_fresh version __version__ yaml_dump model ty c i Hc).
      lia.
    + intros c Hc. apply (@written_keywords_fresh version __version__ yaml_dump model ty c i Hc).
      lia.
  - cbn [app]. now rewrite map_snd_enumerate.
Qed.

(** A container with the one extension is read through [_load_one_results]. *)
Lemma load_single (primary : Header) :
  load_analysis_results random_normal yaml_load (MkFile primary [MkHDU header columns]) =
    bind (_load_one_results random_normal yaml_load (MkHDU header columns))
         (fun r => ret (Single r)).
Proof.
  unfold load_analysis_results. cbn [file_extensions map]. rewrite written_name.
  cbn [count_occ].
  destruct (list_eq_dec ascii_dec (py "PRIMARY") (py "ANALYSIS_RESULTS")) as [E|_];
    [discriminate E|].
  destruct (list_eq_dec ascii_dec (py "ANALYSIS_RESULTS") (py "ANALYSIS_RESULTS")) as [_|E];
    [|congruence].
  cbn [Nat.eqb]. unfold getitem_name_ver. cbn [file_extensions find].
  rewrite written_name, written_ver, pystr_eqb_refl. cbn [andb Z.eqb Pos.eqb].
  now rewrite bind_ret_l.
Qed.

(** What [_load_one_results] has in hand once the header is read. *)
Lemma load_one_header :
  _load_one_results random_normal yaml_load (MkHDU header columns) =
    if PyStr.eqb ty (py "MLE") then
      field <- data_field (MkHDU header columns) (py "COVARIANCE") ;;
      column <- ndarray_of_py field ;;
      r <- MLEResults__init__ random_normal model (T column) stats 5000 ;;
      ret (Some r)
    else if PyStr.eqb ty (py "Bayesian") then
      field <- data_field (MkHDU header columns) (py "SAMPLES") ;;
      samples <- ndarray_of_py field ;;
      match T samples with
      | A2 samples_T =>
          r <- BayesianResults__init__ model samples_T stats ;;
          ret (Some r)
      | _ => Raise IndexError
      end
    else ret None.
Proof.
  unfold _load_one_results. cbn [hdu_header].
  rewrite written_model, written_type, bind_ret_l.
  rewrite (escape_roundtrip _ plain_text), (bind_return _ parsed).
  now rewrite (bind_return _ written_statistics).
Qed.

(** Reading an extension of a maximum-likelihood fit: the covariance comes
    back transposed, and the samples are drawn anew. *)
Lemma load_one_mle (cov : matrix) :
  ty = py "MLE" ->
  square (List.length (free_parameters model)) cov ->
  all_finite (A2 cov) = true ->
  data_field (MkHDU header columns) (py "COVARIANCE") = Return (py_of_matrix cov) [] ->
  free_parameters model <> [] ->
  exists kept w,
    _load_one_results random_normal yaml_load (MkHDU header columns) =
      Return (Some (MLEResults
                      (MkBase (List.length (free_parameters model)) model kept stats
                              (free_parameters model) (map value (free_parameters model))
                              (py "MLE"))
                      (transpose cov)))
             w.
Proof.
  intros Hty Hsq Hfin Hfield Hsome.
  rewrite load_one_header.
  replace (PyStr.eqb ty (py "MLE")) with true by now rewrite Hty.
  rewrite Hfield, bind_Return_l.
  rewrite ndarray_of_py_of_matrix, bind_Return_l.
  2:{ now apply square_rectangular with (n := List.length (free_parameters model)). }
  2:{ destruct Hsq as (_ & Hlen & _). destruct (rows cov); [|discriminate].
      cbn in Hlen. destruct (free_parameters model); [congruence | discriminate]. }
  cbn [T].
  pose (drawn := multivariate_normal random_normal (map value (free_parameters model))
                   (transpose cov) 5000).
  rewrite (@mle_init_with_samples random_normal model (A2 (transpose cov)) stats 5000
             drawn (transpose cov)).
  - rewrite bind_ret_l || (cbn [bind ret]; rewrite ?app_nil_r). eexists. eexists. reflexivity.
  - unfold drawn, multivariate_normal. cbn [ncols]. apply length_map.
  - cbn [shape]. rewrite (shape_transpose_square Hsq).
    change (negb (shape_eqb [List.length (free_parameters model);
                             List.length (free_parameters model)] [])) with true.
    cbv iota. rewrite length_map, shape_eqb_refl, assert_true, bind_ret_l.
    rewrite (all_finite_transpose Hsq Hfin), assert_true, bind_ret_l. reflexivity.
Qed.

(** Reading an extension of a Bayesian analysis: the record comes back as
    it was. *)
Lemma load_one_bayesian (samples : matrix) :
  ty = py "Bayesian" ->
  rectangular samples ->
  rows samples <> [] ->
  ncols samples = List.length (free_parameters model) ->
  free_parameters model <> [] ->
  data_field (MkHDU header columns) (py "SAMPLES")
    = Return (py_of_matrix (transpose samples)) [] ->
  _load_one_results random_normal yaml_load (MkHDU header columns) =
    Return (Some (BayesianResults
                    (MkBase (List.length (free_parameters model)) model (transpose samples)
                            stats (free_parameters model) (map value (free_parameters model))
                            (py "Bayesian"))))
           [].
Proof.
  intros Hty Hrect Hrows Hcols Hsome Hfield.
  rewrite load_one_header.
  replace (PyStr.eqb ty (py "MLE")) with false by now rewrite Hty.
  replace (PyStr.eqb ty (py "Bayesian")) with true by now rewrite Hty.
  rewrite Hfield, bind_Return_l.
  rewrite ndarray_of_py_of_matrix, bind_Return_l.
  2:{ apply transpose_rectangular. }
  2:{ unfold transpose. cbn [rows]. rewrite Hcols.
      destruct (free_parameters model); [congruence | discriminate]. }
  cbn [T]. rewrite (transpose_involutive Hrect).
  unfold BayesianResults__init__.
  rewrite (base_init_ok model samples stats (py "Bayesian") Hcols), bind_Return_l.
  reflexivity.
Qed.

End Reading.

End ReadFacts.
(* ================================================================= *)
(** * Writing a result and reading it back *)

Module RoundTripFacts.
Import Py PyFacts PyStrFacts Np Astromodels AnalysisResults FitsFile Escaping Persistence.
Import FrameFacts HeaderFacts ColumnFacts ResultsFacts EscapingFacts WriteFacts ReadFacts.

Section RoundTrip.

Variable list_dtype : list pyval -> option dtype.
Variable coercible : pyval -> dtype -> bool.
Variable quantile : list float -> float -> float.
Variable version : PyStr.t.
Variable __version__ : PyStr.t.
Variable now : PyStr.t.
Variable yaml_dump : Model -> PyStr.t.
Variable yaml_load : PyStr.t -> outcome Model.

(** The rows numpy draws when the file is read. *)
Variable redraw : list float -> matrix -> nat -> list (list float).

Variable model : Model.
Variable stats : list (pyval * float).

Hypothesis some_parameter : free_parameters model <> [].
Hypothesis distinct_paths : NoDup (map path (free_parameters model)).
Hypothesis distinct : distinct_names stats.
Hypothesis plain_text : free_of placeholder_words (yaml_dump model) = true.
Hypothesis parsed : yaml_load (yaml_dump model) = Return model [].

#[local] Abbreviation k := (List.length (free_parameters model)).
#[local] Abbreviation write :=
  (write_to list_dtype coercible quantile version __version__ now yaml_dump).
#[local] Abbreviation load := (load_analysis_results redraw yaml_load).

(** What a successful [MLEResults.__init__] on a two-dimensional covariance
    has checked and built. *)
Lemma mle_construction (random_normal : list float -> matrix -> nat -> list (list float))
  (cov : matrix) (n : nat) (r : Results) (w : list message) :
  MLEResults__init__ random_normal model (A2 cov) stats n = Return r w ->
  mshape cov = [k; k] /\ all_finite (A2 cov) = true
  /\ exists kept,
       ncols kept = k
       /\ r = MLEResults (MkBase k model (transpose kept) stats (free_parameters model)
                                 (map value (free_parameters model)) (py "MLE")) cov.
Proof.
  intros H.
  destruct (shape_eqb (mshape cov) [k; k]) eqn:Es.
  - destruct (all_finite (A2 cov)) eqn:Ef.
    + split; [now apply shape_eqb_eq|]. split; [reflexivity|].
      pose (drawn := multivariate_normal random_normal (map value (free_parameters model)) cov n).
      rewrite (@mle_init_with_samples random_normal model (A2 cov) stats n drawn cov) in H.
      * injection H as <- _. eexists. split; [|reflexivity]. cbn [ncols]. apply length_map.
      * apply length_map.
      * cbn [shape].
        change (negb (shape_eqb (mshape cov) [])) with true. cbv iota.
        rewrite length_map, Es, assert_true, bind_ret_l.
        rewrite Ef, assert_true, bind_ret_l. reflexivity.
    + exfalso. unfold MLEResults__init__ in H. cbn [shape] in H.
      change (negb (shape_eqb (mshape cov) [])) with true in H. cbv iota in H.
      rewrite length_map, Es, assert_true, bind_ret_l in H.
      rewrite Ef, assert_false in H. discriminate H.
  - exfalso. unfold MLEResults__init__ in H. cbn [shape] in H.
    change (negb (shape_eqb (mshape cov) [])) with true in H. cbv iota in H.
    rewrite length_map, Es, assert_false in H. discriminate H.
Qed.

(** What a successful [BayesianResults.__init__] has checked and built. *)
Lemma bayesian_construction (samples : matrix) (r : Results) (w : list message) :
  BayesianResults__init__ model samples stats = Return r w ->
  ncols samples = k
  /\ r = BayesianResults (MkBase k model (transpose samples) stats (free_parameters model)
                                 (map value (free_parameters model)) (py "Bayesian")).
Proof.
  intros H. unfold BayesianResults__init__ in H.
  destruct (Nat.eq_dec (ncols samples) k) as [E|E].
  - rewrite (base_init_ok model samples stats (py "Bayesian") E), bind_Return_l in H.
    injection H as <- _. now split.
  - rewrite (base_init_fail model samples stats (py "Bayesian") E) in H. discriminate H.
Qed.

(** A record of a maximum-likelihood fit comes back with its model, its
    values and its statistics, with samples drawn anew and with the
    covariance transposed. *)
Lemma mle_round_trip (random_normal : list float -> matrix -> nat -> list (list float))
  (cov : matrix) (n : nat) (r : Results) (w : list message) :
  rectangular cov ->
  MLEResults__init__ random_normal model (A2 cov) stats n = Return r w ->
  exists kept f kept' w',
    r = MLEResults (MkBase k model kept stats (free_parameters model)
                           (map value (free_parameters model)) (py "MLE")) cov
    /\ write r = Return f []
    /\ load f = Return (Single (Some (MLEResults
                                        (MkBase k model kept' stats (free_parameters model)
                                                (map value (free_parameters model)) (py "MLE"))
                                        (transpose cov))))
                       w'.
Proof.
  intros Hrect Hinit.
  destruct (mle_construction _ _ _ Hinit) as (Hshape & Hfin & kept & Hkept & ->).
  assert (Hsq : square k cov).
  { unfold mshape in Hshape. injection Hshape as Hlen Hc.
    unfold rectangular in Hrect. rewrite Hc in Hrect. now repeat split. }
  pose proof (base_init_ok model kept stats (py "MLE") Hkept) as Hbuilt.
  destruct (@extension_of_mle list_dtype coercible quantile version __version__ yaml_dump
              model kept stats (py "MLE") _ Hbuilt some_parameter distinct_paths
              cov eq_refl Hsq) as (columns & Hext & Hfield).
  pose proof (@write_to_container list_dtype coercible quantile version __version__ now
                yaml_dump model stats (py "MLE") _ columns Hext) as Hwrite.
  destruct (@load_one_mle redraw version __version__ yaml_dump yaml_load model (py "MLE")
              stats columns distinct plain_text parsed cov eq_refl Hsq Hfin
              (Hfield _) some_parameter) as (kept' & w' & Hload).
  exists (transpose kept). eexists. exists kept', w'.
  split; [reflexivity|]. split; [exact Hwrite|].
  rewrite load_single, Hload. cbn [bind ret]. now rewrite app_nil_r.
Qed.

(** A record of a Bayesian analysis with at least one sample comes back as
    it was. *)
Lemma bayesian_round_trip (samples : matrix) (r : Results) (w : list message) :
  rectangular samples ->
  rows samples <> [] ->
  BayesianResults__init__ model samples stats = Return r w ->
  exists f, write r = Return f [] /\ load f = Return (Single (Some r)) [].
Proof.
  intros Hrect Hrows Hinit.
  destruct (bayesian_construction _ Hinit) as (Hcols & ->).
  pose proof (base_init_ok model samples stats (py "Bayesian") Hcols) as Hbuilt.
  destruct (@extension_of_bayesian list_dtype coercible quantile version __version__ yaml_dump
              model samples stats (py "Bayesian") _ Hbuilt some_parameter distinct_paths
              eq_refl Hrows) as (columns & Hext & Hfield).
  pose proof (@write_to_container list_dtype coercible quantile version __version__ now
                yaml_dump model stats (py "Bayesian") _ columns Hext) as Hwrite.
  pose proof (@load_one_bayesian redraw version __version__ yaml_dump yaml_load model
                (py "Bayesian") stats columns distinct plain_text parsed samples eq_refl
                Hrect Hrows Hcols some_parameter (Hfield _)) as Hload.
  eexists. split; [exact Hwrite|].
  rewrite load_single, Hload. reflexivity.
Qed.


End RoundTrip.



End RoundTripFacts.
(* ================================================================= *)
(** * More on the escaping codec *)

Module EscapeProps.
Import PyStr PyStrFacts Escaping EscapingFacts.

#[local] Arguments Ascii.eqb : simpl never.

(** The five characters [_subs] takes out of the text. *)
Lemma special_iff (a : ascii) :
  In a (map fst word_table) <-> enc word_table a <> [a].
Proof.
  split.
  - intros [<- | [<- | [<- | [<- | [<- | []]]]]]; discriminate.
  - intros H. destruct (in_dec ascii_dec a (map fst word_table)) as [Hin|Hout]; [exact Hin|].
    now rewrite (enc_absent word_table a Hout) in H.
Qed.

Lemma enc_has_no_special (a b : ascii) :
  In b (enc word_table a) -> ~ In b (map fst word_table).
Proof.
  intros Hb Hspecial.
  destruct (in_dec ascii_dec a (map fst word_table)) as [Hin|Hout].
  - destruct Hin as [<- | [<- | [<- | [<- | [<- | []]]]]];
      destruct Hspecial as [<- | [<- | [<- | [<- | [<- | []]]]]];
      vm_compute in Hb;
      repeat (destruct Hb as [Hb|Hb]; [discriminate Hb|]); destruct Hb.
  - rewrite (enc_absent word_table a Hout) in Hb. destruct Hb as [<- | []].
    contradiction.
Qed.

(** X1.  Whatever the text, its escaped form holds no newline, no quote of
    either kind and no brace. *)
Theorem escaped_text_has_no_special_character (x : PyStr.t) (b : ascii) :
  In b (_escape_yaml_for_fits x) ->
  b <> "010"%char /\ b <> "'"%char /\ b <> "034"%char /\ b <> "{"%char /\ b <> "}"%char.
Proof.
  rewrite escape_is_enc. intros Hb. apply in_flat_map in Hb as (a & _ & Hb).
  pose proof (@enc_has_no_special a b Hb) as H. cbn [map fst word_table In] in H.
  repeat split; intros ->; apply H; tauto.
Qed.

(** X2.  Escaping works piece by piece: the escaped form of a
    concatenation is the concatenation of the escaped forms. *)
Theorem escape_of_concatenation (x y : PyStr.t) :
  _escape_yaml_for_fits (x ++ y) = _escape_yaml_for_fits x ++ _escape_yaml_for_fits y.
Proof. rewrite !escape_is_enc. apply flat_map_app. Qed.

(** X3.  A placeholder already present in the text is escaped to the same
    thing as the character it stands for, wherever it occurs: escaping
    cannot tell the two texts apart. *)
Theorem escape_confuses_placeholder_and_character (sub : PyStr.t * PyStr.t) (x y : PyStr.t) :
  In sub _subs ->
  _escape_yaml_for_fits (x ++ snd sub ++ y) = _escape_yaml_for_fits (x ++ fst sub ++ y)
  /\ x ++ snd sub ++ y <> x ++ fst sub ++ y.
Proof.
  intros Hsub. split.
  - rewrite !escape_of_concatenation. f_equal. f_equal.
    destruct Hsub as [<- | [<- | [<- | [<- | [<- | []]]]]]; reflexivity.
  - intros H. apply app_inv_head in H.
    destruct Hsub as [<- | [<- | [<- | [<- | [<- | []]]]]]; discriminate H.
Qed.

(** X4.  Escaping leaves a text as it is exactly when the text holds none
    of the five characters on the left of [_subs]. *)
Theorem escape_is_identity_iff (x : PyStr.t) :
  _escape_yaml_for_fits x = x <-> (forall a, In a x -> ~ In a (flat_map fst _subs)).
Proof.
  change (flat_map fst _subs) with (map fst word_table).
  rewrite escape_is_enc. split.
  - induction x as [|a x IH]; intros H b Hb; [destruct Hb|].
    cbn [flat_map] in H.
    destruct (in_dec ascii_dec a (map fst word_table)) as [Hin|Hout].
    + exfalso. destruct Hin as [<- | [<- | [<- | [<- | [<- | []]]]]]; discriminate H.
    + rewrite (enc_absent word_table a Hout) in H. cbn [app] in H. injection H as H.
      destruct Hb as [<- | Hb]; [exact Hout | now apply IH].
  - induction x as [|a x IH]; intros H; [reflexivity|].
    cbn [flat_map]. rewrite (enc_absent word_table a (H a (or_introl eq_refl))).
    cbn [app]. f_equal. apply IH. intros b Hb. apply H. now right.
Qed.

(** Nothing is replaced in a text in which the pattern does not occur. *)
Lemma replace_absent (old new s : PyStr.t) :
  old <> [] -> contains old s = false -> replace old new s = s.
Proof.
  intros Hold. unfold replace. destruct old as [|o old]; [congruence|].
  induction s as [|c s IH]; intros H; [reflexivity|].
  apply contains_cons_false in H as [Hhd Htl].
  rewrite replace_from_nomatch by exact Hhd. f_equal. now apply IH.
Qed.

(** X5.  Unescaping leaves a text as it is when none of the five
    placeholders occurs in it. *)
Theorem unescape_without_placeholder (x : PyStr.t) :
  free_of placeholders x = true -> _escape_back_yaml_from_fits x = x.
Proof.
  unfold free_of, placeholders, _subs. cbn [map snd forallb].
  rewrite !andb_true_iff, !negb_true_iff. intros (H1 & H2 & H3 & H4 & H5 & _).
  unfold _escape_back_yaml_from_fits, for_subs, _subs. cbn [fold_left fst snd].
  rewrite (@replace_absent (py "_NEWLINE_") _ x) by (discriminate || exact H1).
  rewrite (@replace_absent (py "_QUOTE1_") _ x) by (discriminate || exact H2).
  rewrite (@replace_absent (py "_QUOTE2_") _ x) by (discriminate || exact H3).
  rewrite (@replace_absent (py "_PARO_") _ x) by (discriminate || exact H4).
  now rewrite (@replace_absent (py "_PARC_") _ x) by (discriminate || exact H5).
Qed.

Lemma escaped_text_has_no_special_character_witness :
  In "_"%char (_escape_yaml_for_fits sample_yaml)
  /\ "_"%char <> "010"%char /\ "_"%char <> "'"%char /\ "_"%char <> "034"%char
  /\ "_"%char <> "{"%char /\ "_"%char <> "}"%char.
Proof.
  assert (H : In "_"%char (_escape_yaml_for_fits sample_yaml)) by (vm_compute; tauto).
  split; [exact H|].
  exact (@escaped_text_has_no_special_character sample_yaml "_"%char H).
Defined.

Lemma escape_confuses_placeholder_and_character_witness :
  _escape_yaml_for_fits (py "a" ++ py "_NEWLINE_" ++ py "b")
  = _escape_yaml_for_fits (py "a" ++ ["010"%char] ++ py "b")
  /\ py "a" ++ py "_NEWLINE_" ++ py "b" <> py "a" ++ ["010"%char] ++ py "b".
Proof.
  apply (@escape_confuses_placeholder_and_character (["010"%char], py "_NEWLINE_")
           (py "a") (py "b")).
  now left.
Defined.

Lemma unescape_without_placeholder_witness :
  free_of placeholders sample_yaml = true
  /\ _escape_back_yaml_from_fits sample_yaml = sample_yaml.
Proof.
  split; [reflexivity|].
  apply (@unescape_without_placeholder sample_yaml). reflexivity.
Defined.

End EscapeProps.
(* ================================================================= *)
(** * More on the FITS extension *)

Module ExtensionProps.
Import Py PyFacts FitsFile FrameFacts.

(** ** Inverting a sequence of calls *)

Lemma bind_Return_inv (A B : Type) (m : outcome A) (k : A -> outcome B) (b : B)
  (w : list message) :
  bind m k = Return b w ->
  exists a w1 w2, m = Return a w1 /\ k a = Return b w2 /\ w = w1 ++ w2.
Proof.
  destruct m as [a w1|e]; [|discriminate]. cbn [bind].
  destruct (k a) as [b' w2|e] eqn:E; [|discriminate].
  intros H. injection H as <- <-. now exists a, w1, w2.
Qed.

Lemma map_m_Return_inv (A B : Type) (f : A -> outcome B) (items : list A) (bs : list B)
  (w : list message) :
  map_m f items = Return bs w ->
  Forall2 (fun a b => exists w', f a = Return b w') items bs.
Proof.
  revert bs w. induction items as [|a items IH]; intros bs w H.
  - injection H as <- _. constructor.
  - cbn [map_m] in H.
    apply bind_Return_inv in H as (b & w1 & w2 & Hb & H & _).
    apply bind_Return_inv in H as (bs' & w3 & w4 & Hbs & H & _).
    injection H as <- _. constructor; [now exists w1 | now apply IH with (w := w3)].
Qed.

Lemma map_m_app_Raise (A B : Type) (f : A -> outcome B) (before rest : list A) (a : A)
  (e : exn) :
  Forall (fun a => exists b w, f a = Return b w) before ->
  f a = Raise e ->
  map_m f (before ++ a :: rest) = Raise e.
Proof.
  intros Hok Ha. induction Hok as [|c before (b & w & Hc) _ IH].
  - cbn [app map_m]. now rewrite Ha.
  - cbn [app map_m]. now rewrite Hc, IH.
Qed.

(** ** Header cards *)

Lemma header_get_set_same (h : Header) (key : PyStr.t) (v : pyval) (cmt : option PyStr.t) :
  header_get (header_set h key v cmt) key = v.
Proof.
  unfold header_get. induction h as [|c h IH].
  - cbn [header_set find keyword]. now rewrite pystr_eqb_refl.
  - cbn [header_set]. destruct (PyStr.eqb (keyword c) key) eqn:E.
    + cbn [find keyword]. now rewrite pystr_eqb_refl.
    + cbn [find]. now rewrite E.
Qed.

Lemma header_get_set_other (h : Header) (key key' : PyStr.t) (v : pyval)
  (cmt : option PyStr.t) :
  key' <> key -> header_get (header_set h key v cmt) key' = header_get h key'.
Proof.
  intros Hne. unfold header_get. induction h as [|c h IH].
  - cbn [header_set find keyword]. now rewrite (pystr_eqb_neq (not_eq_sym Hne)).
  - cbn [header_set]. destruct (PyStr.eqb (keyword c) key) eqn:E.
    + apply pystr_eqb_eq in E. cbn [find keyword].
      rewrite E, (pystr_eqb_neq (not_eq_sym Hne)). reflexivity.
    + cbn [find]. destruct (PyStr.eqb (keyword c) key'); [reflexivity | exact IH].
Qed.

Lemma header_get_absent (h : Header) (key : PyStr.t) :
  (forall c, In c h -> keyword c <> key) -> header_get h key = PNone.
Proof.
  intros H. unfold header_get. destruct (find _ h) as [c|] eqn:E; [|reflexivity].
  apply find_some in E as [Hin Heq]. apply pystr_eqb_eq in Heq. now destruct (H c Hin).
Qed.

(** ** Columns *)

Lemma len_zero_getitem0 (v : pyval) (w : list message) :
  len v = Return 0 w -> getitem0 v = Raise IndexError.
Proof.
  induction v; intros H; try discriminate H.
  - destruct s; [reflexivity | discriminate H].
  - cbn [len] in H. cbn [getitem0]. now rewrite (IHv H).
  - destruct items; [reflexivity | discriminate H].
  - destruct items; [reflexivity | discriminate H].
Qed.

Section Extension.

Variable list_dtype : list pyval -> option dtype.
Variable coercible : pyval -> dtype -> bool.
Variable version : PyStr.t.

Lemma make_column_fields (column_name : PyStr.t) (column_data : pyval) (c : Column)
  (w : list message) :
  make_column list_dtype coercible column_name column_data = Return c w ->
  col_name c = column_name /\ col_array c = column_data.
Proof.
  intros H. unfold make_column in H.
  apply bind_Return_inv in H as (test_value & w1 & w2 & _ & H & _).
  apply bind_Return_inv in H as (fu & w3 & w4 & _ & H & _).
  injection H as <- _. now split.
Qed.


(** X7.  A column without any row stops the constructor with an
    IndexError, once the columns before it have been accepted; the columns
    after it are not looked at. *)
Theorem extension_refuses_empty_column (before rest : list (PyStr.t * pyval))
  (column_name : PyStr.t) (column_data : pyval) (header_tuple : Header) :
  Forall (fun c => exists col w,
            make_column list_dtype coercible (fst c) (snd c) = Return col w) before ->
  len column_data = Return 0 [] ->
  FITSExtension list_dtype coercible version
    (before ++ (column_name, column_data) :: rest) header_tuple
  = Raise IndexError.
Proof.
  intros Hok Hlen. unfold FITSExtension.
  rewrite (@map_m_app_Raise _ _ (fun c => make_column list_dtype coercible (fst c) (snd c))
             before rest (column_name, column_data) IndexError Hok); [reflexivity|].
  cbn [fst snd]. unfold make_column. now rewrite (@len_zero_getitem0 column_data [] Hlen).
Qed.

End Extension.


Lemma extension_refuses_empty_column_witness :
  FITSExtension no_list_dtype not_coercible (py "1.0")
    [(py "NAME", names_column); (py "VALUE", PList []); (py "UNIT", names_column)]
    [Card (py "EXTNAME") (PStr (py "SEQUENCE")) None]
  = Raise IndexError.
Proof.
  apply (@extension_refuses_empty_column no_list_dtype not_coercible (py "1.0")
           [(py "NAME", names_column)] [(py "UNIT", names_column)] (py "VALUE") (PList [])).
  - constructor; [|constructor]. eexists. eexists. reflexivity.
  - reflexivity.
Defined.

End ExtensionProps.
(* ================================================================= *)
(** * More on the construction of a result *)

Module ConstructionProps.
Import Py PyFacts Np Astromodels AnalysisResults FloatFacts ResultsFacts FrameFacts Methods.

Lemma shape_nil (cov : ndarray) : shape cov = [] -> exists x, cov = A0 x.
Proof. destruct cov as [x|v|m]; intros H; [now exists x | discriminate H | discriminate H]. Qed.

Lemma shape_two (cov : ndarray) (a b : nat) : shape cov = [a; b] -> exists m, cov = A2 m.
Proof. destruct cov as [x|v|m]; intros H; [discriminate H | discriminate H | now exists m]. Qed.

Lemma filter_all (A : Type) (f : A -> bool) (l : list A) :
  (forall a, In a l -> f a = true) -> filter f l = l.
Proof.
  induction l as [|a l IH]; intros H; [reflexivity|].
  cbn [filter]. rewrite (H a (or_introl eq_refl)). f_equal. apply IH.
  intros b Hb. apply H. now right.
Qed.

Lemma unbounded_never_violated (params : list FreeParameter) (sample : list float) :
  Forall (fun p => min_value p = None /\ max_value p = None) params ->
  violates params sample = false.
Proof.
  intros H. revert sample. unfold violates.
  induction H as [|p params [Hlo Hhi] _ IH]; intros sample.
  - destruct sample; reflexivity.
  - destruct sample as [|x sample]; [reflexivity|].
    cbn [combine existsb fst snd]. unfold outside_bounds. rewrite Hlo, Hhi. cbn [orb].
    apply IH.
Qed.

Section Construction.

Variable random_normal : list float -> matrix -> nat -> list (list float).


(** X9.  A covariance of the right shape that holds an infinite entry or
    a not-a-number is refused with the assertion error that says so. *)
Theorem non_finite_covariance_is_refused (model : Model) (cov : ndarray)
  (stats : list (pyval * float)) (n : nat) :
  let k := List.length (free_parameters model) in
  shape cov = [k; k] -> all_finite cov = false ->
  MLEResults__init__ random_normal model cov stats n =
    Raise (AssertionError
             (Some (Fmt "Covariance matrix contains Nan or inf. Cannot continue." []))).
Proof.
  intros k Hk Hfin. unfold MLEResults__init__. rewrite Hk, length_map. fold k.
  change (negb (shape_eqb [k; k] [])) with true. cbv iota.
  rewrite shape_eqb_refl, assert_true, bind_ret_l.
  rewrite Hfin, assert_false. reflexivity.
Qed.


End Construction.

(** X11.  On a record as its constructor builds it, [get_variates] refuses
    a path that is not the path of a free parameter with an assertion error
    naming the path, and for the parameter at position [i] it hands back
    column [i] of the samples together with the parameter's value. *)
Theorem get_variates_by_path (model : Model) (samples : matrix)
  (stats : list (pyval * float)) (ty : PyStr.t) (self : _AnalysisResults)
  (param_path : PyStr.t) :
  _AnalysisResults__init__ model samples stats ty = Return self [] ->
  NoDup (map path (free_parameters model)) ->
  (~ In param_path (map path (free_parameters model)) ->
   get_variates self param_path =
     Raise (AssertionError
              (Some (Fmt "Parameter %s is not a free parameters of the model"
                         [AStr param_path]))))
  /\ (forall i p,
        nth_error (free_parameters model) i = Some p ->
        get_variates self (path p) =
          Return (MkVariates (map (fun r => nth i r nan) (rows samples)) (value p)) []).
Proof.
  intros Hbuilt Hnd. split.
  - intros Hout.
    destruct (@built_fields model samples stats ty self Hbuilt) as [_ ->].
    unfold get_variates. cbn [_optimized_model].
    replace (existsb (fun p => PyStr.eqb (path p) param_path) (free_parameters model))
      with false; [reflexivity|].
    symmetry. apply not_true_is_false. intros H.
    apply existsb_exists in H as (p & Hp & Heq). apply pystr_eqb_eq in Heq.
    apply Hout. rewrite <- Heq. now apply in_map.
  - intros i p Hp. exact (@get_variates_nth model samples stats ty self Hbuilt i p Hnd Hp).
Qed.

Lemma non_finite_covariance_is_refused_witness :
  shape (A2 infinite_covariance) = [2; 2]
  /\ all_finite (A2 infinite_covariance) = false
  /\ MLEResults__init__ four_draws two_parameters (A2 infinite_covariance) [] 5000 =
       Raise (AssertionError
                (Some (Fmt "Covariance matrix contains Nan or inf. Cannot continue." []))).
Proof.
  split; [reflexivity|]. split; [reflexivity|].
  apply (@non_finite_covariance_is_refused four_draws two_parameters (A2 infinite_covariance)
           [] 5000); reflexivity.
Defined.


Lemma get_variates_by_path_witness :
  get_variates two_parameter_results (py "src.index") =
    Return (MkVariates [-1; -1; -1]%float (-1)%float) []
  /\ get_variates two_parameter_results (py "src.norm") =
       Raise (AssertionError
                (Some (Fmt "Parameter %s is not a free parameters of the model"
                           [AStr (py "src.norm")]))).
Proof.
  assert (Hbuilt : _AnalysisResults__init__ two_parameters
                     (Matrix 2 [[1; -1]; [1.5; -1]; [2; -1]]%float) [] (py "MLE")
                   = Return two_parameter_results []) by reflexivity.
  assert (Hnd : NoDup (map path (free_parameters two_parameters)))
    by (repeat constructor; cbn; intuition discriminate).
  split.
  - destruct (@get_variates_by_path two_parameters _ [] (py "MLE") two_parameter_results
                (py "src.index") Hbuilt Hnd) as [_ Hin].
    exact (Hin 1 _ eq_refl).
  - destruct (@get_variates_by_path two_parameters _ [] (py "MLE") two_parameter_results
                (py "src.norm") Hbuilt Hnd) as [Hout _].
    apply Hout. cbn. intuition discriminate.
Defined.

End ConstructionProps.
(* ================================================================= *)
(** * More on the correlation matrix *)

Module CorrelationProps.
Import Py PyFacts Np Astromodels AnalysisResults FloatFacts ResultsFacts CorrelationFacts.
Import ColumnFacts Methods.

(** The product of two binary64 numbers does not depend on their order. *)
Lemma SFmul_comm (x y : spec_float) : SFmul prec emax x y = SFmul prec emax y x.
Proof.
  destruct x as [sx|sx| |sx mx ex], y as [sy|sy| |sy my ey]; cbn [SFmul];
    rewrite ?(xorb_comm sx sy); try reflexivity.
  now rewrite Pos.mul_comm, Z.add_comm.
Qed.

Lemma mul_comm (x y : float) : (x * y)%float = (y * x)%float.
Proof. apply Prim2SF_inj. rewrite !mul_spec. apply SFmul_comm. Qed.

(** The cells of the array [_get_correlation_matrix] returns. *)
Lemma correlation_cells (self : _AnalysisResults) (covariance : matrix) :
  square (_n_free_parameters self) covariance ->
  exists corr,
    _get_correlation_matrix self covariance = Return corr []
    /\ square (_n_free_parameters self) corr
    /\ (forall i j, i < _n_free_parameters self -> j < _n_free_parameters self ->
          cell corr i j = correlation covariance i j).
Proof.
  set (n := _n_free_parameters self). intros Hcov.
  unfold _get_correlation_matrix. fold n.
  destruct Hcov as (Hc & Hlen & Hrows). rewrite Hc, Hlen.
  assert (Hcov : square n covariance) by (repeat split; assumption).
  destruct (@for_each_range matrix
              (fun t c => square n c
                          /\ forall i j, i < t -> j < n ->
                               cell c i j = correlation covariance i j)
              (fun correlation_matrix i =>
                 bind (getitem2 covariance i i) (fun variance_i =>
                   for_each (fun correlation_matrix j =>
                     bind (getitem2 covariance j j) (fun variance_j =>
                       if (0 <? variance_i * variance_j)%float then
                         bind (getitem2 covariance i j) (fun c =>
                           setitem2 correlation_matrix i j
                             (c / PrimFloat.sqrt (variance_i * variance_j))%float)
                       else setitem2 correlation_matrix i j nan))
                     (seq 0 n) correlation_matrix))
              n 0 (zeros2 n n)) as (corr & Hrun & Hsq & Hall).
  - split; [apply square_zeros | intros; lia].
  - intros t c Ht (Hc' & Hdone).
    destruct (@correlation_row n covariance c t Hcov Hc' ltac:(lia))
      as (c' & Hrun & Hsq & Hrow & Hrest).
    exists c'. split.
    + rewrite (getitem2_cell Hcov) by lia. now rewrite bind_Return_l.
    + split; [exact Hsq|]. intros i j Hi Hj.
      destruct (Nat.eq_dec i t) as [-> | Hne]; [now apply Hrow|].
      rewrite Hrest by exact Hne. apply Hdone; lia.
  - exists corr. split; [exact Hrun|]. split; [exact Hsq|].
    intros i j Hi Hj. now apply Hall.
Qed.

(** A cell of the transpose is the mirrored cell. *)
Lemma cell_transpose (m : matrix) (i j : nat) :
  i < ncols m -> j < List.length (rows m) -> cell (transpose m) i j = cell m j i.
Proof.
  intros Hi Hj. unfold cell, transpose. cbn [rows].
  rewrite (nth_indep _ [] (map (fun r => nth 0 r nan) (rows m)))
    by now rewrite length_map, length_seq.
  rewrite (map_nth (fun j => map (fun r => nth j r nan) (rows m)) (seq 0 (ncols m)) 0 i).
  rewrite seq_nth by exact Hi. cbn [Nat.add].
  rewrite (nth_indep _ nan (nth i [] nan)) by now rewrite length_map.
  now rewrite (map_nth (fun r => nth i r nan) (rows m) [] j).
Qed.

Lemma cell_zeros (n i j : nat) : i < n -> j < n -> cell (zeros2 n n) i j = 0%float.
Proof.
  intros Hi Hj. unfold cell, zeros2. cbn [rows].
  rewrite (nth_indep _ [] (repeat 0%float n)) by now rewrite repeat_length.
  rewrite nth_repeat. rewrite (nth_indep _ nan 0%float) by now rewrite repeat_length.
  apply nth_repeat.
Qed.

(** X12.  The correlation matrix of a symmetric (k,k) covariance is
    symmetric: cell (i,j) and cell (j,i) hold the same number, not-a-number
    included. *)
Theorem correlation_of_symmetric_covariance (self : _AnalysisResults) (covariance : matrix) :
  let n := _n_free_parameters self in
  square n covariance ->
  symmetric covariance ->
  exists corr,
    _get_correlation_matrix self covariance = Return corr []
    /\ forall i j, i < n -> j < n -> cell corr i j = cell corr j i.
Proof.
  intros n Hsq Hsym.
  destruct (correlation_cells self Hsq) as (corr & Hrun & _ & Hcell).
  exists corr. split; [exact Hrun|]. intros i j Hi Hj.
  rewrite (Hcell i j Hi Hj), (Hcell j i Hj Hi). unfold correlation.
  assert (Hij : cell covariance i j = cell covariance j i).
  { destruct Hsq as (Hc & Hlen & _). fold n in Hc, Hlen.
    unfold symmetric in Hsym.
    transitivity (cell (transpose covariance) i j); [now rewrite Hsym|].
    apply cell_transpose; lia. }
  now rewrite Hij, (mul_comm (cell covariance i i) (cell covariance j j)).
Qed.

(** X13.  A record of a fit built without covariance information holds a
    covariance of zeros, and its correlation matrix is made of not-a-number
    only. *)
Theorem correlation_without_covariance (random_normal : list float -> matrix -> nat -> list (list float))
  (model : Model) (stats : list (pyval * float)) (n : nat) (x : float) (r : Results)
  (w : list message) :
  MLEResults__init__ random_normal model (A0 x) stats n = Return r w ->
  exists corr,
    covariance_matrix r
      = Return (zeros2 (List.length (free_parameters model))
                       (List.length (free_parameters model))) []
    /\ get_correlation_matrix r = Return corr []
    /\ mshape corr = [List.length (free_parameters model); List.length (free_parameters model)]
    /\ forall i j, i < List.length (free_parameters model) ->
                   j < List.length (free_parameters model) -> cell corr i j = nan.
Proof.
  intros Hinit.
  rewrite (@mle_init_with_samples random_normal model (A0 x) stats n
             (mul_rows (ones2 n (List.length (map value (free_parameters model))))
                       (map value (free_parameters model)))
             (zeros2 (List.length (map value (free_parameters model)))
                     (List.length (map value (free_parameters model))))) in Hinit;
    [| cbn [mul_rows ones2 ncols]; now rewrite length_map | reflexivity ].
  injection Hinit as <- _. cbn [get_correlation_matrix covariance_matrix]. rewrite length_map.
  set (k := List.length (free_parameters model)).
  set (base := MkBase k model _ stats _ _ _).
  destruct (@correlation_cells base (zeros2 k k) (square_zeros k))
    as (corr & Hrun & (Hc & Hlen & _) & Hcell).
  exists corr. split; [reflexivity|].
  split; [exact Hrun|]. split; [unfold mshape; now rewrite Hc, Hlen|].
  intros i j Hi Hj. rewrite (Hcell i j Hi Hj). unfold correlation.
  rewrite !cell_zeros by assumption. reflexivity.
Qed.

Lemma correlation_of_symmetric_covariance_witness :
  exists corr,
    _get_correlation_matrix two_parameter_results covariance_2x2 = Return corr []
    /\ cell corr 0 1 = cell corr 1 0.
Proof.
  assert (Hsq : square (_n_free_parameters two_parameter_results) covariance_2x2)
    by (repeat constructor).
  destruct (@correlation_of_symmetric_covariance two_parameter_results covariance_2x2
              Hsq eq_refl) as (corr & Hrun & Hsym).
  exists corr. split; [exact Hrun|]. apply Hsym; cbn; lia.
Defined.

Lemma correlation_without_covariance_witness :
  exists r w corr,
    MLEResults__init__ no_draw two_parameters (A0 nan) [] 3 = Return r w
    /\ get_correlation_matrix r = Return corr []
    /\ cell corr 0 0 = nan /\ cell corr 0 1 = nan.
Proof.
  destruct (MLEResults__init__ no_draw two_parameters (A0 nan) [] 3) as [r w|e] eqn:E;
    [|vm_compute in E; discriminate E].
  destruct (@correlation_without_covariance no_draw two_parameters [] 3 nan r w E)
    as (corr & _ & Hrun & _ & Hnan).
  exists r, w, corr. split; [reflexivity|]. split; [exact Hrun|].
  split; apply Hnan; cbn; lia.
Defined.

End CorrelationProps.
(* ================================================================= *)
(** * The statistic frame and the sets of results *)

Module SequenceProps.
Import Py PyFacts Np Astromodels AnalysisResults FitsFile Persistence Methods.
Import FrameFacts HeaderFacts WriteFacts ExtensionProps.

(** ** The frame of the statistics *)

Lemma key_eqb_total (key : pyval) :
  key_eqb key (PStr (py "total")) = true -> key = PStr (py "total").
Proof.
  destruct key; try discriminate. cbn [key_eqb]. intros H.
  apply pystr_eqb_eq in H. now rewrite H.
Qed.

Lemma key_eqb_total_other (name : pyval) :
  name <> PStr (py "total") -> key_eqb (PStr (py "total")) name = false.
Proof.
  intros H. destruct name; try reflexivity. cbn [key_eqb].
  apply pystr_eqb_neq. congruence.
Qed.

Lemma dict_lookup_set_total (d : list (pyval * float)) (v : float) :
  dict_lookup (dict_set d (PStr (py "total")) v) (PStr (py "total")) = Some v.
Proof.
  unfold dict_lookup. induction d as [|[k old] d IH]; [reflexivity|].
  cbn [dict_set]. destruct (key_eqb k (PStr (py "total"))) eqn:E.
  - cbn [find fst]. rewrite E. reflexivity.
  - cbn [find fst]. rewrite E. exact IH.
Qed.

Lemma dict_lookup_set_other (d : list (pyval * float)) (v : float) (name : pyval) :
  name <> PStr (py "total") ->
  dict_lookup (dict_set d (PStr (py "total")) v) name = dict_lookup d name.
Proof.
  intros Hne. unfold dict_lookup. induction d as [|[k old] d IH].
  - cbn [dict_set find fst]. now rewrite (key_eqb_total_other Hne).
  - cbn [dict_set]. destruct (key_eqb k (PStr (py "total"))) eqn:E.
    + apply key_eqb_total in E. subst k. cbn [find fst].
      now rewrite (key_eqb_total_other Hne).
    + cbn [find fst]. destruct (key_eqb k name); [reflexivity | exact IH].
Qed.


(** ** Characterising a set *)

Lemma for_each_unit_ok (A : Type) (body : Datatypes.unit -> A -> outcome Datatypes.unit)
  (items : list A) :
  (forall a, In a items -> body tt a = Return tt []) ->
  for_each body items tt = Return tt [].
Proof.
  induction items as [|a items IH]; intros H; [reflexivity|].
  cbn [for_each]. rewrite (H a (or_introl eq_refl)), bind_Return_l.
  apply IH. intros b Hb. apply H. now right.
Qed.

Lemma combine_seq_app (A : Type) (before rest : list A) (a : A) (s : nat) :
  combine (seq s (List.length (before ++ a :: rest))) (before ++ a :: rest)
  = combine (seq s (List.length before)) before
      ++ (s + List.length before, a)
      :: combine (seq (S (s + List.length before)) (List.length rest)) rest.
Proof.
  revert s. induction before as [|b before IH]; intros s.
  - cbn [app List.length seq combine]. now rewrite Nat.add_0_r.
  - cbn [app List.length seq combine]. rewrite IH. cbn [app].
    now replace (S s + List.length before) with (s + S (List.length before)) by lia.
Qed.

Lemma enumerate_app (A : Type) (before rest : list A) (a : A) :
  enumerate (before ++ a :: rest)
  = enumerate before ++ (List.length before, a)
      :: combine (seq (S (List.length before)) (List.length rest)) rest.
Proof. unfold enumerate. now rewrite combine_seq_app. Qed.

Lemma enumerate_In_snd (A : Type) (items : list A) (it : nat * A) :
  In it (enumerate items) -> In (snd it) items.
Proof. destruct it as [i a]. intros H. now apply in_combine_r in H. Qed.

(** The characterisation goes through when every column has one entry for
    each result. *)
Lemma characterize_ok (self : AnalysisResultsSet) (name : pyval)
  (data_tuple : list (PyStr.t * pyval)) :
  Forall (fun c => len (snd c) = Return (set_len self) []) data_tuple ->
  characterize_sequence self name data_tuple =
    Return (MkSet (_results self) (Some name) (Some data_tuple)) [].
Proof.
  intros H. unfold characterize_sequence.
  rewrite for_each_unit_ok; [now rewrite bind_Return_l|].
  intros it Hit. apply enumerate_In_snd in Hit. rewrite Forall_forall in H.
  rewrite (H _ Hit), bind_Return_l. unfold set_len. cbn [_results].
  now rewrite Nat.eqb_refl.
Qed.

(** It stops at the first column of another length. *)
Lemma characterize_fails (self : AnalysisResultsSet) (name : pyval)
  (before rest : list (PyStr.t * pyval)) (column_name : PyStr.t) (column : pyval) (m : nat) :
  Forall (fun c => len (snd c) = Return (set_len self) []) before ->
  len column = Return m [] -> m <> set_len self ->
  characterize_sequence self name (before ++ (column_name, column) :: rest) =
    Raise (AssertionError
             (Some (Fmt "Column %i in tuple has length of %i (should be %i)"
                        [ANat (List.length before);
                         ANat (List.length (before ++ (column_name, column) :: rest));
                         ANat (set_len self)]))).
Proof.
  intros Hok Hlen Hm. unfold characterize_sequence.
  rewrite enumerate_app, for_each_app.
  rewrite for_each_unit_ok.
  - rewrite bind_Return_l. cbn [for_each fst snd]. rewrite Hlen, bind_Return_l.
    unfold set_len at 1. cbn [_results]. fold (set_len self).
    apply Nat.eqb_neq in Hm. rewrite Hm. reflexivity.
  - intros it Hit. apply enumerate_In_snd in Hit. rewrite Forall_forall in Hok.
    rewrite (Hok _ Hit), bind_Return_l. unfold set_len. cbn [_results].
    now rewrite Nat.eqb_refl.
Qed.

(** X15.  [characterize_sequence] accepts a data tuple all of whose columns
    have as many entries as the set has results, and then stores the name
    and the tuple; at the first column of another length it stops with an
    assertion error whose message gives the position of the column, the
    number of columns of the tuple (not the length of the column) and the
    length of the set. *)
Theorem characterize_sequence_checks_lengths (self : AnalysisResultsSet) (name : pyval)
  (before rest : list (PyStr.t * pyval)) (column_name : PyStr.t) (column : pyval) (m : nat) :
  Forall (fun c => len (snd c) = Return (set_len self) []) before ->
  len column = Return m [] ->
  let data_tuple := before ++ (column_name, column) :: rest in
  (m <> set_len self ->
   characterize_sequence self name data_tuple =
     Raise (AssertionError
              (Some (Fmt "Column %i in tuple has length of %i (should be %i)"
                         [ANat (List.length before); ANat (List.length data_tuple);
                          ANat (set_len self)]))))
  /\ (m = set_len self ->
      Forall (fun c => len (snd c) = Return (set_len self) []) rest ->
      characterize_sequence self name data_tuple =
        Return (MkSet (_results self) (Some name) (Some data_tuple)) []).
Proof.
  intros Hok Hlen data_tuple. split.
  - intros Hm. now apply characterize_fails with (m := m).
  - intros -> Hrest. apply characterize_ok. apply Forall_app. split; [exact Hok|].
    constructor; [exact Hlen | exact Hrest].
Qed.

(** X16.  [set_x] refuses values whose number is not the number of
    results, naming both numbers; otherwise it characterises the set with
    the one column VALUE, which holds the values, as a quantity when a unit
    is given. *)
Theorem set_x_checks_length (self : AnalysisResultsSet) (name x : pyval)
  (unit : option PyStr.t) (n : nat) :
  len x = Return n [] ->
  set_x self name x unit =
    if n =? set_len self then
      Return (MkSet (_results self) (Some name)
                (Some [(py "VALUE", match unit with
                                    | Some unit => PQuantity x unit
                                    | None => x
                                    end)])) []
    else Raise (AssertionError
                  (Some (Fmt "Wrong number of bounds (%i, should be %i)"
                             [ANat n; ANat (set_len self)]))).
Proof.
  intros Hlen. unfold set_x. rewrite Hlen, bind_Return_l.
  destruct (n =? set_len self) eqn:E; [|reflexivity].
  rewrite assert_true, bind_ret_l. apply Nat.eqb_eq in E. subst n.
  destruct unit as [unit|]; apply characterize_ok; repeat constructor; exact Hlen.
Qed.

(** X17.  [set_bins] first requires the two arrays of bounds to have the
    same length, then that length to be the number of results; it then
    characterises the set with the columns LOWER_BOUND and UPPER_BOUND, in
    that order. *)
Theorem set_bins_checks_lengths (self : AnalysisResultsSet) (name lower_bounds upper_bounds : pyval)
  (unit : option PyStr.t) (n_lower n_upper : nat) :
  len lower_bounds = Return n_lower [] ->
  len upper_bounds = Return n_upper [] ->
  set_bins self name lower_bounds upper_bounds unit =
    if negb (n_upper =? n_lower) then
      Raise (AssertionError
               (Some (Fmt "Upper and lower bounds must have the same length" [])))
    else if negb (n_upper =? set_len self) then
      Raise (AssertionError
               (Some (Fmt "Wrong number of bounds (%i, should be %i)"
                          [ANat n_upper; ANat (set_len self)])))
    else
      Return (MkSet (_results self) (Some name)
                (Some match unit with
                      | Some unit => [(py "LOWER_BOUND", PQuantity lower_bounds unit);
                                      (py "UPPER_BOUND", PQuantity upper_bounds unit)]
                      | None => [(py "LOWER_BOUND", lower_bounds);
                                 (py "UPPER_BOUND", upper_bounds)]
                      end)) [].
Proof.
  intros Hlo Hup. unfold set_bins. rewrite Hup, bind_Return_l, Hlo, bind_Return_l.
  destruct (n_upper =? n_lower) eqn:E1; [|reflexivity].
  rewrite assert_true, bind_ret_l. cbn [negb].
  destruct (n_upper =? set_len self) eqn:E2; [|reflexivity].
  rewrite assert_true, bind_ret_l. cbn [negb].
  apply Nat.eqb_eq in E1, E2. subst n_lower. subst n_upper.
  destruct unit as [unit|]; apply characterize_ok; repeat constructor; assumption.
Qed.

Section Writing.

Variable list_dtype : list pyval -> option dtype.
Variable coercible : pyval -> dtype -> bool.
Variable quantile : list float -> float -> float.
Variable version : PyStr.t.
Variable __version__ : PyStr.t.
Variable now : PyStr.t.
Variable yaml_dump : Model -> PyStr.t.

#[local] Abbreviation container :=
  (AnalysisResultsFITS list_dtype coercible quantile version __version__ now yaml_dump).

(** X18.  A set that was never characterised is written with the sequence
    named unspecified and the one column VALUE counting the results from
    zero; its own length check never fails.  An empty set cannot be written
    that way: the empty column stops the SEQUENCE extension with an
    IndexError. *)
Theorem set_write_to_default_sequence (self : AnalysisResultsSet) :
  _sequence_name self = None ->
  set_write_to list_dtype coercible quantile version __version__ now yaml_dump self =
    container (_results self)
      (Some (PStr (py "unspecified"),
             [(py "VALUE", PList (map (fun i => PInt (Z.of_nat i)) (seq 0 (set_len self))))]))
  /\ (_results self = [] ->
      set_write_to list_dtype coercible quantile version __version__ now yaml_dump self =
        Raise IndexError).
Proof.
  intros Hname.
  assert (Hwrite :
    set_write_to list_dtype coercible quantile version __version__ now yaml_dump self =
    container (_results self)
      (Some (PStr (py "unspecified"),
             [(py "VALUE", PList (map (fun i => PInt (Z.of_nat i)) (seq 0 (set_len self))))]))).
  { unfold set_write_to. rewrite Hname.
    rewrite characterize_ok, bind_Return_l; [reflexivity|].
    repeat constructor. cbn [snd len]. now rewrite length_map, length_seq. }
  split; [exact Hwrite|].
  intros Hempty. rewrite Hwrite. unfold set_len. rewrite Hempty. reflexivity.
Qed.

End Writing.

Lemma characterize_sequence_checks_lengths_witness :
  characterize_sequence two_missing_results (PStr (py "time"))
    [(py "START", PList [PInt 0; PInt 10]); (py "STOP", PList [PInt 10])]
  = Raise (AssertionError
             (Some (Fmt "Column %i in tuple has length of %i (should be %i)"
                        [ANat 1; ANat 2; ANat 2]))).
Proof.
  destruct (@characterize_sequence_checks_lengths two_missing_results (PStr (py "time"))
              [(py "START", PList [PInt 0; PInt 10])] [] (py "STOP") (PList [PInt 10]) 1)
    as [Hfail _].
  - repeat constructor.
  - reflexivity.
  - apply Hfail. discriminate.
Defined.

Lemma set_x_checks_length_witness :
  set_x two_missing_results (PStr (py "time")) (PList [PFloat 0.5; PFloat 1.5]) (Some (py "s"))
  = Return (MkSet [None; None] (Some (PStr (py "time")))
              (Some [(py "VALUE", PQuantity (PList [PFloat 0.5; PFloat 1.5]) (py "s"))])) [].
Proof.
  exact (@set_x_checks_length two_missing_results (PStr (py "time"))
           (PList [PFloat 0.5; PFloat 1.5]) (Some (py "s")) 2 eq_refl).
Defined.

Lemma set_bins_checks_lengths_witness :
  set_bins two_missing_results (PStr (py "time")) (PList [PFloat 0; PFloat 1])
    (PList [PFloat 1; PFloat 2; PFloat 3]) None
  = Raise (AssertionError (Some (Fmt "Upper and lower bounds must have the same length" []))).
Proof.
  exact (@set_bins_checks_lengths two_missing_results (PStr (py "time"))
           (PList [PFloat 0; PFloat 1]) (PList [PFloat 1; PFloat 2; PFloat 3]) None 2 3
           eq_refl eq_refl).
Defined.

Lemma set_write_to_default_sequence_witness :
  set_write_to no_list_dtype not_coercible first_sample (py "1.0") (py "1.0")
    (py "2017-03-01T12:00:00") dump_sample_text (AnalysisResultsSet__init__ [])
  = Raise IndexError.
Proof.
  destruct (@set_write_to_default_sequence no_list_dtype not_coercible first_sample
              (py "1.0") (py "1.0") (py "2017-03-01T12:00:00") dump_sample_text
              (AnalysisResultsSet__init__ []) eq_refl) as [_ Hempty].
  now apply Hempty.
Defined.

End SequenceProps.
(* ================================================================= *)
(** * The layout of a container and what the reader makes of it *)

Module ContainerProps.
Import Py PyFacts PyStrFacts Np Astromodels AnalysisResults FitsFile Escaping Persistence.
Import Methods FrameFacts HeaderFacts WriteFacts ExtensionProps SequenceProps.

(** ** Lists *)

Lemma nth_error_combine_seq (A : Type) (l : list A) (s i : nat) :
  nth_error (combine (seq s (List.length l)) l) i
  = option_map (fun a => (s + i, a)) (nth_error l i).
Proof.
  revert s i. induction l as [|a l IH]; intros s i.
  - destruct i; reflexivity.
  - destruct i; cbn [List.length seq combine nth_error option_map].
    + now rewrite Nat.add_0_r.
    + rewrite IH. now replace (S s + i) with (s + S i) by lia.
Qed.

Lemma nth_error_enumerate (A : Type) (l : list A) (i : nat) :
  nth_error (enumerate l) i = option_map (fun a => (i, a)) (nth_error l i).
Proof. unfold enumerate. now rewrite nth_error_combine_seq. Qed.

Lemma length_enumerate (A : Type) (l : list A) : List.length (enumerate l) = List.length l.
Proof. unfold enumerate. rewrite length_combine, length_seq. apply Nat.min_id. Qed.

Lemma Forall2_length_eq (A B : Type) (R : A -> B -> Prop) (l : list A) (l' : list B) :
  Forall2 R l l' -> List.length l' = List.length l.
Proof. induction 1; cbn; congruence. Qed.

Lemma Forall2_nth_error (A B : Type) (R : A -> B -> Prop) (l : list A) (l' : list B)
  (i : nat) (b : B) :
  Forall2 R l l' -> nth_error l' i = Some b -> exists a, nth_error l i = Some a /\ R a b.
Proof.
  intros H. revert i. induction H as [|a0 b0 l l' Hab _ IH]; intros i Hi.
  - destruct i; discriminate Hi.
  - destruct i; cbn [nth_error] in *.
    + injection Hi as <-. now exists a0.
    + now apply IH.
Qed.

Lemma count_occ_all (names : list PyStr.t) (name : PyStr.t) :
  Forall (fun n => n = name) names ->
  count_occ (list_eq_dec ascii_dec) names name = List.length names.
Proof.
  induction 1 as [|n names -> _ IH]; [reflexivity|].
  cbn [count_occ List.length]. destruct (list_eq_dec ascii_dec name name); congruence.
Qed.

(** ** Headers *)

Lemma header_get_write_statistics (h : Header) (stats : list (pyval * float)) (key : PyStr.t) :
  (forall i, key <> key_stat i /\ key <> key_pn i) ->
  header_get (write_statistics h stats) key = header_get h key.
Proof.
  intros Hkey. unfold write_statistics. generalize (enumerate stats). intros items.
  revert h. induction items as [|it items IH]; intros h; [reflexivity|].
  cbn [fold_left]. rewrite IH.
  rewrite !header_get_set_other; [reflexivity | apply (Hkey (fst it)) | apply (Hkey (fst it))].
Qed.

Lemma extname_is_not_numbered (i : nat) :
  py "EXTNAME" <> key_stat i /\ py "EXTNAME" <> key_pn i.
Proof. split; discriminate. Qed.

Lemma model_is_not_numbered (i : nat) : py "MODEL" <> key_stat i /\ py "MODEL" <> key_pn i.
Proof. split; discriminate. Qed.

Lemma resutype_is_not_numbered (i : nat) :
  py "RESUTYPE" <> key_stat i /\ py "RESUTYPE" <> key_pn i.
Proof. split; discriminate. Qed.

Section Container.

Variable list_dtype : list pyval -> option dtype.
Variable coercible : pyval -> dtype -> bool.
Variable quantile : list float -> float -> float.
Variable version : PyStr.t.
Variable __version__ : PyStr.t.
Variable now : PyStr.t.
Variable yaml_dump : Model -> PyStr.t.

#[local] Abbreviation extension :=
  (ANALYSIS_RESULTS list_dtype coercible quantile version __version__ yaml_dump).
#[local] Abbreviation container :=
  (AnalysisResultsFITS list_dtype coercible quantile version __version__ now yaml_dump).

(** What [FITSExtension.__init__] has built when it returns. *)
Lemma FITSExtension_inv (data_tuple : list (PyStr.t * pyval)) (header_tuple : Header)
  (hdu : BinTableHDU) (w : list message) :
  FITSExtension list_dtype coercible version data_tuple header_tuple = Return hdu w ->
  hdu_header hdu = header_set header_tuple (py "CREATOR") (PStr (py "3ML v." ++ version))
                              (Some (py "(G.Vianello, giacomov@slac.stanford.edu)"))
  /\ map col_name (hdu_columns hdu) = map fst data_tuple.
Proof.
  intros H. unfold FITSExtension in H.
  apply bind_Return_inv in H as (cols & w1 & w2 & Hcols & H & _).
  injection H as <- _. cbn [hdu_columns hdu_header]. split; [reflexivity|].
  apply map_m_Return_inv in Hcols.
  induction Hcols as [|a c data cols (w' & Hc) _ IH]; [reflexivity|].
  cbn [map]. rewrite IH.
  now destruct (@make_column_fields list_dtype coercible (fst a) (snd a) c w' Hc) as [-> _].
Qed.

(** What [ANALYSIS_RESULTS.__init__] has built when it returns. *)
Lemma ANALYSIS_RESULTS_inv (r : Results) (hdu : BinTableHDU) (w : list message) :
  extension r = Return hdu w ->
  hdu_name hdu = py "ANALYSIS_RESULTS"
  /\ header_get (hdu_header hdu) (py "MODEL")
     = PStr (_escape_yaml_for_fits (yaml_dump (optimized_model r)))
  /\ header_get (hdu_header hdu) (py "RESUTYPE") = PStr (analysis_type r)
  /\ map col_name (hdu_columns hdu)
     = [py "NAME"; py "VALUE"; py "NEGATIVE_ERROR"; py "POSITIVE_ERROR"; py "ERROR";
        py "UNIT"; py "COVARIANCE"; py "SAMPLES"].
Proof.
  intros H. unfold ANALYSIS_RESULTS in H.
  apply bind_Return_inv in H as (cs & w1 & w2 & _ & H & _).
  apply bind_Return_inv in H as (frame & w3 & w4 & _ & H & _).
  apply bind_Return_inv in H as (hdu0 & w5 & w6 & Hext & H & _).
  injection H as <- _.
  apply FITSExtension_inv in Hext as [Hheader Hcols].
  unfold hdu_name. cbn [hdu_header hdu_columns]. rewrite Hheader.
  split; [|split; [|split]].
  - rewrite header_get_write_statistics by apply extname_is_not_numbered.
    now rewrite !header_get_set_other by discriminate.
  - rewrite header_get_write_statistics by apply model_is_not_numbered.
    rewrite header_get_set_other by discriminate. apply header_get_set_same.
  - rewrite header_get_write_statistics by apply resutype_is_not_numbered.
    apply header_get_set_same.
  - exact Hcols.
Qed.


(** The extensions of a container once [AnalysisResultsFITS.__init__] has
    returned. *)
Lemma container_inv (analysis_results : list (option Results))
  (sequence : option (pyval * list (PyStr.t * pyval))) (f : FITSFile) (w : list message) :
  container analysis_results sequence = Return f w ->
  exists sequence_ext results_ext,
    file_extensions f = sequence_ext ++ results_ext
    /\ primary_header f =
         header_set (header_set [] (py "DATE") (PStr now) None) (py "ORIGIN")
                    (PStr (py "3ML")) (Some (origin_comment __version__))
    /\ List.length results_ext = List.length analysis_results
    /\ match sequence with
       | None => sequence_ext = []
       | Some (name, data_tuple) =>
           exists s, sequence_ext = [s]
                     /\ hdu_name s = py "SEQUENCE"
                     /\ header_get (hdu_header s) (py "SEQ_TYPE") = name
                     /\ map col_name (hdu_columns s) = map fst data_tuple
       end
    /\ (forall i e, nth_error results_ext i = Some e ->
          exists r e0 w',
            nth_error analysis_results i = Some (Some r)
            /\ extension r = Return e0 w'
            /\ e = MkHDU (header_set (hdu_header e0) (py "EXTVER")
                                     (PInt (Z.of_nat (i + 1))) None)
                         (hdu_columns e0)).
Proof.
  intros H. unfold AnalysisResultsFITS in H.
  apply bind_Return_inv in H as (exts & w1 & w2 & Hseq & H & _).
  apply bind_Return_inv in H as (res0 & w3 & w4 & Hres & H & _).
  injection H as <- _. cbn [file_extensions primary_header FITSFile__init__].
  apply map_m_Return_inv in Hres.
  eexists. eexists. split; [reflexivity|]. split; [reflexivity|]. split; [|split].
  - rewrite length_map, length_enumerate. exact (Forall2_length_eq Hres).
  - destruct sequence as [[name data_tuple]|].
    + apply bind_Return_inv in Hseq as (s & w5 & w6 & Hs & Hret & _).
      injection Hret as <- _. exists s. split; [reflexivity|].
      unfold SEQUENCE in Hs.
      apply bind_Return_inv in Hs as (hdu0 & w7 & w8 & Hext & Hs & _).
      injection Hs as <- _. apply FITSExtension_inv in Hext as [Hheader Hcols].
      unfold hdu_name. cbn [hdu_header hdu_columns]. rewrite Hheader.
      split; [|split; [apply header_get_set_same | exact Hcols]].
      now rewrite !header_get_set_other by discriminate.
    + now injection Hseq as <- _.
  - intros i e He. rewrite nth_error_map, nth_error_enumerate in He.
    destruct (nth_error res0 i) as [e0|] eqn:E0; [|discriminate He].
    cbn [option_map fst snd] in He. injection He as <-.
    destruct (Forall2_nth_error i Hres E0) as (r & Hr & w' & Hext).
    destruct r as [r|]; [|discriminate Hext].
    now exists r, e0, w'.
Qed.

(** The name and the version of an extension numbered by the container. *)
Lemma numbered_extension (r : Results) (e0 : BinTableHDU) (w : list message) (z : Z) :
  extension r = Return e0 w ->
  hdu_name (MkHDU (header_set (hdu_header e0) (py "EXTVER") (PInt z) None) (hdu_columns e0))
    = py "ANALYSIS_RESULTS"
  /\ hdu_ver (MkHDU (header_set (hdu_header e0) (py "EXTVER") (PInt z) None) (hdu_columns e0))
     = z.
Proof.
  intros Hext. destruct (ANALYSIS_RESULTS_inv r Hext) as (Hname & _).
  unfold hdu_name, hdu_ver in *. cbn [hdu_header].
  rewrite header_get_set_other by discriminate. rewrite header_get_set_same.
  now split.
Qed.


End Container.



End ContainerProps.
(* ================================================================= *)
(** * More on reading a container *)

Module LoadProps.
Import Py PyFacts PyStrFacts Np Astromodels AnalysisResults FitsFile Escaping Persistence.
Import Methods FrameFacts HeaderFacts WriteFacts ExtensionProps SequenceProps ContainerProps.

Lemma map_m_length (A B : Type) (f : A -> outcome B) (items : list A) (bs : list B)
  (w : list message) :
  map_m f items = Return bs w -> List.length bs = List.length items.
Proof. intros H. apply map_m_Return_inv in H. exact (Forall2_length_eq H). Qed.

Lemma count_occ_names (sequence_ext results_ext : list BinTableHDU) :
  Forall (fun s => hdu_name s = py "SEQUENCE") sequence_ext ->
  Forall (fun e => hdu_name e = py "ANALYSIS_RESULTS") results_ext ->
  count_occ (list_eq_dec ascii_dec)
            (py "PRIMARY" :: map hdu_name (sequence_ext ++ results_ext))
            (py "ANALYSIS_RESULTS")
  = List.length results_ext.
Proof.
  intros Hs Hr. rewrite count_occ_cons_neq by discriminate.
  rewrite map_app, count_occ_app.
  assert (H0 : count_occ (list_eq_dec ascii_dec) (map hdu_name sequence_ext)
                         (py "ANALYSIS_RESULTS") = 0).
  { apply count_occ_not_In. intros Hin.
    apply in_map_iff in Hin as (s & Hn & Hin). rewrite Forall_forall in Hs.
    rewrite (Hs s Hin) in Hn. discriminate Hn. }
  assert (H1 : count_occ (list_eq_dec ascii_dec) (map hdu_name results_ext)
                         (py "ANALYSIS_RESULTS") = List.length (map hdu_name results_ext)).
  { apply count_occ_all. rewrite Forall_forall in *. intros n Hn.
    apply in_map_iff in Hn as (e & <- & He). now apply Hr. }
  exact (eq_trans (f_equal2 Nat.add H0 H1) (length_map hdu_name results_ext)).
Qed.

(** What the loop of [characterize_sequence] has checked when it ends. *)
Lemma length_check_inv (N : nat) (msg : nat * (PyStr.t * pyval) -> option message)
  (items : list (nat * (PyStr.t * pyval))) (w : list message) :
  for_each (fun (_ : Datatypes.unit) it =>
              n <- len (snd (snd it)) ;; assert (n =? N) (msg it)) items tt = Return tt w ->
  Forall (fun it => exists w', len (snd (snd it)) = Return N w') items.
Proof.
  revert w. induction items as [|it items IH]; intros w H; [constructor|].
  cbn [for_each] in H.
  apply bind_Return_inv in H as ([] & w1 & w2 & Hit & H & _).
  apply bind_Return_inv in Hit as (n & w3 & w4 & Hlen & Hassert & _).
  constructor; [|now apply IH with (w := w2)].
  destruct (n =? N) eqn:E; [|discriminate Hassert].
  apply Nat.eqb_eq in E. subst n. now exists w3.
Qed.

Lemma find_app_none (A : Type) (p : A -> bool) (l1 l2 : list A) :
  (forall a, In a l1 -> p a = false) -> find p (l1 ++ l2) = find p l2.
Proof.
  intros H. induction l1 as [|a l1 IH]; [reflexivity|].
  cbn [app find]. rewrite (H a (or_introl eq_refl)). apply IH.
  intros b Hb. apply H. now right.
Qed.

Lemma find_first_index (A : Type) (p : A -> bool) (l : list A) (i : nat) (e : A) :
  nth_error l i = Some e -> p e = true ->
  (forall j e', j < i -> nth_error l j = Some e' -> p e' = false) ->
  find p l = Some e.
Proof.
  revert i. induction l as [|a l IH]; intros i He Hp Hbefore.
  - destruct i; discriminate He.
  - destruct i as [|i]; cbn [nth_error] in He.
    + injection He as ->. cbn [find]. now rewrite Hp.
    + cbn [find]. rewrite (Hbefore 0 a (Nat.lt_0_succ i) eq_refl).
      apply (IH i He Hp). intros j e' Hj He'. apply (Hbefore (S j) e'); [lia | exact He'].
Qed.

(** An extension is found again by its name and number among extensions
    numbered from 1, whatever SEQUENCE extensions come before them. *)
Lemma find_numbered (sequence_ext results_ext : list BinTableHDU) (primary : Header)
  (i : nat) (e : BinTableHDU) :
  Forall (fun s => hdu_name s = py "SEQUENCE") sequence_ext ->
  (forall j e', nth_error results_ext j = Some e' ->
     hdu_name e' = py "ANALYSIS_RESULTS" /\ hdu_ver e' = Z.of_nat (j + 1)) ->
  nth_error results_ext i = Some e ->
  getitem_name_ver (MkFile primary (sequence_ext ++ results_ext)) (py "ANALYSIS_RESULTS")
                   (Z.of_nat (i + 1))
  = Return e [].
Proof.
  intros Hs Hr He. unfold getitem_name_ver. cbn [file_extensions].
  rewrite find_app_none.
  - rewrite (@find_first_index _ _ results_ext i e He); [reflexivity | |].
    + destruct (Hr i e He) as [-> ->]. now rewrite pystr_eqb_refl, Z.eqb_refl.
    + intros j e' Hj He'. destruct (Hr j e' He') as [_ ->].
      apply andb_false_iff. right. apply Z.eqb_neq. lia.
  - intros s Hin. rewrite Forall_forall in Hs. rewrite (Hs s Hin). reflexivity.
Qed.

Section Loading.

Variable random_normal : list float -> matrix -> nat -> list (list float).
Variable yaml_load : PyStr.t -> outcome Model.

#[local] Abbreviation load := (load_analysis_results random_normal yaml_load).
#[local] Abbreviation load_one := (_load_one_results random_normal yaml_load).

(** X21.  Whatever the container, a set handed back by
    [load_analysis_results] has one entry for each ANALYSIS_RESULTS
    extension, their number is not one, and the set is characterised: its
    name is the SEQ_TYPE of the first SEQUENCE extension and its tuple has
    one column for each column of that extension, each with as many entries
    as the set has results.  A single record is handed back only when there
    is exactly one such extension. *)
Theorem loaded_set_is_characterised (f : FITSFile) (l : loaded) (w : list message) :
  load f = Return l w ->
  let n_results :=
    count_occ (list_eq_dec ascii_dec) (py "PRIMARY" :: map hdu_name (file_extensions f))
              (py "ANALYSIS_RESULTS") in
  match l with
  | Single _ => n_results = 1
  | Several s =>
      n_results <> 1
      /\ set_len s = n_results
      /\ exists sequence_ext data_tuple,
           In sequence_ext (file_extensions f)
           /\ hdu_name sequence_ext = py "SEQUENCE"
           /\ _sequence_name s = Some (header_get (hdu_header sequence_ext) (py "SEQ_TYPE"))
           /\ _sequence_tuple s = Some data_tuple
           /\ map fst data_tuple = map col_name (hdu_columns sequence_ext)
           /\ Forall (fun c => exists w', len (snd c) = Return (set_len s) w') data_tuple
  end.
Proof.
  intros H n_results. unfold load_analysis_results in H. fold n_results in H.
  destruct (n_results =? 1) eqn:E.
  - apply Nat.eqb_eq in E.
    apply bind_Return_inv in H as (ext & w1 & w2 & _ & H & _).
    apply bind_Return_inv in H as (r & w3 & w4 & _ & H & _).
    now injection H as <- _.
  - apply Nat.eqb_neq in E.
    apply bind_Return_inv in H as (s & w1 & w2 & Hset & H & _).
    injection H as <- _. split; [exact E|].
    unfold _load_set_of_results in Hset.
    apply bind_Return_inv in Hset as (all_results & w3 & w4 & Hall & Hset & _).
    apply bind_Return_inv in Hset as (sequence_ext & w5 & w6 & Hseq & Hset & _).
    unfold characterize_sequence in Hset.
    apply bind_Return_inv in Hset as ([] & w7 & w8 & Hloop & Hset & _).
    injection Hset as <- _.
    unfold set_len, AnalysisResultsSet__init__ in *.
    cbn [_results _sequence_name _sequence_tuple] in *.
    split; [rewrite (map_m_length _ _ Hall); apply length_seq|].
    unfold getitem_name in Hseq.
    destruct (find _ (file_extensions f)) as [h|] eqn:Ef; [|discriminate Hseq].
    injection Hseq as <- _. apply find_some in Ef as [Hin Hname].
    apply pystr_eqb_eq in Hname.
    eexists. eexists. split; [exact Hin|]. split; [exact Hname|].
    split; [reflexivity|]. split; [reflexivity|]. split.
    + rewrite map_map. apply map_ext. intros c. now destruct (col_unit c).
    + apply length_check_inv in Hloop.
      rewrite <- (map_snd_enumerate (map _ (hdu_columns h))).
      rewrite Forall_forall in *. intros c Hc.
      apply in_map_iff in Hc as (it & <- & Hit). exact (Hloop it Hit).
Qed.

(** X23.  An extension whose header has no MODEL keyword cannot be read:
    the missing value has no [replace] method, which is an AttributeError,
    whatever else the extension holds. *)
Theorem extension_without_model_is_refused (fits_extension : BinTableHDU) :
  (forall c, In c (hdu_header fits_extension) -> keyword c <> py "MODEL") ->
  load_one fits_extension = Raise AttributeError.
Proof.
  intros H. unfold _load_one_results. now rewrite (@header_get_absent _ _ H).
Qed.

Lemma data_field_absent (h : BinTableHDU) (name : PyStr.t) :
  (forall c, In c (hdu_columns h) -> col_name c <> name) ->
  data_field h name = Raise (KeyError (AStr name)).
Proof.
  intros H. unfold data_field. destruct (find _ (hdu_columns h)) as [c|] eqn:E; [|reflexivity].
  apply find_some in E as [Hin Heq]. apply pystr_eqb_eq in Heq. now destruct (H c Hin).
Qed.

(** X24.  Once the model and the statistics of an extension have been
    read, a missing COVARIANCE column (for the type MLE) or a missing
    SAMPLES column (for the type Bayesian) stops the reader with a KeyError
    naming the column. *)
Theorem missing_column_is_a_key_error (fits_extension : BinTableHDU) (serialized : PyStr.t)
  (model : Model) (stats : list (pyval * float)) (w1 w2 : list message) :
  header_get (hdu_header fits_extension) (py "MODEL") = PStr serialized ->
  yaml_load (_escape_back_yaml_from_fits serialized) = Return model w1 ->
  read_statistics (hdu_header fits_extension) = Return stats w2 ->
  (header_get (hdu_header fits_extension) (py "RESUTYPE") = PStr (py "MLE") ->
   (forall c, In c (hdu_columns fits_extension) -> col_name c <> py "COVARIANCE") ->
   load_one fits_extension = Raise (KeyError (AStr (py "COVARIANCE"))))
  /\ (header_get (hdu_header fits_extension) (py "RESUTYPE") = PStr (py "Bayesian") ->
      (forall c, In c (hdu_columns fits_extension) -> col_name c <> py "SAMPLES") ->
      load_one fits_extension = Raise (KeyError (AStr (py "SAMPLES")))).
Proof.
  intros Hmodel Hparse Hstats. split; intros Hty Hcol; unfold _load_one_results;
    rewrite Hmodel, bind_ret_l, Hparse, Hstats, Hty; cbn [bind];
    rewrite (@data_field_absent _ _ Hcol); reflexivity.
Qed.

(** A text that starts with a capital letter is no number for [int]. *)
Lemma int_of_letter (c : ascii) (rest : PyStr.t) :
  (Ascii.leb "A" c && Ascii.leb c "Z")%bool = true ->
  int_of_str (c :: rest) =
    Raise (ValueError (Fmt "invalid literal for int() with base 10: %s" [AStr (c :: rest)])).
Proof.
  intros Hc. unfold int_of_str. cbn [string_of_list_ascii NilEmpty.uint_of_string].
  destruct (NilEmpty.uint_of_string (string_of_list_ascii rest)) as [d|]; [|reflexivity].
  destruct c as [[] [] [] [] [] [] [] []]; try discriminate Hc; reflexivity.
Qed.

(** X25.  A keyword that starts with STAT and goes on with a capital letter
    other than S (STATUS, say) makes the loop over the statistics fail with
    the ValueError of [int], and the extension cannot be read; keywords that
    do not start with STAT are passed over. *)
Theorem unnumbered_STAT_keyword_stops_reading (before after : Header) (c : ascii)
  (suffix : PyStr.t) (v : pyval) (cmt : option PyStr.t) (columns : list Column)
  (serialized : PyStr.t) (model : Model) (w : list message) :
  (forall k, In k (header_keys before) -> PyStr.find_is_0 (py "STAT") k = false) ->
  (Ascii.leb "A" c && Ascii.leb c "Z")%bool = true -> c <> "S"%char ->
  let header := before ++ Card (py "STAT" ++ c :: suffix) v cmt :: after in
  let refused :=
    ValueError (Fmt "invalid literal for int() with base 10: %s"
                    [AStr (c :: PyStr.replace (py "STAT") [] suffix)]) in
  read_statistics header = Raise refused
  /\ (header_get header (py "MODEL") = PStr serialized ->
      yaml_load (_escape_back_yaml_from_fits serialized) = Return model w ->
      load_one (MkHDU header columns) = Raise refused).
Proof.
  intros Hbefore Hc HS header refused.
  assert (Hread : read_statistics header = Raise refused).
  { unfold read_statistics, header_keys, header. rewrite map_app, for_each_app.
    rewrite (@read_other_keys (before ++ Card (py "STAT" ++ c :: suffix) v cmt :: after)
               (map keyword before) [] Hbefore), bind_Return_l.
    cbn [map for_each keyword]. unfold read_step at 1.
    unfold PyStr.find_is_0. rewrite starts_with_app.
    change (PyStr.replace (py "STAT") [] (py "STAT" ++ c :: suffix))
      with (PyStr.replace_from (py "STAT") [] 0 (py "STAT" ++ c :: suffix)).
    rewrite replace_from_match by discriminate. cbn [app].
    rewrite replace_from_nomatch.
    - change (PyStr.replace_from (py "STAT") [] 0 suffix)
        with (PyStr.replace (py "STAT") [] suffix).
      now rewrite (@int_of_letter c _ Hc).
    - cbn [py PyStr.of_string list_ascii_of_string PyStr.starts_with].
      destruct (Ascii.eqb "S" c) eqn:E; [|reflexivity].
      apply Ascii.eqb_eq in E. congruence. }
  split; [exact Hread|].
  intros Hmodel Hparse. unfold _load_one_results. cbn [hdu_header].
  rewrite Hmodel, bind_ret_l, Hparse. fold header. now rewrite Hread.
Qed.

(** X26.  A statistic whose PN keyword is missing is filed under the name
    [None]. *)
Theorem statistic_without_name (before after : Header) (i : nat) (v : float)
  (cmt : option PyStr.t) :
  (forall k, In k (header_keys before) -> PyStr.find_is_0 (py "STAT") k = false) ->
  (forall k, In k (header_keys after) -> PyStr.find_is_0 (py "STAT") k = false) ->
  (forall c, In c (before ++ after) -> keyword c <> key_pn i) ->
  read_statistics (before ++ Card (key_stat i) (PFloat v) cmt :: after)
  = Return [(PNone, v)] [].
Proof.
  intros Hbefore Hafter Hpn.
  set (header := before ++ Card (key_stat i) (PFloat v) cmt :: after).
  unfold read_statistics, header_keys. unfold header at 2. rewrite map_app, for_each_app.
  rewrite (@read_other_keys header (map keyword before) [] Hbefore), bind_Return_l.
  cbn [map for_each keyword]. unfold read_step at 1.
  rewrite key_stat_is_stat, key_stat_number, int_of_format, bind_Return_l.
  assert (Hv : header_get header (key_stat i) = PFloat v).
  { unfold header. rewrite header_get_app_r.
    - unfold header_get. cbn [find keyword]. now rewrite pystr_eqb_refl.
    - intros c Hc Heq. specialize (Hbefore (keyword c) (in_map keyword _ _ Hc)).
      rewrite Heq, key_stat_is_stat in Hbefore. discriminate Hbefore. }
  assert (Hn : header_get header (py "PN" ++ format_i i) = PNone).
  { apply header_get_absent. intros c Hc. unfold header in Hc.
    apply in_app_or in Hc as [Hc | [<- | Hc]].
    - apply Hpn. apply in_or_app. now left.
    - cbn [keyword]. apply key_stat_not_pn.
    - apply Hpn. apply in_or_app. now right. }
  rewrite Hv. cbn [float_of]. rewrite bind_ret_l, Hn, bind_ret_l. cbn [dict_set].
  exact (@read_other_keys header (map keyword after) [(PNone, v)] Hafter).
Qed.

End Loading.

Section AfterWriting.

Variable list_dtype : list pyval -> option dtype.
Variable coercible : pyval -> dtype -> bool.
Variable quantile : list float -> float -> float.
Variable version : PyStr.t.
Variable __version__ : PyStr.t.
Variable now : PyStr.t.
Variable yaml_dump : Model -> PyStr.t.
Variable random_normal : list float -> matrix -> nat -> list (list float).
Variable yaml_load : PyStr.t -> outcome Model.

#[local] Abbreviation container :=
  (AnalysisResultsFITS list_dtype coercible quantile version __version__ now yaml_dump).
#[local] Abbreviation load := (load_analysis_results random_normal yaml_load).

(** The extensions of a written container, with what finds them again. *)
Lemma written_extensions (analysis_results : list (option Results))
  (sequence : option (pyval * list (PyStr.t * pyval))) (f : FITSFile) (w : list message) :
  container analysis_results sequence = Return f w ->
  exists sequence_ext results_ext,
    f = MkFile (primary_header f) (sequence_ext ++ results_ext)
    /\ List.length results_ext = List.length analysis_results
    /\ Forall (fun s => hdu_name s = py "SEQUENCE") sequence_ext
    /\ (forall j e', nth_error results_ext j = Some e' ->
          hdu_name e' = py "ANALYSIS_RESULTS" /\ hdu_ver e' = Z.of_nat (j + 1)).
Proof.
  intros H.
  destruct (@container_inv list_dtype coercible quantile version __version__ now yaml_dump
              _ _ _ _ H) as (sequence_ext & results_ext & Hf & _ & Hlen & Hseq & Hres).
  exists sequence_ext, results_ext. split; [destruct f; cbn in *; now rewrite Hf|].
  split; [exact Hlen|]. split.
  - destruct sequence as [[name data_tuple]|].
    + destruct Hseq as (s & -> & Hname & _). now repeat constructor.
    + subst sequence_ext. constructor.
  - intros j e' He'. destruct (Hres j e' He') as (r & e0 & w' & _ & Hext & ->).
    exact (@numbered_extension list_dtype coercible quantile version __version__ yaml_dump
             r e0 w' _ Hext).
Qed.


End AfterWriting.

Lemma loaded_set_is_characterised_witness :
  load_analysis_results no_draw parse_two_parameters sequence_only_container
  = Return (Several (MkSet [] (Some (PStr (py "time"))) (Some []))) []
  /\ set_len (MkSet [] (Some (PStr (py "time"))) (Some [])) = 0.
Proof.
  assert (H : load_analysis_results no_draw parse_two_parameters sequence_only_container
              = Return (Several (MkSet [] (Some (PStr (py "time"))) (Some []))) [])
    by reflexivity.
  split; [exact H|].
  destruct (@loaded_set_is_characterised no_draw parse_two_parameters
              sequence_only_container _ _ H) as (_ & Hlen & _).
  exact Hlen.
Defined.

Lemma extension_without_model_is_refused_witness :
  _load_one_results no_draw parse_two_parameters extension_without_model = Raise AttributeError.
Proof.
  apply (@extension_without_model_is_refused no_draw parse_two_parameters
           extension_without_model).
  intros c [<- | [<- | []]]; discriminate.
Defined.

Lemma missing_column_is_a_key_error_witness :
  _load_one_results no_draw parse_two_parameters extension_without_columns
  = Raise (KeyError (AStr (py "COVARIANCE"))).
Proof.
  destruct (@missing_column_is_a_key_error no_draw parse_two_parameters
              extension_without_columns (py "model") two_parameters
              [(PStr (py "detector"), 12.5%float)] [] [] eq_refl eq_refl eq_refl)
    as [Hmle _].
  apply Hmle; [reflexivity|]. intros c [].
Defined.

Lemma unnumbered_STAT_keyword_stops_reading_witness :
  read_statistics header_with_status
  = Raise (ValueError (Fmt "invalid literal for int() with base 10: %s" [AStr (py "US")])).
Proof.
  destruct (@unnumbered_STAT_keyword_stops_reading no_draw parse_two_parameters
              [ Card (py "EXTNAME") (PStr (py "ANALYSIS_RESULTS")) None;
                Card (py "MODEL") (PStr (py "model")) None ]
              [ Card (py "STAT0") (PFloat 12.5) None ]
              "U"%char (py "S") (PStr (py "ok")) None [] (py "model") two_parameters [])
    as [Hread _].
  - intros k [<- | [<- | []]]; reflexivity.
  - reflexivity.
  - discriminate.
  - exact Hread.
Defined.

Lemma statistic_without_name_witness :
  read_statistics header_without_name = Return [(PNone, 12.5%float)] [].
Proof.
  apply (@statistic_without_name
           [ Card (py "EXTNAME") (PStr (py "ANALYSIS_RESULTS")) None ]
           [ Card (py "EXTVER") (PInt 1) None ] 0 12.5%float None).
  - intros k [<- | []]; reflexivity.
  - intros k [<- | []]; reflexivity.
  - intros c [<- | [<- | []]]; discriminate.
Defined.


End LoadProps.
(* ================================================================= *)
(** * Writing a set of results and reading it back *)

Module SetRoundTrip.
Import Py PyFacts PyStrFacts Np Astromodels AnalysisResults FitsFile Escaping Persistence.
Import Methods FrameFacts HeaderFacts ColumnFacts ResultsFacts EscapingFacts WriteFacts.
Import ReadFacts RoundTripFacts ExtensionProps SequenceProps ContainerProps LoadProps.

(** ** The number of an extension does not matter to its reader *)

Lemma header_get_last_card (h : Header) (key : PyStr.t) (c c' : card) :
  keyword c <> key -> keyword c' <> key ->
  header_get (h ++ [c]) key = header_get (h ++ [c']) key.
Proof.
  intros Hc Hc'. unfold header_get. induction h as [|a h IH].
  - cbn [app find]. now rewrite (pystr_eqb_neq Hc), (pystr_eqb_neq Hc').
  - cbn [app find]. destruct (PyStr.eqb (keyword a) key); [reflexivity | exact IH].
Qed.

Lemma read_step_ext (h h' : Header) (acc : list (pyval * float)) (key : PyStr.t) :
  (forall k, k <> py "EXTVER" -> header_get h k = header_get h' k) ->
  read_step h acc key = read_step h' acc key.
Proof.
  intros H. unfold read_step. destruct (PyStr.find_is_0 (py "STAT") key) eqn:E; [|reflexivity].
  assert (Hkey : key <> py "EXTVER") by (intros ->; discriminate E).
  rewrite (H key Hkey). apply bind_ext. intros id. apply bind_ext. intros v.
  rewrite (H (py "PN" ++ format_i id)) by discriminate. reflexivity.
Qed.

Lemma for_each_ext (A S : Type) (body body' : S -> A -> outcome S) (items : list A) (s : S) :
  (forall s a, body s a = body' s a) -> for_each body items s = for_each body' items s.
Proof.
  intros H. revert s. induction items as [|a items IH]; intros s; [reflexivity|].
  cbn [for_each]. rewrite H. apply bind_ext. exact IH.
Qed.

Section AnyVersion.

Variable random_normal : list float -> matrix -> nat -> list (list float).
Variable yaml_load : PyStr.t -> outcome Model.

Lemma load_one_any_version (h : Header) (columns : list Column) (v v' : pyval)
  (cmt cmt' : option PyStr.t) :
  _load_one_results random_normal yaml_load
    (MkHDU (h ++ [Card (py "EXTVER") v cmt]) columns)
  = _load_one_results random_normal yaml_load
      (MkHDU (h ++ [Card (py "EXTVER") v' cmt']) columns).
Proof.
  assert (Hget : forall k, k <> py "EXTVER" ->
            header_get (h ++ [Card (py "EXTVER") v cmt]) k
            = header_get (h ++ [Card (py "EXTVER") v' cmt']) k).
  { intros k Hk. apply header_get_last_card; cbn [keyword]; congruence. }
  unfold _load_one_results. cbn [hdu_header].
  rewrite (Hget (py "RESUTYPE")) by discriminate.
  rewrite (Hget (py "MODEL")) by discriminate.
  apply bind_ext. intros serialized. apply bind_ext. intros model.
  assert (Hstats : read_statistics (h ++ [Card (py "EXTVER") v cmt])
                   = read_statistics (h ++ [Card (py "EXTVER") v' cmt'])).
  { unfold read_statistics, header_keys. rewrite !map_app. cbn [map keyword].
    apply for_each_ext. intros acc key. now apply read_step_ext. }
  rewrite Hstats. reflexivity.
Qed.

End AnyVersion.

Section SetTrip.

Variable list_dtype : list pyval -> option dtype.
Variable coercible : pyval -> dtype -> bool.
Variable quantile : list float -> float -> float.
Variable version : PyStr.t.
Variable __version__ : PyStr.t.
Variable now : PyStr.t.
Variable yaml_dump : Model -> PyStr.t.
Variable yaml_load : PyStr.t -> outcome Model.
Variable redraw : list float -> matrix -> nat -> list (list float).

#[local] Abbreviation extension :=
  (ANALYSIS_RESULTS list_dtype coercible quantile version __version__ yaml_dump).
#[local] Abbreviation container :=
  (AnalysisResultsFITS list_dtype coercible quantile version __version__ now yaml_dump).
#[local] Abbreviation write_set :=
  (set_write_to list_dtype coercible quantile version __version__ now yaml_dump).
#[local] Abbreviation load := (load_analysis_results redraw yaml_load).
#[local] Abbreviation load_one := (_load_one_results redraw yaml_load).

(** A record of a Bayesian analysis that meets the conditions under which
    it can be written and read back. *)
#[local] Abbreviation storable r :=
  (exists model samples stats w,
     free_parameters model <> []
     /\ NoDup (map path (free_parameters model))
     /\ distinct_names stats
     /\ free_of placeholder_words (yaml_dump model) = true
     /\ yaml_load (yaml_dump model) = Return model []
     /\ rectangular samples /\ rows samples <> []
     /\ BayesianResults__init__ model samples stats = Return r w).

#[local] Abbreviation numbered e0 z :=
  (MkHDU (header_set (hdu_header e0) (py "EXTVER") (PInt z) None) (hdu_columns e0)).

(** The extension of such a record, and what the reader makes of it under
    any number. *)
Lemma storable_extension (r : Results) :
  storable r ->
  exists e0, extension r = Return e0 []
             /\ forall z, load_one (numbered e0 z) = Return (Some r) [].
Proof.
  intros (model & samples & stats & w & Hsome & Hpaths & Hnames & Hplain & Hparsed
          & Hrect & Hrows & Hinit).
  destruct (bayesian_construction model stats samples Hinit) as (Hcols & ->).
  pose proof (base_init_ok model samples stats (py "Bayesian") Hcols) as Hbuilt.
  destruct (@extension_of_bayesian list_dtype coercible quantile version __version__ yaml_dump
              model samples stats (py "Bayesian") _ Hbuilt Hsome Hpaths eq_refl Hrows)
    as (columns & Hext & Hfield).
  eexists. split; [exact Hext|]. intros z. cbn [hdu_header hdu_columns].
  rewrite (header_set_absent (written_keywords version __version__ yaml_dump model
                                (py "Bayesian") ++ stat_cards (enumerate stats))).
  - rewrite (load_one_any_version redraw yaml_load _ columns (PInt z) (PInt 1) None None).
    rewrite <- app_assoc.
    exact (@load_one_bayesian redraw version __version__ yaml_dump yaml_load model
             (py "Bayesian") stats columns Hnames Hplain Hparsed samples eq_refl
             Hrect Hrows Hcols Hsome (Hfield _)).
  - intros c Hc. apply in_app_or in Hc as [Hc | Hc].
    + destruct Hc as [<- | [<- | [<- | [<- | [<- | []]]]]]; discriminate.
    + now apply stat_cards_not_extver in Hc.
Qed.

(** All the extensions of a list of such records. *)
Lemma storable_extensions (rs : list Results) :
  Forall (fun r => storable r) rs ->
  exists es,
    map_m (fun r : option Results =>
             match r with
             | Some r => extension r
             | None => Raise AttributeError
             end) (map Some rs) = Return es []
    /\ Forall2 (fun r e0 => extension r = Return e0 []
                            /\ forall z, load_one (numbered e0 z) = Return (Some r) [])
               rs es.
Proof.
  induction 1 as [|r rs Hr _ (es & Hmap & Hall)].
  - exists []. split; [reflexivity | constructor].
  - destruct (storable_extension Hr) as (e0 & Hext & Hload).
    exists (e0 :: es). split.
    + cbn [map map_m]. now rewrite Hext, bind_Return_l, Hmap, bind_Return_l.
    + constructor; [now split | exact Hall].
Qed.

(** The SEQUENCE extension of the default sequence of a set that is not
    empty. *)
Lemma default_sequence_extension (n : nat) :
  n <> 0 ->
  SEQUENCE list_dtype coercible version __version__ (PStr (py "unspecified"))
    [(py "VALUE", PList (map (fun i => PInt (Z.of_nat i)) (seq 0 n)))]
  = Return (MkHDU (header_set
                     (header_set (SEQUENCE_HEADER_KEYWORDS __version__) (py "CREATOR")
                        (PStr (py "3ML v." ++ version))
                        (Some (py "(G.Vianello, giacomov@slac.stanford.edu)")))
                     (py "SEQ_TYPE") (PStr (py "unspecified")) None)
                  [MkColumn (py "VALUE") (py "K") None
                     (PList (map (fun i => PInt (Z.of_nat i)) (seq 0 n)))]) [].
Proof. intros Hn. destruct n as [|n]; [congruence|]. reflexivity. Qed.

(** What is written for a set of such records, and what is read from it. *)
Lemma set_round_trip (rs : list Results) :
  rs <> [] ->
  Forall (fun r => storable r) rs ->
  exists f,
    write_set (AnalysisResultsSet__init__ (map Some rs)) = Return f []
    /\ load f =
         if List.length rs =? 1 then Return (Single (hd None (map Some rs))) []
         else Return (Several
                        (MkSet (map Some rs) (Some (PStr (py "unspecified")))
                           (Some [(py "VALUE",
                                   PList (map (fun i => PInt (Z.of_nat i))
                                              (seq 0 (List.length rs))))]))) [].
Proof.
  intros Hne Hall.
  destruct (storable_extensions Hall) as (es & Hmap & Hes).
  assert (Hlen : List.length es = List.length rs) by exact (Forall2_length_eq Hes).
  assert (Hn : List.length rs <> 0) by (destruct rs; [congruence | discriminate]).
  set (data := PList (map (fun i => PInt (Z.of_nat i)) (seq 0 (List.length rs)))).
  set (sequence_ext :=
         MkHDU (header_set
                  (header_set (SEQUENCE_HEADER_KEYWORDS __version__) (py "CREATOR")
                     (PStr (py "3ML v." ++ version))
                     (Some (py "(G.Vianello, giacomov@slac.stanford.edu)")))
                  (py "SEQ_TYPE") (PStr (py "unspecified")) None)
               [MkColumn (py "VALUE") (py "K") None data]).
  set (results_ext :=
         map (fun it : nat * BinTableHDU => numbered (snd it) (Z.of_nat (fst it + 1)))
             (enumerate es)).
  set (primary := header_set (header_set [] (py "DATE") (PStr now) None) (py "ORIGIN")
                             (PStr (py "3ML")) (Some (origin_comment __version__))).
  exists (MkFile primary ([sequence_ext] ++ results_ext)).
  assert (Hnth : forall i e, nth_error results_ext i = Some e ->
            exists r e0, nth_error rs i = Some r /\ extension r = Return e0 []
                         /\ e = numbered e0 (Z.of_nat (i + 1))
                         /\ load_one e = Return (Some r) []).
  { intros i e He. unfold results_ext in He. rewrite nth_error_map, nth_error_enumerate in He.
    destruct (nth_error es i) as [e0|] eqn:E0; [|discriminate He].
    cbn [option_map fst snd] in He. injection He as <-.
    destruct (Forall2_nth_error i Hes E0) as (r & Hr & Hext & Hload).
    exists r, e0. repeat split; [exact Hr | exact Hext | apply Hload]. }
  split.
  - unfold set_write_to, AnalysisResultsSet__init__. cbn [_sequence_name].
    rewrite characterize_ok, bind_Return_l.
    2:{ repeat constructor. cbn [snd len]. unfold set_len. cbn [_results].
        now rewrite !length_map, length_seq. }
    cbn [_sequence_name _sequence_tuple _results]. unfold AnalysisResultsFITS.
    unfold set_len. cbn [_results]. rewrite length_map.
    rewrite (default_sequence_extension Hn), !bind_Return_l, bind_ret_l.
    rewrite Hmap, bind_Return_l. reflexivity.
  - assert (Hseq : Forall (fun s => hdu_name s = py "SEQUENCE") [sequence_ext]).
    { repeat constructor. }
    assert (Hnum : forall j e', nth_error results_ext j = Some e' ->
              hdu_name e' = py "ANALYSIS_RESULTS" /\ hdu_ver e' = Z.of_nat (j + 1)).
    { intros j e' He'. destruct (Hnth j e' He') as (r & e0 & _ & Hext & -> & _).
      exact (@numbered_extension list_dtype coercible quantile version __version__ yaml_dump
               r e0 [] _ Hext). }
    assert (Hres_len : List.length results_ext = List.length rs).
    { unfold results_ext. now rewrite length_map, length_enumerate. }
    assert (Hcount : count_occ (list_eq_dec ascii_dec)
                       (py "PRIMARY" :: map hdu_name ([sequence_ext] ++ results_ext))
                       (py "ANALYSIS_RESULTS") = List.length rs).
    { rewrite count_occ_names; [exact Hres_len | exact Hseq |].
      rewrite Forall_forall. intros e He. apply In_nth_error in He as (j & Hj).
      now destruct (Hnum j e Hj). }
    assert (Hread : forall i, i < List.length rs ->
              bind (getitem_name_ver (MkFile primary ([sequence_ext] ++ results_ext))
                      (py "ANALYSIS_RESULTS") (Z.of_nat (i + 1))) load_one
              = Return (nth i (map Some rs) None) []).
    { intros i Hi. rewrite <- Hres_len in Hi. apply nth_error_Some in Hi.
      destruct (nth_error results_ext i) as [e|] eqn:He; [|congruence].
      rewrite (@find_numbered [sequence_ext] results_ext primary i e Hseq Hnum He), bind_Return_l.
      destruct (Hnth i e He) as (r & e0 & Hr & _ & _ & Hload). rewrite Hload.
      f_equal. symmetry. apply nth_error_nth. now rewrite nth_error_map, Hr. }
    unfold load_analysis_results. cbn [file_extensions]. rewrite Hcount.
    destruct (List.length rs =? 1) eqn:E1.
    + apply Nat.eqb_eq in E1.
      pose proof (Hread 0 ltac:(lia)) as H0. change (Z.of_nat (0 + 1)) with 1%Z in H0.
      rewrite <- bind_assoc, H0, bind_Return_l.
      destruct rs as [|r rs']; [congruence|]. reflexivity.
    + unfold _load_set_of_results.
      rewrite (@map_m_pure _ _ _ (fun i => nth i (map Some rs) None)).
      2:{ intros i Hi. apply in_seq in Hi. apply Hread. lia. }
      rewrite bind_Return_l.
      pose proof (map_nth_seq (map Some rs) None) as Hm. rewrite length_map in Hm.
      rewrite Hm.
      unfold getitem_name. cbn [file_extensions app find].
      assert (Hname : hdu_name sequence_ext = py "SEQUENCE")
        by now inversion Hseq.
      rewrite Hname, pystr_eqb_refl, bind_ret_l.
      unfold sequence_ext at 1 2. cbn [hdu_header hdu_columns map col_unit col_name col_array].
      rewrite header_get_set_same.
      rewrite characterize_ok, bind_Return_l; [reflexivity|].
      repeat constructor. cbn [snd]. unfold data, set_len, AnalysisResultsSet__init__.
      cbn [len _results]. now rewrite !length_map, length_seq.
Qed.



End SetTrip.

Lemma bayesian_record_is_storable :
  exists model samples stats w,
    free_parameters model <> []
    /\ NoDup (map path (free_parameters model))
    /\ distinct_names stats
    /\ free_of placeholder_words (dump_sample_text model) = true
    /\ parse_two_parameters (dump_sample_text model) = Return model []
    /\ rectangular samples /\ rows samples <> []
    /\ BayesianResults__init__ model samples stats = Return bayesian_record w.
Proof.
  exists two_parameters, three_samples, one_dataset, [].
  split; [discriminate|]. split; [repeat constructor; cbn; intuition discriminate|].
  split; [cbn; split; constructor|]. split; [reflexivity|]. split; [reflexivity|].
  split; [repeat constructor|]. split; [discriminate | reflexivity].
Qed.



End SetRoundTrip.
(* ================================================================= *)
(** * The data frame, and the samples of a fit that is read back *)

Module FrameProps.
Import Py PyFacts PyStrFacts Np Astromodels AnalysisResults FitsFile Escaping Persistence.
Import Methods FrameFacts HeaderFacts ColumnFacts ResultsFacts EscapingFacts WriteFacts.
Import ReadFacts RoundTripFacts.

(** X29.  Whenever [get_data_frame] returns, the frame has one row for each
    free parameter, in their order, and its columns of paths, values and
    units are those of the parameters, whatever the error type, the
    confidence level and the samples. *)
Theorem data_frame_columns (quantile : list float -> float -> float) (model : Model)
  (samples : matrix) (stats : list (pyval * float)) (ty : PyStr.t) (self : _AnalysisResults)
  (error_type : PyStr.t) (cl : float) (frame : list frame_row) (w : list message) :
  _AnalysisResults__init__ model samples stats ty = Return self [] ->
  NoDup (map path (free_parameters model)) ->
  get_data_frame quantile self error_type cl = Return frame w ->
  map row_path frame = map path (free_parameters model)
  /\ map row_value frame = map value (free_parameters model)
  /\ map row_unit frame = map unit (free_parameters model).
Proof.
  intros Hbuilt Hnd Hframe.
  assert (Hsame : get_data_frame quantile self (py "equal tail") cl = Return frame w).
  { unfold get_data_frame in Hframe.
    destruct (PyStr.eqb error_type (py "equal tail")) eqn:E1.
    - apply pystr_eqb_eq in E1. subst error_type. exact Hframe.
    - destruct (PyStr.eqb error_type (py "hpd")) eqn:E2; [exact Hframe | discriminate Hframe]. }
  clear Hframe.
  destruct ((0 <? cl) && (cl <? 1))%float eqn:Hcl.
  - rewrite (@get_data_frame_rows quantile model samples stats ty self Hbuilt cl Hnd Hcl)
      in Hsame.
    injection Hsame as <- _. rewrite !map_map. cbn [equal_tail_row row_path row_value row_unit].
    pose proof (map_snd_enumerate (free_parameters model)) as Hsnd. unfold enumerate in Hsnd.
    assert (Hcol : forall (B : Type) (g : FreeParameter -> B),
              map (fun x : nat * FreeParameter => g (snd x))
                  (combine (seq 0 (List.length (free_parameters model)))
                           (free_parameters model))
              = map g (free_parameters model)).
    { intros B g. now rewrite <- (map_map snd g), Hsnd. }
    now rewrite !Hcol.
  - destruct (@built_fields model samples stats ty self Hbuilt) as [_ Hself].
    assert (Hfp : _free_parameters self = free_parameters model) by now rewrite Hself.
    unfold get_data_frame in Hsame.
    change (PyStr.eqb (py "equal tail") (py "equal tail")) with true in Hsame.
    cbv iota in Hsame. rewrite bind_ret_l, Hfp in Hsame.
    destruct (free_parameters model) as [|p ps] eqn:Ep.
    + injection Hsame as <- _. now repeat split.
    + exfalso. cbn [for_each] in Hsame.
      assert (Hp : nth_error (free_parameters model) 0 = Some p) by now rewrite Ep.
      rewrite <- Ep in Hnd.
      rewrite (@get_variates_nth model samples stats ty self Hbuilt 0 p Hnd Hp),
        bind_Return_l in Hsame.
      rewrite (@equal_tail_outside quantile _ cl Hcl) in Hsame. discriminate Hsame.
Qed.

Section Redraw.

Variable list_dtype : list pyval -> option dtype.
Variable coercible : pyval -> dtype -> bool.
Variable quantile : list float -> float -> float.
Variable version : PyStr.t.
Variable __version__ : PyStr.t.
Variable now : PyStr.t.
Variable yaml_dump : Model -> PyStr.t.
Variable yaml_load : PyStr.t -> outcome Model.
Variable redraw : list float -> matrix -> nat -> list (list float).


End Redraw.

Lemma data_frame_columns_witness :
  exists frame w,
    get_data_frame first_sample two_parameter_results (py "hpd") 0.5 = Return frame w
    /\ map row_path frame = [py "src.K"; py "src.index"]
    /\ map row_value frame = [1.5; -1]%float
    /\ map row_unit frame = [py "keV"; py ""].
Proof.
  destruct (get_data_frame first_sample two_parameter_results (py "hpd") 0.5)
    as [frame w|e] eqn:E; [|vm_compute in E; discriminate E].
  exists frame, w. split; [reflexivity|].
  assert (Hbuilt : _AnalysisResults__init__ two_parameters
                     (Matrix 2 [[1; -1]; [1.5; -1]; [2; -1]]%float) [] (py "MLE")
                   = Return two_parameter_results []) by reflexivity.
  assert (Hnd : NoDup (map path (free_parameters two_parameters)))
    by (repeat constructor; cbn; intuition discriminate).
  exact (@data_frame_columns first_sample two_parameters _ [] (py "MLE")
           two_parameter_results (py "hpd") 0.5%float frame w Hbuilt Hnd E).
Defined.


End FrameProps.
